(** * convert-tools: the HEIC to JPEG converter

    A shallow embedding of [convert_heic_to_jpeg.js] (the Node.js command
    line front end) and of the conversion core of
    [convert_heic_to_jpeg.pde] (the Processing sketch).

    The script is sequential effectful code: it prints lines, spawns
    [magick], queries and mutates the file system, and may leave through
    [process.exit].  It is embedded in a small monad [Js] that threads the
    host (file system and processes) and the two mutable tallies, records
    every effect in an event list, and distinguishes normal completion, a
    thrown JavaScript error and process exit. *)

From Stdlib Require Import String Ascii List ZArith Lia Bool Arith.
From Stdlib Require Import DecimalString.
Import ListNotations.
Open Scope string_scope.

(** ** Strings as JavaScript uses them here *)

(** The double quote and the escape character, written by code point. *)
Definition dquote : string := String (ascii_of_nat 34) EmptyString.
Definition esc : string := String (ascii_of_nat 27) EmptyString.

(** [String.prototype.toLowerCase], on the ASCII range.  Strings are byte
    strings (UTF-8); bytes above 127 are left alone.  The script only
    compares lower-cased text with the ASCII tokens [delete], [.heic] and
    [heic]. *)
Definition lower_ascii (c : ascii) : ascii :=
  let n := nat_of_ascii c in
  if (65 <=? n)%nat && (n <=? 90)%nat then ascii_of_nat (n + 32) else c.

Fixpoint toLowerCase (s : string) : string :=
  match s with
  | EmptyString => EmptyString
  | String c r => String (lower_ascii c) (toLowerCase r)
  end.

(** [s.endsWith(suffix)] *)
Definition endsWith (s suffix : string) : bool :=
  let n := String.length s in
  let m := String.length suffix in
  (m <=? n)%nat && String.eqb (substring (n - m) m s) suffix.

(** [s.includes(needle)] *)
Fixpoint includes (s needle : string) : bool :=
  prefix needle s ||
  match s with
  | EmptyString => false
  | String _ r => includes r needle
  end.

(** The decimal rendering of a number inside a template literal. *)
Definition show_nat (n : nat) : string :=
  NilEmpty.string_of_uint (Nat.to_uint n).

(** ** [path.parse(p).name] (POSIX flavour of Node's [path] module)

    The scan runs from the last character to the first, as [posix.parse]
    does: it records where the last component ends, where its last dot
    is, and what precedes that dot.  The script applies it to the names
    [readdirSync] returns, which hold no separator. *)
Record ParseScan := {
  startDot : option nat;
  startPart : nat;
  endIdx : option nat;
  matchedSlash : bool;
  preDotState : Z
}.

Definition scan0 : ParseScan :=
  {| startDot := None; startPart := 0; endIdx := None;
     matchedSlash := true; preDotState := 0 |}.

(** One iteration of the loop at index [i] on character [c]; [inr] is the
    [break]. *)
Definition scan_step (i : nat) (c : ascii) (s : ParseScan)
  : ParseScan + ParseScan :=
  if Ascii.eqb c "/" then
    if negb (matchedSlash s)
    then inr {| startDot := startDot s; startPart := i + 1;
                endIdx := endIdx s; matchedSlash := matchedSlash s;
                preDotState := preDotState s |}
    else inl s
  else
    let s1 :=
      match endIdx s with
      | None => {| startDot := startDot s; startPart := startPart s;
                   endIdx := Some (i + 1); matchedSlash := false;
                   preDotState := preDotState s |}
      | Some _ => s
      end in
    if Ascii.eqb c "." then
      match startDot s1 with
      | None => inl {| startDot := Some i; startPart := startPart s1;
                       endIdx := endIdx s1; matchedSlash := matchedSlash s1;
                       preDotState := preDotState s1 |}
      | Some _ =>
          inl {| startDot := startDot s1; startPart := startPart s1;
                 endIdx := endIdx s1; matchedSlash := matchedSlash s1;
                 preDotState := 1 |}
      end
    else
      match startDot s1 with
      | Some _ =>
          inl {| startDot := startDot s1; startPart := startPart s1;
                 endIdx := endIdx s1; matchedSlash := matchedSlash s1;
                 preDotState := (-1) |}
      | None => inl s1
      end.

(** The loop [for (; i >= start; --i)]: [rev_chars] holds the characters
    at indices [start .. start + length rev_chars - 1], last one first. *)
Fixpoint scan_loop (start : nat) (rev_chars : list ascii) (s : ParseScan)
  : ParseScan :=
  match rev_chars with
  | [] => s
  | c :: r =>
      match scan_step (start + List.length r) c s with
      | inl s' => scan_loop start r s'
      | inr s' => s'
      end
  end.

Definition isAbsolute (p : string) : bool :=
  match p with
  | String c _ => Ascii.eqb c "/"
  | EmptyString => false
  end.

(** [p.slice(a, b)] for [a <= b]. *)
Definition slice (a b : nat) (p : string) : string := substring a (b - a) p.

Definition parse_name (p : string) : string :=
  let start := if isAbsolute p then 1 else 0 in
  let chars := list_ascii_of_string p in
  let s := scan_loop start (List.rev (skipn start chars)) scan0 in
  match endIdx s with
  | None => EmptyString
  | Some e =>
      let st := if (startPart s =? 0)%nat && isAbsolute p then 1 else startPart s in
      match startDot s with
      | None => slice st e p
      | Some d =>
          if (preDotState s =? 0)%Z
             || ((preDotState s =? 1)%Z && (d =? e - 1)%nat && (d =? startPart s + 1)%nat)
          then slice st e p
          else slice st d p
      end
  end.

(** ** The host: what Node.js provides to the script *)

(** What a spawned child process leaves behind: its exit status, the text
    on its standard output, and the message of the error [execSync] throws
    when the status is not zero.  A child that could not be started, or
    was killed, counts as one with a non-zero status. *)
Record ProcResult := {
  status : Z;
  stdout : string;
  failure : string
}.

(** What [fs.lstatSync] reports about a directory entry. *)
Inductive FileKind := RegularFile | Directory | SymbolicLink | OtherKind.

Definition isFile (k : FileKind) : bool :=
  match k with RegularFile => true | _ => false end.

Definition isDirectory (k : FileKind) : bool :=
  match k with Directory => true | _ => false end.

(** A JavaScript [Error], reduced to its [message]. *)
Definition Error := string.

(** The part of Node.js the script calls and does not define.  Queries
    read the world; spawning a process and unlinking a file change it. *)
Class Host (World : Type) := {
  process_cwd : World -> string;
  path_resolve : World -> string -> string;
  path_join : string -> string -> string;
  spawn : string -> World -> ProcResult * World;
  fs_existsSync : string -> World -> bool;
  fs_lstatSync : string -> World -> Error + FileKind;
  fs_readdirSync : string -> World -> Error + list string;
  fs_unlinkSync : string -> World -> option Error * World
}.

(** ** Effects *)

(** Everything the script does to the outside, in the order it does it. *)
Inductive Event :=
| EvPrint (line : string)
| EvExec (cmd : string) (exit_status : Z)
| EvExists (p : string)
| EvLstat (p : string)
| EvReaddir (p : string)
| EvUnlink (p : string) (removed : bool).

(** How a piece of script ends: normally with a value, by throwing, or by
    [process.exit], which no [catch] intercepts. *)
Inductive Completion (A : Type) :=
| Normal (a : A)
| Thrown (e : Error)
| Exited (code : Z).
Arguments Normal {A} a.
Arguments Thrown {A} e.
Arguments Exited {A} code.

(** The mutable state: the host and the two [let] tallies of [main]. *)
Record Mem (World : Type) := {
  world : World;
  converted : nat;
  failed : nat
}.
Arguments world {World} m.
Arguments converted {World} m.
Arguments failed {World} m.

(** A computation of the script over a host [World]. *)
Definition JsM (World : Type) (A : Type) : Type :=
  Mem World -> Completion A * Mem World * list Event.

Section Script.
Context {World : Type}.
Local Abbreviation Js := (JsM World).

Definition ret {A} (a : A) : Js A := fun m => (Normal a, m, []).

Definition bind {A B} (c : Js A) (k : A -> Js B) : Js B := fun m =>
  match c m with
  | (Normal a, m1, t1) =>
      match k a m1 with
      | (r, m2, t2) => (r, m2, (t1 ++ t2)%list)
      end
  | (Thrown e, m1, t1) => (Thrown e, m1, t1)
  | (Exited code, m1, t1) => (Exited code, m1, t1)
  end.

Definition throw {A} (e : Error) : Js A := fun m => (Thrown e, m, []).

(** [process.exit(code)] *)
Definition process_exit {A} (code : Z) : Js A := fun m => (Exited code, m, []).

(** [try { body } catch (e) { handler(e) }] *)
Definition try_catch {A} (body : Js A) (handler : Error -> Js A) : Js A :=
  fun m =>
    match body m with
    | (Thrown e, m1, t1) =>
        match handler e m1 with
        | (r, m2, t2) => (r, m2, (t1 ++ t2)%list)
        end
    | other => other
    end.

Definition emit (e : Event) : Js unit := fun m => (Normal tt, m, [e]).

End Script.

Declare Scope js_scope.
Delimit Scope js_scope with js.
Notation "x <- c1 ;; c2" := (bind c1 (fun x => c2))
  (at level 100, c1 at next level, right associativity) : js_scope.
Notation "c1 ;; c2" := (bind c1 (fun _ => c2))
  (at level 100, right associativity) : js_scope.
Notation "'try' b 'catch' e => h" := (try_catch b (fun e => h))
  (at level 100, e name, b at next level, h at level 100) : js_scope.

(** ** convert_heic_to_jpeg.js *)

(** The [colors] table of ANSI escape sequences. *)
Definition green : string := esc ++ "[32m".
Definition red : string := esc ++ "[31m".
Definition yellow : string := esc ++ "[33m".
Definition cyan : string := esc ++ "[36m".
Definition reset : string := esc ++ "[0m".
Definition bright : string := esc ++ "[1m".

(** The three [magick] command lines of the conversion, in source order. *)
Definition cmd_direct (inputPath outputPath : string) : string :=
  "magick " ++ dquote ++ inputPath ++ dquote ++ " -quality 90 "
    ++ dquote ++ outputPath ++ dquote.

Definition cmd_format (inputPath outputPath : string) : string :=
  "magick heic:" ++ dquote ++ inputPath ++ dquote ++ " -quality 90 "
    ++ dquote ++ outputPath ++ dquote.

Definition cmd_orient (inputPath outputPath : string) : string :=
  "magick " ++ dquote ++ inputPath ++ dquote ++ " -auto-orient -quality 90 "
    ++ dquote ++ outputPath ++ dquote.

(** What argument parsing leaves in [targetFolder] and [deleteOriginals]. *)
Record Config := {
  targetFolder : string;
  deleteOriginals : bool
}.

Section Main.
Context {World : Type} `{Host World}.
Local Abbreviation Js := (JsM World).
Local Open Scope js_scope.

Definition set_world (w : World) (m : Mem World) : Mem World :=
  {| world := w; converted := converted m; failed := failed m |}.

(** [console.log(line)] *)
Definition console_log (line : string) : Js unit := emit (EvPrint line).

(** [colorLog(message, color)] *)
Definition colorLog (message color : string) : Js unit :=
  console_log (color ++ message ++ reset).

(** [execSync(cmd, ...)]: returns the child's standard output, throws when
    the child does not exit with status zero. *)
Definition execSync (cmd : string) : Js string := fun m =>
  let (r, w) := spawn cmd (world m) in
  if (status r =? 0)%Z
  then (Normal (stdout r), set_world w m, [EvExec cmd (status r)])
  else (Thrown (failure r), set_world w m, [EvExec cmd (status r)]).

Definition existsSync (p : string) : Js bool := fun m =>
  (Normal (fs_existsSync p (world m)), m, [EvExists p]).

Definition lstatSync (p : string) : Js FileKind := fun m =>
  match fs_lstatSync p (world m) with
  | inr k => (Normal k, m, [EvLstat p])
  | inl e => (Thrown e, m, [EvLstat p])
  end.

Definition readdirSync (p : string) : Js (list string) := fun m =>
  match fs_readdirSync p (world m) with
  | inr names => (Normal names, m, [EvReaddir p])
  | inl e => (Thrown e, m, [EvReaddir p])
  end.

Definition unlinkSync (p : string) : Js unit := fun m =>
  match fs_unlinkSync p (world m) with
  | (None, w) => (Normal tt, set_world w m, [EvUnlink p true])
  | (Some e, w) => (Thrown e, set_world w m, [EvUnlink p false])
  end.

Definition cwd : Js string := fun m => (Normal (process_cwd (world m)), m, []).

Definition resolve (p : string) : Js string := fun m =>
  (Normal (path_resolve (world m) p), m, []).

(** [converted++], [failed++] and the two initialisations. *)
Definition incr_converted : Js unit := fun m =>
  (Normal tt, {| world := world m; converted := S (converted m);
                 failed := failed m |}, []).

Definition incr_failed : Js unit := fun m =>
  (Normal tt, {| world := world m; converted := converted m;
                 failed := S (failed m) |}, []).

Definition init_tallies : Js unit := fun m =>
  (Normal tt, {| world := world m; converted := 0; failed := 0 |}, []).

Definition get_converted : Js nat := fun m => (Normal (converted m), m, []).
Definition get_failed : Js nat := fun m => (Normal (failed m), m, []).

(** [array.filter(callback)] with a callback that has effects. *)
Fixpoint filterM {A} (p : A -> Js bool) (l : list A) : Js (list A) :=
  match l with
  | [] => ret []
  | x :: r =>
      keep <- p x;;
      rest <- filterM p r;;
      ret (if keep then x :: rest else rest)
  end.

(** [for (const x of l) { body(x) }] *)
Fixpoint forEach {A} (body : A -> Js unit) (l : list A) : Js unit :=
  match l with
  | [] => ret tt
  | x :: r => body x;; forEach body r
  end.

(** Lines 57-59. *)
Definition banner : Js unit :=
  colorLog "HEIC to JPEG Converter (Node.js)" (bright ++ green);;
  colorLog "====================================" (bright ++ green);;
  console_log "".

Definition preserve_line : string :=
  "Preserve mode: Original HEIC files will be kept".
Definition delete_line : string :=
  "Delete mode: Original HEIC files will be deleted after successful conversion".

(** Lines 62-95: [args] is [process.argv.slice(2)]. *)
Definition parseArgs (args : list string) : Js Config :=
  here <- cwd;;
  match args with
  | [] =>
      colorLog ("Using current directory: " ++ here) cyan;;
      colorLog preserve_line cyan;;
      ret {| targetFolder := here; deleteOriginals := false |}
  | [a0] =>
      if String.eqb (toLowerCase a0) "delete" then
        colorLog ("Using current directory: " ++ here) cyan;;
        colorLog delete_line yellow;;
        ret {| targetFolder := here; deleteOriginals := true |}
      else
        dir <- resolve a0;;
        colorLog ("Using specified directory: " ++ dir) cyan;;
        colorLog preserve_line cyan;;
        ret {| targetFolder := dir; deleteOriginals := false |}
  | [a0; a1] =>
      dir <- resolve a0;;
      let del := String.eqb (toLowerCase a1) "delete" in
      colorLog ("Using specified directory: " ++ dir) cyan;;
      (if del then colorLog delete_line yellow
       else colorLog preserve_line cyan);;
      ret {| targetFolder := dir; deleteOriginals := del |}
  | _ => ret {| targetFolder := here; deleteOriginals := false |}
  end.

(** Lines 100-107: the tool must answer [magick -version]. *)
Definition checkImageMagick : Js unit :=
  try (execSync "magick -version";; ret tt)
  catch error =>
    (colorLog "ERROR: ImageMagick not found or not in PATH" red;;
     colorLog "Please install ImageMagick and ensure it's in your system PATH" red;;
     colorLog "Download from: https://imagemagick.org/script/download.php" red;;
     process_exit 1).

(** Lines 110-120: the format listing is only good for a warning. *)
Definition testHeicSupport : Js unit :=
  try
    (formatList <- execSync "magick -list format";;
     if negb (includes (toLowerCase formatList) "heic") then
       colorLog "WARNING: HEIC format may not be supported by your ImageMagick installation" yellow;;
       colorLog "This could cause conversion errors" yellow;;
       console_log ""
     else ret tt)
  catch error =>
    (colorLog "WARNING: Could not verify HEIC support" yellow;;
     console_log "").

(** Lines 123-132. *)
Definition checkDirectory (dir : string) : Js unit :=
  present <- existsSync dir;;
  if negb present then
    colorLog ("ERROR: Directory " ++ dquote ++ dir ++ dquote ++ " does not exist") red;;
    process_exit 1
  else
    k <- lstatSync dir;;
    if negb (isDirectory k) then
      colorLog ("ERROR: " ++ dquote ++ dir ++ dquote ++ " is not a directory") red;;
      process_exit 1
    else ret tt.

(** The callback of the filter at lines 138-141; [&&] does not evaluate
    its right operand when the left one is false. *)
Definition isHeicFile (dir file : string) : Js bool :=
  if endsWith (toLowerCase file) ".heic" then
    k <- lstatSync (path_join dir file);;
    ret (isFile k)
  else ret false.

(** Lines 135-146. *)
Definition findHeicFiles (dir : string) : Js (list string) :=
  try
    (allFiles <- readdirSync dir;;
     filterM (isHeicFile dir) allFiles)
  catch error =>
    (colorLog ("ERROR: Cannot read directory " ++ dquote ++ dir ++ dquote) red;;
     colorLog ("Details: " ++ error) red;;
     process_exit 1).

(** Lines 171-191: the nested attempts; the value is [conversionSuccess]. *)
Definition tryConversions (inputPath outputPath : string) : Js bool :=
  try (execSync (cmd_direct inputPath outputPath);; ret true)
  catch error1 =>
    (try
       (console_log "  Retrying with format specification...";;
        execSync (cmd_format inputPath outputPath);; ret true)
     catch error2 =>
       (try
          (console_log "  Retrying with alternative options...";;
           execSync (cmd_orient inputPath outputPath);; ret true)
        catch error3 => throw error3)).

(** Lines 198-206. *)
Definition deleteOriginal (inputPath fileName : string) : Js unit :=
  try
    (unlinkSync inputPath;;
     colorLog ("  DELETED: Removed original file " ++ fileName) yellow)
  catch deleteError =>
    (colorLog ("  WARNING: Could not delete original file " ++ fileName) yellow;;
     colorLog ("  Details: " ++ deleteError) yellow).

(** Lines 160-215: the body of the loop over [heicFiles]. *)
Definition convertFile (cfg : Config) (fileName : string) : Js unit :=
  let inputPath := path_join (targetFolder cfg) fileName in
  let baseName := parse_name fileName in
  let outputPath := path_join (targetFolder cfg) (baseName ++ ".jpg") in
  colorLog ("Converting: " ++ fileName) cyan;;
  (try
     (conversionSuccess <- tryConversions inputPath outputPath;;
      if conversionSuccess then
        colorLog ("  SUCCESS: Created " ++ baseName ++ ".jpg") green;;
        incr_converted;;
        if deleteOriginals cfg then deleteOriginal inputPath fileName
        else ret tt
      else ret tt)
   catch error =>
     (colorLog ("  ERROR: Failed to convert " ++ fileName) red;;
      colorLog ("  Details: " ++ error) red;;
      incr_failed));;
  console_log "".

(** Lines 217-221. *)
Definition summary : Js unit :=
  colorLog "Conversion complete!" (bright ++ green);;
  c <- get_converted;;
  colorLog ("Files converted successfully: " ++ show_nat c) green;;
  f <- get_failed;;
  if (0 <? f)%nat then colorLog ("Files that failed: " ++ show_nat f) red
  else ret tt.

(** Lines 148-221: what [main] does with the enumerated files. *)
Definition processFiles (cfg : Config) (heicFiles : list string) : Js unit :=
  if (List.length heicFiles =? 0)%nat then
    colorLog "No HEIC files found in target directory" yellow;;
    process_exit 0
  else
    colorLog ("Found " ++ show_nat (List.length heicFiles)
                ++ " HEIC file(s) to convert") green;;
    console_log "";;
    init_tallies;;
    forEach (convertFile cfg) heicFiles;;
    summary.

(** Lines 56-222. *)
Definition main (args : list string) : Js unit :=
  banner;;
  cfg <- parseArgs args;;
  console_log "";;
  checkImageMagick;;
  testHeicSupport;;
  checkDirectory (targetFolder cfg);;
  heicFiles <- findHeicFiles (targetFolder cfg);;
  processFiles cfg heicFiles.

(** Lines 237-240: [main().catch(...)]. *)
Definition script (args : list string) : Js unit :=
  try main args
  catch error =>
    (colorLog ("Error: " ++ error) red;;
     process_exit 1).

(** The exit status of the process: that of [process.exit] when it was
    called, zero when the script ran to its end. *)
Definition exit_status_of {A} (c : Completion A) : Z :=
  match c with
  | Normal _ => 0
  | Thrown _ => 1
  | Exited code => code
  end.

(** A run of the script from a given host state. *)
Definition node (args : list string) (w : World)
  : Completion unit * Mem World * list Event :=
  script args {| world := w; converted := 0; failed := 0 |}.

End Main.

(** ** A small concrete host

    A file system given by its nodes and directory listings, a [magick]
    whose exit status is a function of the command line, and a list of
    files that cannot be removed.  It serves to run the script on
    concrete scenarios. *)
Module Mock.

Record Fs := {
  nodes : list (string * FileKind);
  listings : list (string * list string);
  tool : string -> ProcResult;
  locked : list string
}.

Fixpoint lookup {A} (k : string) (l : list (string * A)) : option A :=
  match l with
  | [] => None
  | (k', v) :: r => if String.eqb k k' then Some v else lookup k r
  end.

Definition mem_str (k : string) (l : list string) : bool :=
  existsb (String.eqb k) l.

Definition join (dir file : string) : string := dir ++ "/" ++ file.

Definition remove_node (p : string) (fs : Fs) : Fs :=
  {| nodes := filter (fun e => negb (String.eqb (fst e) p)) (nodes fs);
     listings := listings fs;
     tool := tool fs;
     locked := locked fs |}.

#[global] Instance host : Host Fs := {
  process_cwd := fun _ => "/home/user";
  path_resolve := fun _ p => if isAbsolute p then p else join "/home/user" p;
  path_join := join;
  spawn := fun cmd fs => (tool fs cmd, fs);
  fs_existsSync := fun p fs =>
    match lookup p (nodes fs) with Some _ => true | None => false end;
  fs_lstatSync := fun p fs =>
    match lookup p (nodes fs) with
    | Some k => inr k
    | None => inl ("ENOENT: no such file or directory, lstat '" ++ p ++ "'")
    end;
  fs_readdirSync := fun p fs =>
    match lookup p (listings fs) with
    | Some names => inr names
    | None => inl ("ENOENT: no such file or directory, scandir '" ++ p ++ "'")
    end;
  fs_unlinkSync := fun p fs =>
    if mem_str p (locked fs)
    then (Some ("EPERM: operation not permitted, unlink '" ++ p ++ "'"), fs)
    else (None, remove_node p fs)
}.

Definition ok : ProcResult :=
  {| status := 0; stdout := "HEIC* rw+ High Efficiency Image Format"; failure := "" |}.

Definition ko (cmd : string) : ProcResult :=
  {| status := 1; stdout := ""; failure := "Command failed: " ++ cmd |}.

(** A tool that fails exactly on the listed command lines. *)
Definition failing_on (bad : list string) (cmd : string) : ProcResult :=
  if mem_str cmd bad then ko cmd else ok.

(** The directory of the enumeration scenario: three HEIC files, a text
    file, and a sub-directory whose name ends in [.heic] and which holds
    one more HEIC file. *)
Definition photos : string := "/photos".

Definition photos_nodes : list (string * FileKind) :=
  [ (photos, Directory);
    (join photos "a.heic", RegularFile);
    (join photos "b.heic", RegularFile);
    (join photos "c.HEIC", RegularFile);
    (join photos "notes.txt", RegularFile);
    (join photos "old.heic", Directory);
    (join (join photos "old.heic") "x.heic", RegularFile) ].

Definition photos_fs (bad locked_files : list string) : Fs :=
  {| nodes := photos_nodes;
     listings := [ (photos, ["a.heic"; "b.heic"; "c.HEIC"; "notes.txt"; "old.heic"]);
                   (join photos "old.heic", ["x.heic"]) ];
     tool := failing_on bad;
     locked := locked_files |}.

(** A directory that holds no HEIC file. *)
Definition empty_fs : Fs :=
  {| nodes := [ ("/empty", Directory); (join "/empty" "notes.txt", RegularFile) ];
     listings := [ ("/empty", ["notes.txt"]) ];
     tool := failing_on [];
     locked := [] |}.

(** The photo directory when [a.jpg] is there before the run. *)
Definition photos_with_output : Fs :=
  {| nodes := (join photos "a.jpg", RegularFile) :: photos_nodes;
     listings := [ (photos, ["a.heic"; "a.jpg"; "b.heic"; "c.HEIC"; "notes.txt";
                             "old.heic"]);
                   (join photos "old.heic", ["x.heic"]) ];
     tool := failing_on [];
     locked := [] |}.

(** A host whose directories cannot all be read: [/sealed] has no
    listing, and the listing of [/broken] names a file that is gone. *)
Definition broken_fs : Fs :=
  {| nodes := [ ("/broken", Directory); (join "/broken" "a.heic", RegularFile);
                (join "/broken" "b.heic", RegularFile); ("/sealed", Directory) ];
     listings := [ ("/broken", ["a.heic"; "ghost.heic"; "b.heic"]) ];
     tool := failing_on [];
     locked := [] |}.

End Mock.

(** ** convert_heic_to_jpeg.pde: the conversion core of the sketch

    The Processing sketch runs the same conversion from a button of its
    window.  Its core is embedded over the part of the Java runtime it
    calls; the drawing code and the widgets are left out. *)
Module Pde.

(** What the sketch writes and does, in order. *)
Inductive Ev :=
| Println (line : string)
| Exec (command : string) (exitCode : option Z)
| Delete (path : string) (result : string + bool).

(** The Java runtime as the sketch uses it.  [runtime_exec] is
    [Runtime.exec] followed by [waitFor]: the exit code, or nothing when
    either throws.  [file_delete] is [File.delete]: its boolean, or the
    message of the exception it throws. *)
Class Jvm (World : Type) := {
  runtime_exec : string -> World -> option Z * World;
  file_delete : string -> World -> (string + bool) * World;
  file_getName : string -> string;
  file_getParent : string -> string;
  file_separator : string
}.

(** A Java [int]: 32 bits, two's complement. *)
Definition wrap_int (z : Z) : Z := ((z + 2 ^ 31) mod 2 ^ 32 - 2 ^ 31)%Z.

(** [String.valueOf(int)] as string concatenation applies it. *)
Definition show_int (z : Z) : string :=
  if (z <? 0)%Z then "-" ++ show_nat (Z.to_nat (- z)) else show_nat (Z.to_nat z).

(** [s.lastIndexOf('.')]: the index of the last dot, or -1. *)
Fixpoint lastIndexOf_dot_from (i : Z) (s : string) (found : Z) : Z :=
  match s with
  | EmptyString => found
  | String c r =>
      lastIndexOf_dot_from (i + 1) r (if Ascii.eqb c "." then i else found)
  end.

Definition lastIndexOf_dot (s : string) : Z := lastIndexOf_dot_from 0 s (-1).

(** The global variables of the sketch that the conversion reads or
    writes, with the runtime's state. *)
Record Sketch (World : Type) := {
  jvm : World;
  DELETE_ORIGINALS : bool;
  JPEG_QUALITY : Z;
  currentFileIndex : Z;
  isConverting : bool;
  conversionComplete : bool;
  convertedCount : Z;
  failedCount : Z;
  currentStatus : string
}.
Arguments jvm {World} s.
Arguments DELETE_ORIGINALS {World} s.
Arguments JPEG_QUALITY {World} s.
Arguments currentFileIndex {World} s.
Arguments isConverting {World} s.
Arguments conversionComplete {World} s.
Arguments convertedCount {World} s.
Arguments failedCount {World} s.
Arguments currentStatus {World} s.

Section Sketch.
Context {World : Type} `{Jvm World}.

(** The [commands] array of [convertSingleFile]. *)
Definition commands (quality : Z) (inputPath outputPath : string)
  : list string :=
  ["magick " ++ dquote ++ inputPath ++ dquote ++ " -quality "
     ++ show_int quality ++ " " ++ dquote ++ outputPath ++ dquote;
   "magick heic:" ++ dquote ++ inputPath ++ dquote ++ " -quality "
     ++ show_int quality ++ " " ++ dquote ++ outputPath ++ dquote;
   "magick " ++ dquote ++ inputPath ++ dquote ++ " -auto-orient -quality "
     ++ show_int quality ++ " " ++ dquote ++ outputPath ++ dquote].

(** The loop [for (String command : commands)]: [return true] on exit
    code zero, [continue] on an exception, the next command otherwise,
    [false] after the last. *)
Fixpoint tryCommands (cmds : list string) (w : World)
  : bool * World * list Ev :=
  match cmds with
  | [] => (false, w, [])
  | command :: rest =>
      match runtime_exec command w with
      | (Some exitCode, w1) =>
          if (exitCode =? 0)%Z
          then (true, w1, [Exec command (Some exitCode)])
          else
            match tryCommands rest w1 with
            | (r, w2, t) => (r, w2, Exec command (Some exitCode) :: t)
            end
      | (None, w1) =>
          match tryCommands rest w1 with
          | (r, w2, t) => (r, w2, Exec command None :: t)
          end
      end
  end.

(** [convertSingleFile(inputPath, outputPath)], lines 307-335. *)
Definition convertSingleFile (quality : Z) (inputPath outputPath : string)
           (w : World) : bool * World * list Ev :=
  tryCommands (commands quality inputPath outputPath) w.

Definition set_jvm (w : World) (s : Sketch World) : Sketch World :=
  {| jvm := w; DELETE_ORIGINALS := DELETE_ORIGINALS s;
     JPEG_QUALITY := JPEG_QUALITY s; currentFileIndex := currentFileIndex s;
     isConverting := isConverting s;
     conversionComplete := conversionComplete s;
     convertedCount := convertedCount s; failedCount := failedCount s;
     currentStatus := currentStatus s |}.

Definition set_progress (i : Z) (status : string) (s : Sketch World)
  : Sketch World :=
  {| jvm := jvm s; DELETE_ORIGINALS := DELETE_ORIGINALS s;
     JPEG_QUALITY := JPEG_QUALITY s; currentFileIndex := i;
     isConverting := isConverting s;
     conversionComplete := conversionComplete s;
     convertedCount := convertedCount s; failedCount := failedCount s;
     currentStatus := status |}.

Definition count_converted (s : Sketch World) : Sketch World :=
  {| jvm := jvm s; DELETE_ORIGINALS := DELETE_ORIGINALS s;
     JPEG_QUALITY := JPEG_QUALITY s; currentFileIndex := currentFileIndex s;
     isConverting := isConverting s;
     conversionComplete := conversionComplete s;
     convertedCount := wrap_int (convertedCount s + 1);
     failedCount := failedCount s; currentStatus := currentStatus s |}.

Definition count_failed (s : Sketch World) : Sketch World :=
  {| jvm := jvm s; DELETE_ORIGINALS := DELETE_ORIGINALS s;
     JPEG_QUALITY := JPEG_QUALITY s; currentFileIndex := currentFileIndex s;
     isConverting := isConverting s;
     conversionComplete := conversionComplete s;
     convertedCount := convertedCount s;
     failedCount := wrap_int (failedCount s + 1);
     currentStatus := currentStatus s |}.

(** Lines 236-246: the removal of the original, and its three messages. *)
Definition deleteOriginal (inputPath fileName : string) (s : Sketch World)
  : Sketch World * list Ev :=
  match file_delete inputPath (jvm s) with
  | (inr true, w) =>
      (set_jvm w s,
       [Delete inputPath (inr true);
        Println ("  DELETED: Removed original file " ++ fileName)])
  | (inr false, w) =>
      (set_jvm w s,
       [Delete inputPath (inr false);
        Println ("  WARNING: Could not delete original file " ++ fileName)])
  | (inl message, w) =>
      (set_jvm w s,
       [Delete inputPath (inl message);
        Println ("  WARNING: Error deleting original file - " ++ message)])
  end.

(** Lines 220-257: one turn of the loop of [convertFiles], for the file
    at index [i].  [None] stands for the exception [substring] throws
    when the name holds no dot, which ends the thread. *)
Definition convertOne (i : Z) (inputPath : string) (s : Sketch World)
  : option (Sketch World * list Ev) :=
  let fileName := file_getName inputPath in
  let dot := lastIndexOf_dot fileName in
  if (dot <? 0)%Z then None
  else
    let baseName := substring 0 (Z.to_nat dot) fileName in
    let outputPath :=
      file_getParent inputPath ++ file_separator ++ baseName ++ ".jpg" in
    let s1 := set_progress i ("Converting: " ++ fileName) s in
    match convertSingleFile (JPEG_QUALITY s1) inputPath outputPath (jvm s1) with
    | (true, w, t) =>
        let s2 := count_converted (set_jvm w s1) in
        let (s3, td) :=
          if DELETE_ORIGINALS s2 then deleteOriginal inputPath fileName s2
          else (s2, []) in
        Some (s3,
              (Println ("Converting: " ++ fileName) :: t
               ++ Println ("  SUCCESS: Created " ++ baseName ++ ".jpg") :: td)%list)
    | (false, w, t) =>
        Some (count_failed (set_jvm w s1),
              (Println ("Converting: " ++ fileName) :: t
               ++ [Println ("  ERROR: Failed to convert " ++ fileName)])%list)
    end.

(** The loop [for (int i = 0; i < heicFiles.size(); i++)], from index [i]
    on the files that remain. *)
Fixpoint convertLoop (i : Z) (files : list string) (s : Sketch World)
  : option (Sketch World * list Ev) :=
  match files with
  | [] => Some (s, [])
  | inputPath :: rest =>
      match convertOne i inputPath s with
      | None => None
      | Some (s1, t1) =>
          match convertLoop (i + 1) rest s1 with
          | None => None
          | Some (s2, t2) => Some (s2, (t1 ++ t2)%list)
          end
      end
  end.

(** Lines 260-270: the end of [convertFiles]. *)
Definition finish (size : Z) (s : Sketch World) : Sketch World * list Ev :=
  ({| jvm := jvm s; DELETE_ORIGINALS := DELETE_ORIGINALS s;
      JPEG_QUALITY := JPEG_QUALITY s; currentFileIndex := size;
      isConverting := false; conversionComplete := true;
      convertedCount := convertedCount s; failedCount := failedCount s;
      currentStatus := "Conversion complete!" |},
   ([Println ""; Println "Conversion complete!";
     Println ("Files converted successfully: " ++ show_int (convertedCount s))]
    ++ (if (failedCount s >? 0)%Z
        then [Println ("Files that failed: " ++ show_int (failedCount s))]
        else []))%list).

(** [convertFiles()], lines 218-271, on the list [heicFiles]. *)
Definition convertFiles (heicFiles : list string) (s : Sketch World)
  : option (Sketch World * list Ev) :=
  match convertLoop 0 heicFiles s with
  | None => None
  | Some (s1, t1) =>
      let (s2, t2) := finish (Z.of_nat (List.length heicFiles)) s1 in
      Some (s2, (t1 ++ t2)%list)
  end.

(** The commands of a trace, and the removals it attempted. *)
Fixpoint commands_run (t : list Ev) : list (string * option Z) :=
  match t with
  | [] => []
  | Exec c r :: rest => (c, r) :: commands_run rest
  | _ :: rest => commands_run rest
  end.

Fixpoint deletions (t : list Ev) : list string :=
  match t with
  | [] => []
  | Delete p _ :: rest => p :: deletions rest
  | _ :: rest => deletions rest
  end.

(** An attempt that ended with exit code zero. *)
Definition succeeded (e : Ev) : bool :=
  match e with
  | Exec _ (Some 0%Z) => true
  | _ => false
  end.

End Sketch.
End Pde.

(** ** Reading a trace *)

(** The command lines handed to the shell, with the exit status each one
    came back with. *)
Fixpoint execs (t : list Event) : list (string * Z) :=
  match t with
  | [] => []
  | EvExec cmd st :: r => (cmd, st) :: execs r
  | _ :: r => execs r
  end.

(** The paths [fs.unlinkSync] was called on, with whether the file went. *)
Fixpoint unlinks (t : list Event) : list (string * bool) :=
  match t with
  | [] => []
  | EvUnlink p b :: r => (p, b) :: unlinks r
  | _ :: r => unlinks r
  end.

(** The paths handed to [fs.readdirSync]. *)
Fixpoint readdirs (t : list Event) : list string :=
  match t with
  | [] => []
  | EvReaddir p :: r => p :: readdirs r
  | _ :: r => readdirs r
  end.

(** The paths handed to [fs.existsSync] and [fs.lstatSync]. *)
Fixpoint stats (t : list Event) : list string :=
  match t with
  | [] => []
  | EvExists p :: r => p :: stats r
  | EvLstat p :: r => p :: stats r
  | _ :: r => stats r
  end.

(** The tallies a trace amounts to: deletions that went through and
    deletions that did not. *)
Definition deleted_count (t : list Event) : nat :=
  List.length (filter (fun e => snd e) (unlinks t)).

Definition delete_failed_count (t : list Event) : nat :=
  List.length (filter (fun e => negb (snd e)) (unlinks t)).

(** The three command lines for one file, in the order of the source. *)
Definition strategies (inputPath outputPath : string) : list string :=
  [cmd_direct inputPath outputPath;
   cmd_format inputPath outputPath;
   cmd_orient inputPath outputPath].

(** The lines of the closing report, lines 217-221. *)
Definition complete_line : string :=
  bright ++ green ++ "Conversion complete!" ++ reset.

Definition report (c f : nat) : list Event :=
  ([EvPrint complete_line;
    EvPrint (green ++ "Files converted successfully: " ++ show_nat c ++ reset)]
   ++ (if (0 <? f)%nat
       then [EvPrint (red ++ "Files that failed: " ++ show_nat f ++ reset)]
       else []))%list.


Definition is_complete_line (e : Event) : bool :=
  match e with
  | EvPrint l => String.eqb l complete_line
  | _ => false
  end.

(** Does an event name the path [p]: as the argument of a file system
    call, or inside a command line. *)
Definition touches (p : string) (e : Event) : bool :=
  match e with
  | EvPrint _ => false
  | EvExec cmd _ => includes cmd p
  | EvExists q | EvLstat q | EvReaddir q | EvUnlink q _ => String.eqb q p
  end.

(** An event other than the closing line of the report. *)
Definition not_closing (e : Event) : bool := negb (is_complete_line e).

(** The line announcing how many files were found, and the line printed
    when there are none. *)
Definition found_line (n : nat) : string :=
  green ++ ("Found " ++ show_nat n ++ " HEIC file(s) to convert") ++ reset.

Definition no_files_line : string :=
  yellow ++ "No HEIC files found in target directory" ++ reset.

(** Case-insensitive equality of ASCII text, character by character. *)
Definition same_letter (a b : ascii) : bool :=
  Ascii.eqb (lower_ascii a) (lower_ascii b).

Fixpoint equal_ignoring_case (a b : string) : bool :=
  match a, b with
  | EmptyString, EmptyString => true
  | String x a', String y b' => same_letter x y && equal_ignoring_case a' b'
  | _, _ => false
  end.

(** ** Outcomes of one target, and the start of a run *)

Section Outcomes.
Context {World : Type} `{Host World}.
Local Abbreviation Js := (JsM World).
Local Open Scope js_scope.

(** The memory a run starts from. *)
Definition mem0 (w : World) : Mem World :=
  {| world := w; converted := 0; failed := 0 |}.

Definition bump_converted (m : Mem World) : Mem World :=
  {| world := world m; converted := S (converted m); failed := failed m |}.

Definition bump_failed (m : Mem World) : Mem World :=
  {| world := world m; converted := converted m; failed := S (failed m) |}.

(** A target's outcome as the tallies show it: between the memory before
    its turn and the memory after, exactly one tally went up by one. *)
Definition counted_converted (m m' : Mem World) : Prop :=
  converted m' = S (converted m) /\ failed m' = failed m.

Definition counted_failed (m m' : Mem World) : Prop :=
  converted m' = converted m /\ failed m' = S (failed m).

(** Lines 57-146 of [main]: everything up to and including the
    enumeration, handing over what the rest of [main] works on. *)
Definition prepare (args : list string) : Js (Config * list string) :=
  banner;;
  cfg <- parseArgs args;;
  console_log "";;
  checkImageMagick;;
  testHeicSupport;;
  checkDirectory (targetFolder cfg);;
  heicFiles <- findHeicFiles (targetFolder cfg);;
  ret (cfg, heicFiles).

(** The memory once [converted] and [failed] are declared. *)
Definition zero_tallies (m : Mem World) : Mem World :=
  {| world := world m; converted := 0; failed := 0 |}.

(** Lines 100-221 of [main]: what follows argument parsing. *)
Definition after_parse (cfg : Config) : Js unit :=
  checkImageMagick;;
  testHeicSupport;;
  checkDirectory (targetFolder cfg);;
  heicFiles <- findHeicFiles (targetFolder cfg);;
  processFiles cfg heicFiles.

(** The three lines of the banner. *)
Definition banner_lines : list string :=
  [(bright ++ green) ++ "HEIC to JPEG Converter (Node.js)" ++ reset;
   (bright ++ green) ++ "====================================" ++ reset;
   ""].

(** The test of the enumeration filter, read off a host state. *)
Definition has_heic_suffix (file : string) : bool :=
  endsWith (toLowerCase file) ".heic".

Definition is_candidate (w : World) (dir file : string) : bool :=
  has_heic_suffix file &&
  match fs_lstatSync (path_join dir file) w with
  | inr k => isFile k
  | inl _ => false
  end.

(** The host state once both probes of the tool have run. *)
Definition after_probes (w : World) : World :=
  snd (spawn "magick -list format" (snd (spawn "magick -version" w))).

(** The events the lines before the conversion loop may produce: prints
    other than the closing line, the two probes of the tool, and file
    system queries; never a conversion and never a removal. *)
Definition prelude_event (e : Event) : bool :=
  match e with
  | EvPrint l => negb (String.eqb l complete_line)
  | EvExec cmd _ =>
      String.eqb cmd "magick -version" || String.eqb cmd "magick -list format"
  | EvExists _ | EvLstat _ | EvReaddir _ => true
  | EvUnlink _ _ => false
  end.

(** A piece of script that leaves the tallies alone, produces prelude
    events only, and exits, if it does, with status 1. *)
Definition harmless {A} (c : Js A) : Prop :=
  forall m,
    converted (snd (fst (c m))) = converted m /\
    failed (snd (fst (c m))) = failed m /\
    forallb prelude_event (snd (c m)) = true /\
    (forall code, fst (fst (c m)) = Exited code -> code = 1%Z).

End Outcomes.

(** A file name as [readdir] yields it holds no path separator. *)
Fixpoint no_slash (s : string) : bool :=
  match s with
  | EmptyString => true
  | String c r => negb (Ascii.eqb c "/") && no_slash r
  end.

(** ** Commands of a trace *)

(** The two probes of the tool, as opposed to the conversion commands. *)
Definition is_probe (cmd : string) : bool :=
  String.eqb cmd "magick -version" || String.eqb cmd "magick -list format".

(** The conversion commands of a trace, and those that exited zero. *)
Definition conversions (t : list Event) : list (string * Z) :=
  filter (fun e => negb (is_probe (fst e))) (execs t).

Definition successes (t : list Event) : list (string * Z) :=
  filter (fun e => (snd e =? 0)%Z) (conversions t).

(** ** convert_heic_to_jpeg.pde: the handlers around the conversion

    [setup], [mousePressed], [folderSelected], [scanFolder],
    [checkImageMagick] and [findHeicFiles] of the sketch, with the hit
    tests of its two buttons and its checkbox.  Drawing is left out.
    [selectFolder] and [thread] hand work to the Processing runtime;
    a handler returns them as requests. *)
Module PdeUi.
Import Pde.

(** The files and the canvas as the handlers see them.  [folder_listFiles]
    is [File.listFiles()], nothing when it returns [null];
    [java_toLowerCase] is [String.toLowerCase()] in the default locale;
    [label_reach mx] is the test [mx <= x + boxSize + textWidth(label) + 10]
    of the checkbox, whose answer depends on the font. *)
Class Desk (World : Type) := {
  folder_exists : string -> World -> bool;
  folder_isDirectory : string -> World -> bool;
  folder_listFiles : string -> World -> option (list string);
  path_isFile : string -> World -> bool;
  file_getAbsolutePath : string -> string;
  java_toLowerCase : string -> string;
  label_reach : Z -> bool
}.

(** What a handler asks the Processing runtime to do after it returns. *)
Inductive Request := SelectFolder | StartConvertFiles.

(** The globals of the sketch: those of the conversion, and those of the
    window.  [heicFiles] is [null] until the first scan. *)
Record Ui (World : Type) := {
  core : Sketch World;
  TARGET_FOLDER : string;
  heicFiles : option (list string);
  uiInitialized : bool;
  filesScanned : bool;
  startEnabled : bool;
  deleteChecked : bool
}.
Arguments core {World} u.
Arguments TARGET_FOLDER {World} u.
Arguments heicFiles {World} u.
Arguments uiInitialized {World} u.
Arguments filesScanned {World} u.
Arguments startEnabled {World} u.
Arguments deleteChecked {World} u.

Section Handlers.
Context {World : Type} `{Jvm World} `{Desk World}.

(** [Button.isClicked(mx, my)] for a button at [(x, y)] of size [(w, h)].
    The coordinates of the sketch are small whole numbers, on which the
    comparisons of [float] are those of the integers. *)
Definition button_isClicked (x y w h : Z) (enabled : bool) (mx my : Z) : bool :=
  enabled && (x <=? mx)%Z && (mx <=? x + w)%Z && (y <=? my)%Z && (my <=? y + h)%Z.

(** [folderSelectButton = new Button(50, 160, 200, 35, ...)], never disabled. *)
Definition folderSelectButton_isClicked (mx my : Z) : bool :=
  button_isClicked 50 160 200 35 true mx my.

(** [startButton = new Button(50, 260, 150, 35, ...)]. *)
Definition startButton_isClicked (enabled : bool) (mx my : Z) : bool :=
  button_isClicked 50 260 150 35 enabled mx my.

(** The test of [Checkbox.isClicked] for
    [deleteCheckbox = new Checkbox(50, 210, ...)], with [boxSize = 20]. *)
Definition deleteCheckbox_hit (mx my : Z) : bool :=
  (50 <=? mx)%Z && label_reach mx && (210 <=? my)%Z && (my <=? 210 + 20)%Z.

(** [checkImageMagick()], lines 273-281. *)
Definition checkImageMagick (w : World) : bool * World * list Ev :=
  match runtime_exec "magick -version" w with
  | (Some exitValue, w1) =>
      ((exitValue =? 0)%Z, w1, [Exec "magick -version" (Some exitValue)])
  | (None, w1) => (false, w1, [Exec "magick -version" None])
  end.

(** [findHeicFiles(folderPath)], lines 283-305. *)
Definition findHeicFiles (folderPath : string) (w : World)
  : list string * list Ev :=
  if negb (folder_exists folderPath w) || negb (folder_isDirectory folderPath w)
  then ([], [Println ("ERROR: Directory does not exist or is not accessible: "
                        ++ folderPath)])
  else
    match folder_listFiles folderPath w with
    | None => ([], [])
    | Some listOfFiles =>
        (map file_getAbsolutePath
           (filter (fun file =>
                      path_isFile file w
                      && endsWith (java_toLowerCase (file_getName file)) ".heic")
                   listOfFiles),
         [])
    end.

(** The assignments of [scanFolder] to the globals of the conversion. *)
Definition reset_conversion (status : string) (s : Sketch World)
  : Sketch World :=
  {| jvm := jvm s; DELETE_ORIGINALS := DELETE_ORIGINALS s;
     JPEG_QUALITY := JPEG_QUALITY s; currentFileIndex := 0;
     isConverting := false; conversionComplete := false;
     convertedCount := 0; failedCount := 0; currentStatus := status |}.

Definition set_status (status : string) (s : Sketch World) : Sketch World :=
  {| jvm := jvm s; DELETE_ORIGINALS := DELETE_ORIGINALS s;
     JPEG_QUALITY := JPEG_QUALITY s; currentFileIndex := currentFileIndex s;
     isConverting := isConverting s;
     conversionComplete := conversionComplete s;
     convertedCount := convertedCount s; failedCount := failedCount s;
     currentStatus := status |}.

(** [scanFolder(folderPath)], lines 194-216. *)
Definition scanFolder (folderPath : string) (u : Ui World)
  : Ui World * list Ev :=
  let (files, t) := findHeicFiles folderPath (jvm (core u)) in
  let size := Z.of_nat (List.length files) in
  if (size =? 0)%Z then
    ({| core := reset_conversion "No HEIC files found in selected folder"
                  (core u);
        TARGET_FOLDER := TARGET_FOLDER u; heicFiles := Some files;
        uiInitialized := uiInitialized u; filesScanned := true;
        startEnabled := false; deleteChecked := deleteChecked u |},
     t)
  else
    ({| core := reset_conversion
                  ("Found " ++ show_int size ++ " HEIC file(s). Ready to convert!")
                  (core u);
        TARGET_FOLDER := TARGET_FOLDER u; heicFiles := Some files;
        uiInitialized := uiInitialized u; filesScanned := true;
        startEnabled := true; deleteChecked := deleteChecked u |},
     (t ++ [Println ("Found " ++ show_int size ++ " HEIC file(s) to convert")])%list).

(** [folderSelected(selection)], lines 183-192; [None] is [null]. *)
Definition folderSelected (selection : option string) (u : Ui World)
  : Ui World * list Ev :=
  match selection with
  | None =>
      ({| core := set_status "No folder selected" (core u);
          TARGET_FOLDER := TARGET_FOLDER u; heicFiles := heicFiles u;
          uiInitialized := uiInitialized u; filesScanned := filesScanned u;
          startEnabled := startEnabled u; deleteChecked := deleteChecked u |},
       [Println "No folder selected"])
  | Some file =>
      let folder := file_getAbsolutePath file in
      let (u1, t) :=
        scanFolder folder
          {| core := core u; TARGET_FOLDER := folder; heicFiles := heicFiles u;
             uiInitialized := uiInitialized u; filesScanned := filesScanned u;
             startEnabled := startEnabled u; deleteChecked := deleteChecked u |} in
      (u1, Println ("Selected folder: " ++ folder) :: t)
  end.

(** The globals before [setup], for given values of the three
    configuration variables. *)
Definition initial (w : World) (target : string) (delete : bool) (quality : Z)
  : Ui World :=
  {| core := {| jvm := w; DELETE_ORIGINALS := delete; JPEG_QUALITY := quality;
                currentFileIndex := 0; isConverting := false;
                conversionComplete := false; convertedCount := 0;
                failedCount := 0; currentStatus := "" |};
     TARGET_FOLDER := target; heicFiles := None; uiInitialized := false;
     filesScanned := false; startEnabled := false; deleteChecked := false |}.

(** [setup()], lines 56-95, without the window and the font. *)
Definition setup (u : Ui World) : Ui World * list Ev :=
  let head :=
    [Println "HEIC to JPEG Converter (Processing)";
     Println "====================================";
     Println ""] in
  let checked := DELETE_ORIGINALS (core u) in
  match checkImageMagick (jvm (core u)) with
  | (false, w, t) =>
      ({| core := set_status "ERROR: ImageMagick not found!" (set_jvm w (core u));
          TARGET_FOLDER := TARGET_FOLDER u; heicFiles := heicFiles u;
          uiInitialized := uiInitialized u; filesScanned := filesScanned u;
          startEnabled := false; deleteChecked := checked |},
       (head ++ t
          ++ [Println "ERROR: ImageMagick not found!";
              Println "Please install ImageMagick and ensure it's in your system PATH"])%list)
  | (true, w, t) =>
      let u1 :=
        {| core := set_status "Select a folder to scan for HEIC files"
                     (set_jvm w (core u));
           TARGET_FOLDER := TARGET_FOLDER u; heicFiles := heicFiles u;
           uiInitialized := true; filesScanned := filesScanned u;
           startEnabled := false; deleteChecked := checked |} in
      if String.eqb (TARGET_FOLDER u) "" then (u1, (head ++ t)%list)
      else
        let (u2, t2) := scanFolder (TARGET_FOLDER u) u1 in
        (u2, (head ++ t ++ t2)%list)
  end.

Definition set_delete (checked : bool) (s : Sketch World) : Sketch World :=
  {| jvm := jvm s; DELETE_ORIGINALS := checked;
     JPEG_QUALITY := JPEG_QUALITY s; currentFileIndex := currentFileIndex s;
     isConverting := isConverting s;
     conversionComplete := conversionComplete s;
     convertedCount := convertedCount s; failedCount := failedCount s;
     currentStatus := currentStatus s |}.

Definition start_converting (s : Sketch World) : Sketch World :=
  {| jvm := jvm s; DELETE_ORIGINALS := DELETE_ORIGINALS s;
     JPEG_QUALITY := JPEG_QUALITY s; currentFileIndex := currentFileIndex s;
     isConverting := true; conversionComplete := conversionComplete s;
     convertedCount := convertedCount s; failedCount := failedCount s;
     currentStatus := "Converting files..." |}.

(** The test [heicFiles != null && heicFiles.size() > 0]. *)
Definition has_files (files : option (list string)) : bool :=
  match files with
  | Some (_ :: _) => true
  | _ => false
  end.

(** The second [if] of [mousePressed]: the checkbox. *)
Definition click_checkbox (mx my : Z) (u : Ui World) : Ui World * list Ev :=
  if deleteCheckbox_hit mx my then
    let checked := negb (deleteChecked u) in
    ({| core := set_delete checked (core u);
        TARGET_FOLDER := TARGET_FOLDER u; heicFiles := heicFiles u;
        uiInitialized := uiInitialized u; filesScanned := filesScanned u;
        startEnabled := startEnabled u; deleteChecked := checked |},
     [Println ("Delete mode: " ++ (if checked then "ON" else "OFF"))])
  else (u, []).

(** The third [if] of [mousePressed]: the start button. *)
Definition click_start (mx my : Z) (u : Ui World) : Ui World * list Request :=
  if startButton_isClicked (startEnabled u) mx my && startEnabled u then
    if negb (isConverting (core u)) && negb (conversionComplete (core u))
       && has_files (heicFiles u)
    then
      ({| core := start_converting (core u);
          TARGET_FOLDER := TARGET_FOLDER u; heicFiles := heicFiles u;
          uiInitialized := uiInitialized u; filesScanned := filesScanned u;
          startEnabled := startEnabled u; deleteChecked := deleteChecked u |},
       [StartConvertFiles])
    else (u, [])
  else (u, []).

(** [mousePressed()], lines 161-181, at [(mouseX, mouseY)]. *)
Definition mousePressed (mouseX mouseY : Z) (u : Ui World)
  : Ui World * list Ev * list Request :=
  if negb (uiInitialized u) then (u, [], [])
  else
    let r1 :=
      if folderSelectButton_isClicked mouseX mouseY then [SelectFolder] else [] in
    let (u1, t) := click_checkbox mouseX mouseY u in
    let (u2, r2) := click_start mouseX mouseY u1 in
    (u2, t, (r1 ++ r2)%list).

(** The thread [convertFiles] run to its end on the files of the last
    scan: the globals it leaves, or nothing when it died. *)
Definition run_convertFiles (u : Ui World) : option (Ui World * list Ev) :=
  match heicFiles u with
  | None => None
  | Some files =>
      match convertFiles files (core u) with
      | None => None
      | Some (s, t) =>
          Some ({| core := s; TARGET_FOLDER := TARGET_FOLDER u;
                   heicFiles := heicFiles u; uiInitialized := uiInitialized u;
                   filesScanned := filesScanned u;
                   startEnabled := startEnabled u;
                   deleteChecked := deleteChecked u |}, t)
      end
  end.

(** What the handlers keep true: the checkbox shows [DELETE_ORIGINALS],
    and the start button is enabled only over a non-empty scan. *)
Definition consistent (u : Ui World) : Prop :=
  deleteChecked u = DELETE_ORIGINALS (core u) /\
  (startEnabled u = true -> has_files (heicFiles u) = true).

End Handlers.
End PdeUi.

(** ** A small concrete runtime for the sketch *)
Module MockSketch.
Import Pde PdeUi.

Record Box := {
  exits : string -> option Z;
  stuck : list string;
  folders : list (string * list string);
  regular : list string
}.

(** The last component of a path, and what precedes its last separator. *)
Fixpoint name_of (p : string) : string :=
  match p with
  | EmptyString => EmptyString
  | String c r =>
      if no_slash r then (if Ascii.eqb c "/" then r else p) else name_of r
  end.

Fixpoint parent_of (p : string) : string :=
  match p with
  | EmptyString => EmptyString
  | String c r => if no_slash r then EmptyString else String c (parent_of r)
  end.

#[global] Instance jvm_box : Jvm Box := {
  runtime_exec := fun command b => (exits b command, b);
  file_delete := fun p b =>
    if Mock.mem_str p (stuck b) then (inr false, b)
    else (inr true,
          {| exits := exits b; stuck := stuck b; folders := folders b;
             regular := filter (fun q => negb (String.eqb q p)) (regular b) |});
  file_getName := name_of;
  file_getParent := parent_of;
  file_separator := "/"
}.

#[global] Instance desk_box : Desk Box := {
  folder_exists := fun p b =>
    match Mock.lookup p (folders b) with Some _ => true | None => false end;
  folder_isDirectory := fun p b =>
    match Mock.lookup p (folders b) with Some _ => true | None => false end;
  folder_listFiles := fun p b => Mock.lookup p (folders b);
  path_isFile := fun p b => Mock.mem_str p (regular b);
  file_getAbsolutePath := fun p => p;
  java_toLowerCase := toLowerCase;
  label_reach := fun mx => (mx <=? 330)%Z
}.

(** A runtime whose [magick] exits with 1 on the listed commands and
    with 0 on the others, over the photo directory. *)
Definition photos_box (bad stuck_files : list string) : Box :=
  {| exits := fun command =>
       if Mock.mem_str command bad then Some 1%Z else Some 0%Z;
     stuck := stuck_files;
     folders := [ ("/photos", ["/photos/a.heic"; "/photos/b.heic";
                               "/photos/c.HEIC"; "/photos/notes.txt";
                               "/photos/old.heic"]);
                  ("/photos/old.heic", ["/photos/old.heic/x.heic"]) ];
     regular := ["/photos/a.heic"; "/photos/b.heic"; "/photos/c.HEIC";
                 "/photos/notes.txt"; "/photos/old.heic/x.heic"] |}.

(** A runtime on which [magick] cannot be started. *)
Definition no_magick : Box :=
  {| exits := fun _ => None; stuck := []; folders := []; regular := [] |}.

End MockSketch.

(** * Properties *)

Section PerFile.
Context {World : Type} `{Host World}.
Local Open Scope Z_scope.

(** ** The primitives, as equations *)

Lemma execSync_run (cmd : string) (m : Mem World) :
  execSync cmd m =
    (if status (fst (spawn cmd (world m))) =? 0
     then Normal (stdout (fst (spawn cmd (world m))))
     else Thrown (failure (fst (spawn cmd (world m)))),
     set_world (snd (spawn cmd (world m))) m,
     [EvExec cmd (status (fst (spawn cmd (world m))))]).
Proof.
  unfold execSync. destruct (spawn cmd (world m)) as [r w]. simpl.
  destruct (status r =? 0); reflexivity.
Qed.

Lemma unlinkSync_run (p : string) (m : Mem World) :
  unlinkSync p m =
    (match fst (fs_unlinkSync p (world m)) with
     | None => Normal tt
     | Some e => Thrown e
     end,
     set_world (snd (fs_unlinkSync p (world m))) m,
     [EvUnlink p (match fst (fs_unlinkSync p (world m)) with
                  | None => true
                  | Some _ => false
                  end)]).
Proof.
  unfold unlinkSync.
  destruct (fs_unlinkSync p (world m)) as [[e|] w]; reflexivity.
Qed.

(** ** One file *)

(** The attempts on one file, spelled out on the three exit statuses. *)
Lemma tryConversions_run (i o : string) (m : Mem World) :
  let r1 := spawn (cmd_direct i o) (world m) in
  let r2 := spawn (cmd_format i o) (snd r1) in
  let r3 := spawn (cmd_orient i o) (snd r2) in
  let e1 := EvExec (cmd_direct i o) (status (fst r1)) in
  let e2 := EvExec (cmd_format i o) (status (fst r2)) in
  let e3 := EvExec (cmd_orient i o) (status (fst r3)) in
  let p2 := EvPrint "  Retrying with format specification..." in
  let p3 := EvPrint "  Retrying with alternative options..." in
  tryConversions i o m =
    if status (fst r1) =? 0 then (Normal true, set_world (snd r1) m, [e1])
    else if status (fst r2) =? 0
    then (Normal true, set_world (snd r2) m, [e1; p2; e2])
    else if status (fst r3) =? 0
    then (Normal true, set_world (snd r3) m, [e1; p2; e2; p3; e3])
    else (Thrown (failure (fst r3)), set_world (snd r3) m,
          [e1; p2; e2; p3; e3]).
Proof.
  intros. unfold tryConversions, try_catch, bind, console_log, emit, ret, throw.
  rewrite execSync_run. fold r1.
  destruct (status (fst r1) =? 0); [reflexivity|].
  rewrite execSync_run. simpl world. fold r2.
  destruct (status (fst r2) =? 0); [reflexivity|].
  rewrite execSync_run. simpl world. fold r3.
  destruct (status (fst r3) =? 0); reflexivity.
Qed.

Lemma deleteOriginal_run (p f : string) (m : Mem World) :
  deleteOriginal p f m =
    (Normal tt, set_world (snd (fs_unlinkSync p (world m))) m,
     match fst (fs_unlinkSync p (world m)) with
     | None =>
         [EvUnlink p true;
          EvPrint (yellow ++ ("  DELETED: Removed original file " ++ f) ++ reset)]
     | Some e =>
         [EvUnlink p false;
          EvPrint (yellow ++ ("  WARNING: Could not delete original file " ++ f)
                     ++ reset);
          EvPrint (yellow ++ ("  Details: " ++ e) ++ reset)]
     end).
Proof.
  unfold deleteOriginal, try_catch, bind, colorLog, console_log, emit.
  rewrite unlinkSync_run.
  destruct (fst (fs_unlinkSync p (world m))); reflexivity.
Qed.

(** What the loop body does once an attempt went through. *)
Lemma convertFile_converted (cfg : Config) (f : string) (m m1 : Mem World)
      (t1 : list Event) :
  let i := path_join (targetFolder cfg) f in
  let o := path_join (targetFolder cfg) (parse_name f ++ ".jpg") in
  tryConversions i o m = (Normal true, m1, t1) ->
  convertFile cfg f m =
    (Normal tt,
     (if deleteOriginals cfg
      then set_world (snd (fs_unlinkSync i (world m1))) (bump_converted m1)
      else bump_converted m1),
     (EvPrint (cyan ++ ("Converting: " ++ f) ++ reset) :: t1
      ++ EvPrint (green ++ ("  SUCCESS: Created " ++ parse_name f ++ ".jpg")
                    ++ reset)
      :: (if deleteOriginals cfg
          then snd (deleteOriginal i f (bump_converted m1))
          else [])
      ++ [EvPrint ""])%list).
Proof.
  intros i o E. unfold convertFile. fold i o.
  unfold try_catch, bind at 1 2 3.
  unfold colorLog at 1, console_log at 1, emit at 1.
  rewrite E. unfold bind, colorLog, console_log, emit, incr_converted.
  fold (bump_converted m1).
  destruct (deleteOriginals cfg).
  - rewrite deleteOriginal_run. simpl. rewrite <- app_assoc. reflexivity.
  - unfold ret. simpl. rewrite <- app_assoc. reflexivity.
Qed.

(** What the loop body does once the last attempt has thrown. *)
Lemma convertFile_failed (cfg : Config) (f : string) (m m1 : Mem World)
      (t1 : list Event) (e : Error) :
  let i := path_join (targetFolder cfg) f in
  let o := path_join (targetFolder cfg) (parse_name f ++ ".jpg") in
  tryConversions i o m = (Thrown e, m1, t1) ->
  convertFile cfg f m =
    (Normal tt, bump_failed m1,
     (EvPrint (cyan ++ ("Converting: " ++ f) ++ reset) :: t1
      ++ [EvPrint (red ++ ("  ERROR: Failed to convert " ++ f) ++ reset);
          EvPrint (red ++ ("  Details: " ++ e) ++ reset);
          EvPrint ""])%list).
Proof.
  intros i o E. unfold convertFile. fold i o.
  unfold try_catch, bind at 1 2 3.
  unfold colorLog at 1, console_log at 1, emit at 1.
  rewrite E. unfold bind, colorLog, console_log, emit, incr_failed.
  fold (bump_failed m1). simpl. rewrite <- app_assoc. reflexivity.
Qed.

Lemma execs_app (a b : list Event) : execs (a ++ b) = (execs a ++ execs b)%list.
Proof.
  induction a as [|e a IH]; [reflexivity|].
  destruct e; simpl; rewrite IH; reflexivity.
Qed.

Lemma unlinks_app (a b : list Event) :
  unlinks (a ++ b) = (unlinks a ++ unlinks b)%list.
Proof.
  induction a as [|e a IH]; [reflexivity|].
  destruct e; simpl; rewrite IH; reflexivity.
Qed.

Lemma stats_app (a b : list Event) : stats (a ++ b) = (stats a ++ stats b)%list.
Proof.
  induction a as [|e a IH]; [reflexivity|].
  destruct e; simpl; rewrite IH; reflexivity.
Qed.

Lemma readdirs_app (a b : list Event) :
  readdirs (a ++ b) = (readdirs a ++ readdirs b)%list.
Proof.
  induction a as [|e a IH]; [reflexivity|].
  destruct e; simpl; rewrite IH; reflexivity.
Qed.

End PerFile.

(** Rewrite the run of the loop body on [f] from [m], splitting on the
    exit statuses of the attempts. *)
Ltac run_file cfg f m :=
  let T := fresh "T" in
  pose proof (tryConversions_run
                (path_join (targetFolder cfg) f)
                (path_join (targetFolder cfg) (parse_name f ++ ".jpg")) m) as T;
  cbv zeta in T;
  repeat match type of T with
    | context [Z.eqb ?s 0] =>
        let E := fresh "E" in
        destruct (Z.eqb s 0) eqn:E;
        [apply Z.eqb_eq in E | apply Z.eqb_neq in E]
    end;
  first [ rewrite (convertFile_converted cfg f m _ _ T)
        | rewrite (convertFile_failed cfg f m _ _ _ T) ];
  clear T.

Section PerFileClaims.
Context {World : Type} `{Host World}.
Local Open Scope Z_scope.

(** C1.  For every target the three command lines are tried in the fixed
    order direct, format hint, auto-orient; [execSync] completes normally
    exactly when the child exits with status zero; a target that succeeds
    on the Nth attempt is counted as converted and the trace holds the
    first N command lines only; when all three fail it is counted as
    failed. *)
Theorem C1_strategies_in_order (cfg : Config) (fileName : string) (m : Mem World) :
  let inputPath := path_join (targetFolder cfg) fileName in
  let outputPath := path_join (targetFolder cfg) (parse_name fileName ++ ".jpg") in
  let c1 := cmd_direct inputPath outputPath in
  let c2 := cmd_format inputPath outputPath in
  let c3 := cmd_orient inputPath outputPath in
  let r1 := spawn c1 (world m) in
  let r2 := spawn c2 (snd r1) in
  let r3 := spawn c3 (snd r2) in
  let s1 := status (fst r1) in
  let s2 := status (fst r2) in
  let s3 := status (fst r3) in
  let result := convertFile cfg fileName m in
  let m' := snd (fst result) in
  let t := snd result in
  strategies inputPath outputPath = [c1; c2; c3] /\
  (forall cmd mm,
      (exists out, fst (fst (execSync cmd mm)) = Normal out)
      <-> status (fst (spawn cmd (world mm))) = 0) /\
  fst (fst result) = Normal tt /\
  (s1 = 0 -> execs t = [(c1, s1)] /\ counted_converted m m') /\
  (s1 <> 0 -> s2 = 0 ->
     execs t = [(c1, s1); (c2, s2)] /\ counted_converted m m') /\
  (s1 <> 0 -> s2 <> 0 -> s3 = 0 ->
     execs t = [(c1, s1); (c2, s2); (c3, s3)] /\ counted_converted m m') /\
  (s1 <> 0 -> s2 <> 0 -> s3 <> 0 ->
     execs t = [(c1, s1); (c2, s2); (c3, s3)] /\ counted_failed m m').
Proof.
  intros. split; [reflexivity|]. split.
  { intros cmd mm. rewrite execSync_run. simpl.
    destruct (status (fst (spawn cmd (world mm))) =? 0) eqn:E.
    - apply Z.eqb_eq in E. split; [intros _; exact E | intros _; eexists; reflexivity].
    - apply Z.eqb_neq in E. split; [intros [out D]; discriminate D | intros D; contradiction]. }
  subst result m' t. unfold counted_converted, counted_failed.
  run_file cfg fileName m; fold inputPath outputPath; fold c1 c2 c3;
    fold r1; fold r2; fold r3; fold s1 s2 s3.
  all: try fold s1 in E; try fold s2 in E0; try fold s3 in E1.
  all: rewrite ?deleteOriginal_run.
  all: destruct (deleteOriginals cfg); simpl;
    rewrite ?execs_app; simpl;
    try destruct (fst (fs_unlinkSync inputPath (snd r1)));
    try destruct (fst (fs_unlinkSync inputPath (snd r2)));
    try destruct (fst (fs_unlinkSync inputPath (snd r3)));
    simpl; repeat split; intros; try contradiction; try congruence.
Qed.

Lemma forEach_cons {A} (body : A -> JsM World unit) (x : A) (r : list A)
      (m m1 : Mem World) (t1 : list Event) :
  body x m = (Normal tt, m1, t1) ->
  forEach body (x :: r) m =
    (fst (fst (forEach body r m1)), snd (fst (forEach body r m1)),
     (t1 ++ snd (forEach body r m1))%list).
Proof.
  intros E. simpl. unfold bind. rewrite E.
  destruct (forEach body r m1) as [[c m2] t2]. reflexivity.
Qed.

(** C4.  When all three attempts on a target exit with a non-zero status,
    the target is counted as failed, the message printed is that of the
    third attempt, no removal is attempted whatever [deleteOriginals] is,
    and the loop goes on with the remaining targets. *)
Theorem C4_all_strategies_fail (cfg : Config) (fileName : string)
        (rest : list string) (m : Mem World) :
  let inputPath := path_join (targetFolder cfg) fileName in
  let outputPath := path_join (targetFolder cfg) (parse_name fileName ++ ".jpg") in
  let c1 := cmd_direct inputPath outputPath in
  let c2 := cmd_format inputPath outputPath in
  let c3 := cmd_orient inputPath outputPath in
  let r1 := spawn c1 (world m) in
  let r2 := spawn c2 (snd r1) in
  let r3 := spawn c3 (snd r2) in
  let m' := bump_failed (set_world (snd r3) m) in
  let t :=
    [EvPrint (cyan ++ ("Converting: " ++ fileName) ++ reset);
     EvExec c1 (status (fst r1));
     EvPrint "  Retrying with format specification...";
     EvExec c2 (status (fst r2));
     EvPrint "  Retrying with alternative options...";
     EvExec c3 (status (fst r3));
     EvPrint (red ++ ("  ERROR: Failed to convert " ++ fileName) ++ reset);
     EvPrint (red ++ ("  Details: " ++ failure (fst r3)) ++ reset);
     EvPrint ""] in
  status (fst r1) <> 0 -> status (fst r2) <> 0 -> status (fst r3) <> 0 ->
  convertFile cfg fileName m = (Normal tt, m', t) /\
  counted_failed m m' /\
  unlinks t = [] /\
  forEach (convertFile cfg) (fileName :: rest) m =
    (fst (fst (forEach (convertFile cfg) rest m')),
     snd (fst (forEach (convertFile cfg) rest m')),
     (t ++ snd (forEach (convertFile cfg) rest m'))%list).
Proof.
  intros inputPath outputPath c1 c2 c3 r1 r2 r3 m' t N1 N2 N3.
  assert (E : convertFile cfg fileName m = (Normal tt, m', t)).
  { run_file cfg fileName m; try contradiction. reflexivity. }
  split; [exact E|]. split; [split; reflexivity|]. split; [reflexivity|].
  apply forEach_cons. exact E.
Qed.

Lemma convertFile_outcome (cfg : Config) (fileName : string) (m : Mem World) :
  let inputPath := path_join (targetFolder cfg) fileName in
  let result := convertFile cfg fileName m in
  let m' := snd (fst result) in
  let t := snd result in
  fst (fst result) = Normal tt /\
  ((counted_converted m m' /\
    In (EvPrint (green ++ ("  SUCCESS: Created " ++ parse_name fileName ++ ".jpg")
                   ++ reset)) t /\
    exists removed,
      unlinks t = if deleteOriginals cfg then [(inputPath, removed)] else [])
   \/ (counted_failed m m' /\ unlinks t = [])).
Proof.
  intros. subst result m' t. unfold counted_converted, counted_failed.
  run_file cfg fileName m; fold inputPath; (split; [reflexivity|]).
  4: { right. split; [split; reflexivity | reflexivity]. }
  all: left; rewrite ?deleteOriginal_run; cbn [fst snd].
  all: split; [destruct (deleteOriginals cfg); split; reflexivity|].
  all: split; [apply in_cons, in_or_app; right; left; reflexivity|].
  all: cbn [unlinks app]; rewrite unlinks_app.
  all: destruct (deleteOriginals cfg); cbn [snd unlinks app];
    [|exists true; reflexivity].
  all: match goal with
       | |- context [fst (fs_unlinkSync ?p ?w)] =>
           destruct (fst (fs_unlinkSync p w))
       end; eexists; reflexivity.
Qed.

(** C5.  [unlinkSync] is called on the original exactly when the target was
    counted as converted and [deleteOriginals] is set, at most once and on
    no other path; a removal that fails leaves the target counted as
    converted, with its SUCCESS line printed. *)
Theorem C5_deletion_iff_converted (cfg : Config) (fileName : string)
        (m : Mem World) :
  let inputPath := path_join (targetFolder cfg) fileName in
  let result := convertFile cfg fileName m in
  let m' := snd (fst result) in
  let t := snd result in
  ((exists removed, unlinks t = [(inputPath, removed)])
   <-> (counted_converted m m' /\ deleteOriginals cfg = true)) /\
  (unlinks t = [] \/ exists removed, unlinks t = [(inputPath, removed)]) /\
  (unlinks t = [(inputPath, false)] ->
   counted_converted m m' /\ ~ counted_failed m m' /\
   In (EvPrint (green ++ ("  SUCCESS: Created " ++ parse_name fileName ++ ".jpg")
                  ++ reset)) t).
Proof.
  intros inputPath result m' t.
  destruct (convertFile_outcome cfg fileName m) as [_ O].
  fold inputPath result m' t in O.
  destruct O as [(C & S & removed & U) | (F & U)].
  - destruct (deleteOriginals cfg) eqn:D; rewrite U.
    + split; [|split].
      * split; [intros _; split; [exact C | reflexivity] | intros _; eexists; reflexivity].
      * right. eexists. reflexivity.
      * intros _. split; [exact C|]. split; [|exact S].
        unfold counted_converted, counted_failed in *. lia.
    + split; [|split].
      * split; [intros [? E]; discriminate E | intros [_ E]; discriminate E].
      * left. reflexivity.
      * intros E. discriminate E.
  - rewrite U. split; [|split].
    + split; [intros [? E]; discriminate E|].
      intros [C _]. unfold counted_converted, counted_failed in *. lia.
    + left. reflexivity.
    + intros E. discriminate E.
Qed.
End PerFileClaims.

Section Prelude.
Context {World : Type} `{Host World}.
Local Abbreviation Js := (JsM World).
Local Open Scope js_scope.

(** ** Sequencing, as equations *)

Lemma bind_normal {A B} (c : Js A) (k : A -> Js B) (m m1 : Mem World)
      (a : A) (t1 : list Event) :
  c m = (Normal a, m1, t1) ->
  bind c k m =
    (fst (fst (k a m1)), snd (fst (k a m1)), (t1 ++ snd (k a m1))%list).
Proof.
  intros E. unfold bind. rewrite E. destruct (k a m1) as [[r m2] t2].
  reflexivity.
Qed.

Lemma bind_exited {A B} (c : Js A) (k : A -> Js B) (m m1 : Mem World)
      (code : Z) (t1 : list Event) :
  c m = (Exited code, m1, t1) -> bind c k m = (Exited code, m1, t1).
Proof. intros E. unfold bind. rewrite E. reflexivity. Qed.

Lemma bind_thrown {A B} (c : Js A) (k : A -> Js B) (m m1 : Mem World)
      (e : Error) (t1 : list Event) :
  c m = (Thrown e, m1, t1) -> bind c k m = (Thrown e, m1, t1).
Proof. intros E. unfold bind. rewrite E. reflexivity. Qed.

(** ** Harmless pieces compose *)

Lemma harmless_ret {A} (a : A) : harmless (ret a : Js A).
Proof. intros m. simpl. repeat split. discriminate. Qed.

Lemma harmless_exit_1 {A} : harmless (process_exit 1 : Js A).
Proof. intros m. simpl. repeat split. intros code E. congruence. Qed.

Lemma harmless_throw {A} (e : Error) : harmless (throw e : Js A).
Proof. intros m. simpl. repeat split. discriminate. Qed.

Lemma harmless_bind {A B} (c : Js A) (k : A -> Js B) :
  harmless c -> (forall a, harmless (k a)) -> harmless (bind c k).
Proof.
  intros Hc Hk m. specialize (Hc m). unfold bind.
  destruct (c m) as [[[a|e|code] m1] t1]; simpl in *;
    destruct Hc as (C1 & F1 & P1 & X1).
  - specialize (Hk a m1). destruct (k a m1) as [[r m2] t2]; simpl in *.
    destruct Hk as (C2 & F2 & P2 & X2).
    split; [congruence|]. split; [congruence|]. split; [|exact X2].
    rewrite forallb_app, P1, P2. reflexivity.
  - repeat split; auto. discriminate.
  - repeat split; auto. intros c0 E. injection E as <-. apply X1. reflexivity.
Qed.

Lemma harmless_try {A} (c : Js A) (h : Error -> Js A) :
  harmless c -> (forall e, harmless (h e)) -> harmless (try_catch c h).
Proof.
  intros Hc Hh m. specialize (Hc m). unfold try_catch.
  destruct (c m) as [[[a|e|code] m1] t1]; simpl in *; try exact Hc.
  specialize (Hh e m1). destruct (h e m1) as [[r m2] t2]; simpl in *.
  destruct Hc as (C1 & F1 & P1 & _). destruct Hh as (C2 & F2 & P2 & X2).
  split; [congruence|]. split; [congruence|]. split; [|exact X2].
  rewrite forallb_app, P1, P2. reflexivity.
Qed.

Lemma harmless_console_log (line : string) :
  line <> complete_line -> harmless (console_log line : Js unit).
Proof.
  intros N m. simpl. repeat split; [|discriminate].
  apply String.eqb_neq in N. rewrite N. reflexivity.
Qed.

(** A line in one of the four plain colours is not the closing line,
    which is set in bright green. *)
Lemma harmless_colorLog (message color : string) :
  color = cyan \/ color = yellow \/ color = red \/ color = green ->
  harmless (colorLog message color : Js unit).
Proof.
  intros C. apply harmless_console_log.
  destruct C as [-> | [-> | [-> | ->]]]; intros E; discriminate E.
Qed.

Lemma harmless_probe (cmd : string) :
  cmd = "magick -version" \/ cmd = "magick -list format" ->
  harmless (execSync cmd).
Proof.
  intros C m. rewrite execSync_run. simpl.
  repeat split.
  - destruct C as [-> | ->]; reflexivity.
  - intros code E.
    destruct (status (fst (spawn cmd (world m))) =? 0)%Z; discriminate E.
Qed.

Lemma harmless_existsSync (p : string) : harmless (existsSync p).
Proof. intros m. simpl. repeat split. discriminate. Qed.

Lemma harmless_lstatSync (p : string) : harmless (lstatSync p).
Proof.
  intros m. unfold lstatSync.
  destruct (fs_lstatSync p (world m)); simpl; repeat split; discriminate.
Qed.

Lemma harmless_readdirSync (p : string) : harmless (readdirSync p).
Proof.
  intros m. unfold readdirSync.
  destruct (fs_readdirSync p (world m)); simpl; repeat split; discriminate.
Qed.

Lemma harmless_cwd : harmless cwd.
Proof. intros m. simpl. repeat split. discriminate. Qed.

Lemma harmless_resolve (p : string) : harmless (resolve p).
Proof. intros m. simpl. repeat split. discriminate. Qed.

Lemma harmless_filterM {A} (p : A -> Js bool) (l : list A) :
  (forall x, harmless (p x)) -> harmless (filterM p l).
Proof.
  intros Hp. induction l as [|x r IH]; simpl.
  - apply harmless_ret.
  - apply harmless_bind; [apply Hp|]. intros keep.
    apply harmless_bind; [exact IH|]. intros rest. apply harmless_ret.
Qed.

Ltac harmless_step :=
  first
    [ apply harmless_bind; [|intro]
    | apply harmless_try; [|intro]
    | apply harmless_ret
    | apply harmless_exit_1
    | apply harmless_throw
    | apply harmless_colorLog; auto
    | apply harmless_probe; auto
    | apply harmless_existsSync
    | apply harmless_lstatSync
    | apply harmless_readdirSync
    | apply harmless_cwd
    | apply harmless_resolve
    | apply harmless_console_log; discriminate
    | match goal with
      | |- harmless (if ?b then _ else _) => destruct b
      | |- harmless (match ?l with [] => _ | _ :: _ => _ end) => destruct l
      end ].

Lemma harmless_banner : harmless (banner : Js unit).
Proof.
  unfold banner, colorLog.
  repeat (apply harmless_bind; [|intro]);
    apply harmless_console_log; intros E; discriminate E.
Qed.

Lemma harmless_parseArgs (args : list string) : harmless (parseArgs args).
Proof. unfold parseArgs. repeat harmless_step. Qed.

Lemma harmless_checkImageMagick : harmless checkImageMagick.
Proof. unfold checkImageMagick. repeat harmless_step. Qed.

Lemma harmless_testHeicSupport : harmless testHeicSupport.
Proof. unfold testHeicSupport. repeat harmless_step. Qed.

Lemma harmless_checkDirectory (dir : string) : harmless (checkDirectory dir).
Proof. unfold checkDirectory. repeat harmless_step. Qed.

Lemma harmless_findHeicFiles (dir : string) : harmless (findHeicFiles dir).
Proof.
  unfold findHeicFiles. apply harmless_try; [|intro; repeat harmless_step].
  apply harmless_bind; [apply harmless_readdirSync|]. intros names.
  apply harmless_filterM. intros f. unfold isHeicFile. repeat harmless_step.
Qed.

Lemma harmless_prepare (args : list string) : harmless (prepare args).
Proof.
  unfold prepare.
  apply harmless_bind; [apply harmless_banner|]. intros _.
  apply harmless_bind; [apply harmless_parseArgs|]. intros cfg.
  apply harmless_bind; [apply harmless_console_log; discriminate|]. intros _.
  apply harmless_bind; [apply harmless_checkImageMagick|]. intros _.
  apply harmless_bind; [apply harmless_testHeicSupport|]. intros _.
  apply harmless_bind; [apply harmless_checkDirectory|]. intros _.
  apply harmless_bind; [apply harmless_findHeicFiles|]. intros files.
  apply harmless_ret.
Qed.

(** [main] is its prelude followed by the work on the files found. *)
Lemma main_split (args : list string) (m : Mem World) :
  main args m =
    bind (prepare args) (fun found => processFiles (fst found) (snd found)) m.
Proof.
  unfold main, prepare, bind.
  destruct (banner m) as [[[[]|e|code] m1] t1]; try reflexivity.
  destruct (parseArgs args m1) as [[[cfg|e|code] m2] t2]; try reflexivity.
  destruct (console_log "" m2) as [[[[]|e|code] m3] t3]; try reflexivity.
  destruct (checkImageMagick m3) as [[[[]|e|code] m4] t4]; try reflexivity.
  destruct (testHeicSupport m4) as [[[[]|e|code] m5] t5]; try reflexivity.
  destruct (checkDirectory (targetFolder cfg) m5) as [[[[]|e|code] m6] t6];
    try reflexivity.
  destruct (findHeicFiles (targetFolder cfg) m6) as [[[files|e|code] m7] t7];
    try reflexivity.
  simpl. destruct (processFiles cfg files m7) as [[r m8] t8]. simpl.
  rewrite app_nil_r, <- !app_assoc. reflexivity.
Qed.

End Prelude.

Section Runs.
Context {World : Type} `{Host World}.
Local Abbreviation Js := (JsM World).
Local Open Scope js_scope.

(** ** The blocks of the prelude, as equations *)

Lemma execs_prints (l : list string) : execs (map EvPrint l) = [].
Proof. induction l; simpl; auto. Qed.

Lemma stats_prints (l : list string) : stats (map EvPrint l) = [].
Proof. induction l; simpl; auto. Qed.

Lemma readdirs_prints (l : list string) : readdirs (map EvPrint l) = [].
Proof. induction l; simpl; auto. Qed.

Lemma unlinks_prints (l : list string) : unlinks (map EvPrint l) = [].
Proof. induction l; simpl; auto. Qed.

Lemma banner_run (m : Mem World) :
  banner m = (Normal tt, m, map EvPrint banner_lines).
Proof. reflexivity. Qed.

(** Argument parsing only prints, and always yields a configuration. *)
Lemma parseArgs_total (args : list string) (m : Mem World) :
  exists cfg lines, parseArgs args m = (Normal cfg, m, map EvPrint lines).
Proof.
  unfold parseArgs, bind, cwd, resolve, colorLog, console_log, emit, ret.
  destruct args as [|a0 [|a1 [|a2 rest]]].
  - eexists. eexists (_ :: _ :: nil). reflexivity.
  - destruct (String.eqb (toLowerCase a0) "delete");
      eexists; eexists (_ :: _ :: nil); reflexivity.
  - destruct (String.eqb (toLowerCase a1) "delete");
      eexists; eexists (_ :: _ :: nil); reflexivity.
  - eexists. exists nil. reflexivity.
Qed.

Lemma checkImageMagick_run (m : Mem World) :
  let v := spawn "magick -version" (world m) in
  checkImageMagick m =
    if (status (fst v) =? 0)%Z
    then (Normal tt, set_world (snd v) m, [EvExec "magick -version" (status (fst v))])
    else (Exited 1, set_world (snd v) m,
          EvExec "magick -version" (status (fst v))
          :: map EvPrint
               [red ++ "ERROR: ImageMagick not found or not in PATH" ++ reset;
                red ++ "Please install ImageMagick and ensure it's in your system PATH" ++ reset;
                red ++ "Download from: https://imagemagick.org/script/download.php" ++ reset]).
Proof.
  intros v. unfold checkImageMagick, try_catch, bind. rewrite execSync_run.
  fold v. destruct (status (fst v) =? 0)%Z; reflexivity.
Qed.

(** The check of HEIC support spawns one process, prints at most a
    warning, and never stops the run. *)
Lemma testHeicSupport_run (m : Mem World) :
  let l := spawn "magick -list format" (world m) in
  exists lines,
    testHeicSupport m =
      (Normal tt, set_world (snd l) m,
       EvExec "magick -list format" (status (fst l)) :: map EvPrint lines).
Proof.
  intros l. unfold testHeicSupport, try_catch, bind. rewrite execSync_run.
  fold l. destruct (status (fst l) =? 0)%Z.
  - destruct (negb (includes (toLowerCase (stdout (fst l))) "heic")).
    + eexists (_ :: _ :: _ :: nil). reflexivity.
    + exists nil. reflexivity.
  - eexists (_ :: _ :: nil). reflexivity.
Qed.

Lemma checkDirectory_run (dir : string) (m : Mem World) :
  checkDirectory dir m =
    if negb (fs_existsSync dir (world m))
    then (Exited 1, m,
          [EvExists dir;
           EvPrint (red ++ ("ERROR: Directory " ++ dquote ++ dir ++ dquote
                              ++ " does not exist") ++ reset)])
    else
      match fs_lstatSync dir (world m) with
      | inl e => (Thrown e, m, [EvExists dir; EvLstat dir])
      | inr k =>
          if negb (isDirectory k)
          then (Exited 1, m,
                [EvExists dir; EvLstat dir;
                 EvPrint (red ++ ("ERROR: " ++ dquote ++ dir ++ dquote
                                    ++ " is not a directory") ++ reset)])
          else (Normal tt, m, [EvExists dir; EvLstat dir])
      end.
Proof.
  unfold checkDirectory, bind, existsSync, lstatSync.
  destruct (negb (fs_existsSync dir (world m))); [reflexivity|].
  destruct (fs_lstatSync dir (world m)) as [e|k]; [reflexivity|].
  destruct (negb (isDirectory k)); reflexivity.
Qed.

(** The whole script, when [main] leaves through [process.exit]. *)
Lemma script_exited (args : list string) (m m1 : Mem World) (code : Z)
      (t : list Event) :
  main args m = (Exited code, m1, t) -> script args m = (Exited code, m1, t).
Proof. intros E. unfold script, try_catch. rewrite E. reflexivity. Qed.

Lemma script_normal (args : list string) (m m1 : Mem World) (t : list Event) :
  main args m = (Normal tt, m1, t) -> script args m = (Normal tt, m1, t).
Proof. intros E. unfold script, try_catch. rewrite E. reflexivity. Qed.

Lemma script_thrown (args : list string) (m m1 : Mem World) (e : Error)
      (t : list Event) :
  main args m = (Thrown e, m1, t) ->
  script args m =
    (Exited 1, m1, (t ++ [EvPrint (red ++ ("Error: " ++ e) ++ reset)])%list).
Proof. intros E. unfold script, try_catch. rewrite E. reflexivity. Qed.


(** Run the first [bind] of the goal with the equation [E] of its first
    computation. *)
Ltac run_bind E := unfold bind at 1; rewrite E; cbv beta iota.

(** [main] once its arguments are parsed. *)
Lemma main_start (args : list string) (m : Mem World) (cfg : Config)
      (lines : list string) :
  parseArgs args m = (Normal cfg, m, map EvPrint lines) ->
  main args m =
    (fst (fst (after_parse cfg m)), snd (fst (after_parse cfg m)),
     (map EvPrint banner_lines ++ map EvPrint lines ++ [EvPrint ""]
        ++ snd (after_parse cfg m))%list).
Proof.
  intros P. unfold main. run_bind (banner_run m). run_bind P.
  unfold bind at 1. cbn [console_log emit].
  fold (after_parse cfg). destruct (after_parse cfg m) as [[r m3] t3].
  reflexivity.
Qed.

Ltac read_trace :=
  cbn [fst snd];
  repeat (progress
            (rewrite ?execs_app, ?stats_app, ?readdirs_app, ?unlinks_app,
               ?execs_prints, ?stats_prints, ?readdirs_prints, ?unlinks_prints;
             cbn [execs stats readdirs unlinks app])).

(** C2.  When [magick -version] does not exit with status zero, the run
    exits with status 1 after that single command, before any file system
    call.  When the tool answers but the target directory does not exist,
    or is not a directory, the run exits with status 1 having only looked
    at the directory itself: nothing is enumerated, converted or removed. *)
Theorem C2_preconditions_fatal (args : list string) (w : World) (cfg : Config)
        (mp : Mem World) (tp : list Event) :
  parseArgs args (mem0 w) = (Normal cfg, mp, tp) ->
  let dir := targetFolder cfg in
  let v := spawn "magick -version" w in
  let l := spawn "magick -list format" (snd v) in
  let result := node args w in
  let t := snd result in
  (status (fst v) <> 0%Z ->
   fst (fst result) = Exited 1 /\
   execs t = [("magick -version", status (fst v))] /\
   stats t = [] /\ readdirs t = [] /\ unlinks t = []) /\
  (status (fst v) = 0%Z -> fs_existsSync dir (after_probes w) = false ->
   fst (fst result) = Exited 1 /\
   execs t = [("magick -version", 0%Z); ("magick -list format", status (fst l))] /\
   stats t = [dir] /\ readdirs t = [] /\ unlinks t = []) /\
  (status (fst v) = 0%Z -> fs_existsSync dir (after_probes w) = true ->
   (forall k, fs_lstatSync dir (after_probes w) = inr k -> isDirectory k = false) ->
   fst (fst result) = Exited 1 /\
   execs t = [("magick -version", 0%Z); ("magick -list format", status (fst l))] /\
   stats t = [dir; dir] /\ readdirs t = [] /\ unlinks t = []).
Proof.
  intros P dir v l result t.
  destruct (parseArgs_total args (mem0 w)) as (cfg' & lines & P').
  rewrite P' in P. injection P as -> <- <-.
  set (m1 := set_world (snd v) (mem0 w)).
  set (m2 := set_world (snd l) m1).
  pose proof (checkImageMagick_run (mem0 w)) as V.
  change (spawn "magick -version" (world (mem0 w))) with v in V.
  cbv zeta in V. fold m1 in V.
  destruct (testHeicSupport_run m1) as (lines2 & T).
  change (spawn "magick -list format" (world m1)) with l in T. fold m2 in T.
  pose proof (checkDirectory_run dir m2) as D.
  change (world m2) with (snd l) in D.
  pose proof (main_start args (mem0 w) cfg lines P') as Start.
  unfold after_parse in Start. fold dir in Start.
  subst result t. unfold node. fold (mem0 w).
  split; [|split].
  - intros N. apply Z.eqb_neq in N. rewrite N in V.
    rewrite (bind_exited _ _ _ _ _ _ V) in Start.
    rewrite (script_exited _ _ _ _ _ Start). read_trace.
    repeat split; reflexivity.
  - intros V0 X. unfold after_probes in X. fold v in X. fold l in X.
    rewrite X in D. cbn [negb] in D.
    rewrite V0 in V. cbn [Z.eqb] in V.
    rewrite (bind_normal _ _ _ _ _ _ V) in Start.
    rewrite (bind_normal _ _ _ _ _ _ T) in Start.
    rewrite (bind_exited _ _ _ _ _ _ D) in Start.
    rewrite (script_exited _ _ _ _ _ Start). read_trace.
    repeat split; reflexivity.
  - intros V0 X K. unfold after_probes in X, K. fold v in X, K. fold l in X, K.
    rewrite X in D. cbn [negb] in D.
    rewrite V0 in V. cbn [Z.eqb] in V.
    rewrite (bind_normal _ _ _ _ _ _ V) in Start.
    rewrite (bind_normal _ _ _ _ _ _ T) in Start.
    destruct (fs_lstatSync dir (snd l)) as [e|k].
    + rewrite (bind_thrown _ _ _ _ _ _ D) in Start.
      rewrite (script_thrown _ _ _ _ _ Start). read_trace.
      repeat split; reflexivity.
    + rewrite (K k eq_refl) in D. cbn [negb] in D.
      rewrite (bind_exited _ _ _ _ _ _ D) in Start.
      rewrite (script_exited _ _ _ _ _ Start). read_trace.
      repeat split; reflexivity.
Qed.
End Runs.

Section Enumeration.
Context {World : Type} `{Host World}.
Local Abbreviation Js := (JsM World).
Local Open Scope js_scope.

(** The filter of the enumeration, when every [lstat] it makes answers. *)
Lemma filterM_isHeicFile (dir : string) (names : list string) (m : Mem World) :
  (forall f, In f names -> has_heic_suffix f = true ->
             exists k, fs_lstatSync (path_join dir f) (world m) = inr k) ->
  filterM (isHeicFile dir) names m =
    (Normal (filter (is_candidate (world m) dir) names), m,
     map (fun f => EvLstat (path_join dir f)) (filter has_heic_suffix names)).
Proof.
  induction names as [|f r IH]; intros A; [reflexivity|].
  simpl filterM. unfold bind at 1. unfold isHeicFile at 1.
  simpl filter. unfold is_candidate at 1.
  change (endsWith (toLowerCase f) ".heic") with (has_heic_suffix f).
  destruct (has_heic_suffix f) eqn:S.
  - destruct (A f (or_introl eq_refl) S) as [k K].
    unfold bind at 1, lstatSync. rewrite K. cbn [ret app].
    unfold bind at 1. rewrite IH by (intros g G; apply A; right; exact G).
    cbn [ret andb map app]. rewrite app_nil_r.
    destruct (isFile k); reflexivity.
  - cbn [ret]. unfold bind at 1.
    rewrite IH by (intros g G; apply A; right; exact G).
    cbn [ret app]. rewrite app_nil_r. reflexivity.
Qed.

Lemma findHeicFiles_run (dir : string) (names : list string) (m : Mem World) :
  fs_readdirSync dir (world m) = inr names ->
  (forall f, In f names -> has_heic_suffix f = true ->
             exists k, fs_lstatSync (path_join dir f) (world m) = inr k) ->
  findHeicFiles dir m =
    (Normal (filter (is_candidate (world m) dir) names), m,
     EvReaddir dir
     :: map (fun f => EvLstat (path_join dir f)) (filter has_heic_suffix names)).
Proof.
  intros R A. unfold findHeicFiles, try_catch, bind at 1, readdirSync.
  rewrite R. rewrite (filterM_isHeicFile dir names m A). reflexivity.
Qed.


(** ** The loop over the files found *)

(** The loop body never queries the file system and never prints the
    closing line. *)
Lemma convertFile_quiet (cfg : Config) (f : string) (m : Mem World) :
  let t := snd (convertFile cfg f m) in
  stats t = [] /\ readdirs t = [] /\ forallb not_closing t = true.
Proof.
  intros t. subst t.
  run_file cfg f m; rewrite ?deleteOriginal_run; cbn [snd];
    destruct (deleteOriginals cfg);
    repeat match goal with
      | |- context [fst (fs_unlinkSync ?p ?w)] =>
          destruct (fst (fs_unlinkSync p w))
      end;
    repeat split; reflexivity.
Qed.

Lemma forEach_convertFile (cfg : Config) (files : list string) (m : Mem World) :
  let r := forEach (convertFile cfg) files m in
  fst (fst r) = Normal tt /\
  converted (snd (fst r)) + failed (snd (fst r))
    = converted m + failed m + List.length files /\
  stats (snd r) = [] /\ readdirs (snd r) = [] /\
  forallb not_closing (snd r) = true.
Proof.
  revert m. induction files as [|f rest IH]; intros m.
  - simpl. repeat split. lia.
  - destruct (convertFile_outcome cfg f m) as [N O].
    destruct (convertFile_quiet cfg f m) as (Q1 & Q2 & Q3).
    destruct (convertFile cfg f m) as [[c m1] t1] eqn:E.
    cbn [fst snd] in N, O, Q1, Q2, Q3. subst c.
    rewrite (forEach_cons _ _ _ _ _ _ E). cbn [fst snd].
    destruct (IH m1) as (I1 & I2 & I3 & I4 & I5).
    split; [exact I1|]. split.
    { rewrite I2. cbn [List.length].
      unfold counted_converted, counted_failed in O. lia. }
    rewrite stats_app, readdirs_app, forallb_app, Q1, Q2, Q3, I3, I4, I5.
    repeat split.
Qed.


Lemma summary_run (m : Mem World) :
  summary m = (Normal tt, m, report (converted m) (failed m)).
Proof.
  unfold summary, bind, get_converted, get_failed, colorLog, console_log, emit,
    report.
  destruct (0 <? failed m)%nat; reflexivity.
Qed.

(** What [main] does with a non-empty list of files. *)
Lemma processFiles_run (cfg : Config) (files : list string) (m : Mem World) :
  files <> [] ->
  let r := forEach (convertFile cfg) files (zero_tallies m) in
  processFiles cfg files m =
    (Normal tt, snd (fst r),
     (EvPrint (found_line (List.length files)) :: EvPrint "" :: snd r
      ++ report (converted (snd (fst r))) (failed (snd (fst r))))%list).
Proof.
  intros N r. unfold processFiles.
  destruct files as [|f rest]; [contradiction|]. cbn [List.length Nat.eqb].
  unfold bind at 1, colorLog at 1, console_log at 1, emit at 1.
  unfold bind at 1, console_log at 1, emit at 1.
  unfold bind at 1, init_tallies. fold (zero_tallies m).
  destruct (forEach_convertFile cfg (f :: rest) (zero_tallies m)) as (F & _).
  fold r in F. unfold bind at 1. fold r.
  destruct r as [[c m1] t1]. cbn [fst snd] in *. subst c.
  rewrite summary_run. reflexivity.
Qed.

Lemma processFiles_none (cfg : Config) (m : Mem World) :
  processFiles cfg [] m = (Exited 0, m, [EvPrint no_files_line]).
Proof. reflexivity. Qed.




Lemma prelude_unlinks (t : list Event) :
  forallb prelude_event t = true -> unlinks t = [].
Proof.
  induction t as [|e t IH]; intros P; [reflexivity|].
  cbn [forallb] in P. apply andb_true_iff in P. destruct P as [P1 P2].
  destruct e; cbn [unlinks]; try (apply IH; exact P2). discriminate P1.
Qed.


(** The script from the end of its prelude on. *)
Lemma node_after_prepare (args : list string) (w : World) (cfg : Config)
      (files : list string) (m1 : Mem World) (t1 : list Event) :
  prepare args (mem0 w) = (Normal (cfg, files), m1, t1) ->
  node args w =
    (fst (fst (processFiles cfg files m1)), snd (fst (processFiles cfg files m1)),
     (t1 ++ snd (processFiles cfg files m1))%list) /\
  converted m1 = 0 /\ failed m1 = 0 /\ forallb prelude_event t1 = true.
Proof.
  intros P.
  destruct (harmless_prepare args (mem0 w)) as (C & F & E & _).
  rewrite P in C, F, E. cbn [fst snd mem0 converted failed] in C, F, E.
  split; [|repeat split; assumption].
  unfold node. fold (mem0 w).
  pose proof (main_split args (mem0 w)) as M.
  rewrite (bind_normal _ _ _ _ _ _ P) in M. cbn [fst snd] in M.
  destruct files as [|f rest].
  - rewrite processFiles_none in *. cbn [fst snd] in *.
    apply script_exited. exact M.
  - rewrite (processFiles_run cfg (f :: rest) m1) in * by discriminate.
    cbn [fst snd] in *. apply script_normal. exact M.
Qed.

(** C6.  At the end of a run the two tallies add up to the number of files
    the enumeration found, and the turn of each target raises exactly one
    of the two tallies by one. *)
Theorem C6_every_target_counted (args : list string) (w : World) (cfg : Config)
        (heicFiles : list string) (m1 : Mem World) (t1 : list Event) :
  prepare args (mem0 w) = (Normal (cfg, heicFiles), m1, t1) ->
  let m_end := snd (fst (node args w)) in
  converted m_end + failed m_end = List.length heicFiles /\
  forall (fileName : string) (m : Mem World),
    let m' := snd (fst (convertFile cfg fileName m)) in
    (counted_converted m m' /\ ~ counted_failed m m')
    \/ (counted_failed m m' /\ ~ counted_converted m m').
Proof.
  intros P m_end. split.
  - destruct (node_after_prepare args w cfg heicFiles m1 t1 P) as (N & C & F & _).
    subst m_end. rewrite N. cbn [fst snd].
    destruct heicFiles as [|f rest].
    + rewrite processFiles_none. cbn [fst snd List.length]. lia.
    + rewrite (processFiles_run cfg (f :: rest) m1) by discriminate.
      cbn [fst snd].
      destruct (forEach_convertFile cfg (f :: rest) (zero_tallies m1))
        as (_ & S & _).
      rewrite S. reflexivity.
  - intros fileName m m'.
    destruct (convertFile_outcome cfg fileName m) as [_ [(C & _) | (F & _)]];
      fold m' in C || fold m' in F; [left | right];
      unfold counted_converted, counted_failed in *; (split; [assumption | lia]).
Qed.

(** C8.  When the enumeration finds no file, the run prints the
    no-files line and exits with status 0; both tallies are zero, nothing
    was removed, and no conversion was started. *)
Theorem C8_no_candidates (args : list string) (w : World) (cfg : Config)
        (m1 : Mem World) (t1 : list Event) :
  prepare args (mem0 w) = (Normal (cfg, []), m1, t1) ->
  let result := node args w in
  result = (Exited 0, m1, (t1 ++ [EvPrint no_files_line])%list) /\
  exit_status_of (fst (fst result)) = 0%Z /\
  converted m1 = 0 /\ failed m1 = 0 /\
  deleted_count (snd result) = 0 /\ delete_failed_count (snd result) = 0 /\
  forallb prelude_event (snd result) = true.
Proof.
  intros P result.
  destruct (node_after_prepare args w cfg [] m1 t1 P) as (N & C & F & E).
  rewrite processFiles_none in N. cbn [fst snd] in N.
  subst result. rewrite N. cbn [fst snd exit_status_of].
  assert (E' : forallb prelude_event (t1 ++ [EvPrint no_files_line]) = true).
  { rewrite forallb_app, E. reflexivity. }
  unfold deleted_count, delete_failed_count.
  rewrite (prelude_unlinks _ E'). repeat split; assumption.
Qed.


End Enumeration.

(** ** Strings *)

Lemma substring_split (s : string) (n : nat) :
  n <= String.length s ->
  s = substring 0 n s ++ substring n (String.length s - n) s.
Proof.
  revert n. induction s as [|c s IH]; intros n L.
  - destruct n; [reflexivity | simpl in L; lia].
  - destruct n as [|n].
    + simpl. f_equal. clear. induction s as [|d s IH]; [reflexivity|].
      simpl. f_equal. exact IH.
    + simpl in L. simpl. f_equal. apply IH. lia.
Qed.

Lemma substring_length_le (s : string) (a n : nat) :
  a + n <= String.length s -> String.length (substring a n s) = n.
Proof.
  revert a n. induction s as [|c s IH]; intros a n L; simpl in L.
  - assert (a = 0) by lia. assert (n = 0) by lia. subst. reflexivity.
  - destruct a as [|a]; destruct n as [|n]; simpl; try reflexivity.
    + f_equal. apply IH. lia.
    + apply IH. lia.
    + apply IH. lia.
Qed.

Lemma toLowerCase_substring (s : string) (a n : nat) :
  toLowerCase (substring a n s) = substring a n (toLowerCase s).
Proof.
  revert a n. induction s as [|c s IH]; intros a n.
  - destruct a, n; reflexivity.
  - destruct a as [|a]; destruct n as [|n]; simpl; try reflexivity.
    + f_equal. apply IH.
    + apply IH.
    + apply IH.
Qed.

Lemma toLowerCase_length (s : string) :
  String.length (toLowerCase s) = String.length s.
Proof. induction s; simpl; congruence. Qed.

Lemma lower_dot (c : ascii) : lower_ascii c = "."%char -> c = "."%char.
Proof.
  destruct c as [[] [] [] [] [] [] [] []]; intros E; try discriminate E;
    reflexivity.
Qed.

Lemma lower_letter_plain (c l : ascii) :
  lower_ascii c = l -> Ascii.eqb l "/" = false -> Ascii.eqb l "." = false ->
  Ascii.eqb c "/" = false /\ Ascii.eqb c "." = false.
Proof.
  intros E S D. split.
  - destruct (Ascii.eqb_spec c "/"); [|reflexivity]. subst c.
    rewrite <- E in S. discriminate S.
  - destruct (Ascii.eqb_spec c "."); [|reflexivity]. subst c.
    rewrite <- E in D. discriminate D.
Qed.

(** A name that passes the filter is a stem followed by five characters:
    a dot and the letters h, e, i, c in either case. *)
Lemma heic_suffix_shape (f : string) :
  has_heic_suffix f = true ->
  exists d c1 c2 c3 c4,
    f = substring 0 (String.length f - 5) f
        ++ String d (String c1 (String c2 (String c3 (String c4 EmptyString)))) /\
    5 <= String.length f /\
    d = "."%char /\
    (Ascii.eqb c1 "/" = false /\ Ascii.eqb c1 "." = false) /\
    (Ascii.eqb c2 "/" = false /\ Ascii.eqb c2 "." = false) /\
    (Ascii.eqb c3 "/" = false /\ Ascii.eqb c3 "." = false) /\
    (Ascii.eqb c4 "/" = false /\ Ascii.eqb c4 "." = false).
Proof.
  unfold has_heic_suffix, endsWith. intros E.
  apply andb_true_iff in E. destruct E as [L E].
  rewrite toLowerCase_length in *. cbn [String.length] in *.
  apply Nat.leb_le in L. apply String.eqb_eq in E.
  rewrite <- toLowerCase_substring in E.
  pose proof (substring_split f (String.length f - 5)) as S.
  replace (String.length f - (String.length f - 5)) with 5 in S by lia.
  specialize (S ltac:(lia)).
  pose proof (substring_length_le f (String.length f - 5) 5 ltac:(lia)) as N.
  destruct (substring (String.length f - 5) 5 f)
    as [|d [|c1 [|c2 [|c3 [|c4 [|c5 r]]]]]]; try discriminate N.
  cbn [toLowerCase] in E. injection E as E0 E1 E2 E3 E4.
  exists d, c1, c2, c3, c4.
  split; [exact S|]. split; [exact L|]. split; [apply lower_dot; exact E0|].
  repeat split;
    first [ eapply (proj1 (lower_letter_plain _ _ E1 eq_refl eq_refl))
          | eapply (proj2 (lower_letter_plain _ _ E1 eq_refl eq_refl))
          | eapply (proj1 (lower_letter_plain _ _ E2 eq_refl eq_refl))
          | eapply (proj2 (lower_letter_plain _ _ E2 eq_refl eq_refl))
          | eapply (proj1 (lower_letter_plain _ _ E3 eq_refl eq_refl))
          | eapply (proj2 (lower_letter_plain _ _ E3 eq_refl eq_refl))
          | eapply (proj1 (lower_letter_plain _ _ E4 eq_refl eq_refl))
          | eapply (proj2 (lower_letter_plain _ _ E4 eq_refl eq_refl)) ].
Qed.

(** ** [path.parse(name).name] on a name that passes the filter *)

Lemma list_ascii_of_string_app (a b : string) :
  list_ascii_of_string (a ++ b)
  = (list_ascii_of_string a ++ list_ascii_of_string b)%list.
Proof. induction a as [|c a IH]; simpl; [reflexivity | f_equal; exact IH]. Qed.

Lemma list_ascii_length (s : string) :
  List.length (list_ascii_of_string s) = String.length s.
Proof. induction s; simpl; congruence. Qed.

Lemma no_slash_chars (s : string) :
  no_slash s = true ->
  Forall (fun c => Ascii.eqb c "/" = false) (list_ascii_of_string s).
Proof.
  induction s as [|c s IH]; intros N; [constructor|].
  simpl in N. apply andb_true_iff in N. destruct N as [N1 N2].
  constructor; [apply negb_true_iff; exact N1 | apply IH; exact N2].
Qed.

Lemma no_slash_relative (s : string) : no_slash s = true -> isAbsolute s = false.
Proof.
  destruct s as [|c s]; [reflexivity|]. simpl. intros N.
  apply andb_true_iff in N. destruct N as [N _].
  apply negb_true_iff. exact N.
Qed.

(** Scanning what lies left of the last dot: the positions found so far
    stay, and [preDotState] leaves zero as soon as one character is seen. *)
Lemma scan_stem (l : list ascii) :
  Forall (fun c => Ascii.eqb c "/" = false) l ->
  forall (s : ParseScan) (d e : nat),
    startDot s = Some d -> endIdx s = Some e ->
    let s' := scan_loop 0 l s in
    startDot s' = Some d /\ endIdx s' = Some e /\ startPart s' = startPart s /\
    (l = [] -> preDotState s' = preDotState s) /\
    (l <> [] -> preDotState s' = 1%Z \/ preDotState s' = (-1)%Z).
Proof.
  induction 1 as [|c l C F IH]; intros s d e D E.
  - simpl. repeat split; auto. intros N. contradiction.
  - destruct s as [sd sp ei ms pd]. cbn in D, E. subst sd ei.
    cbn [scan_loop]. unfold scan_step. rewrite C.
    cbn [endIdx startDot startPart matchedSlash preDotState].
    destruct (Ascii.eqb c ".").
    + match goal with
      | |- context [scan_loop 0 l ?s1] =>
          destruct (IH s1 d e eq_refl eq_refl) as (I1 & I2 & I3 & I4 & I5)
      end.
      cbv zeta. split; [exact I1|]. split; [exact I2|]. split; [exact I3|].
      split; [intros N; discriminate N|]. intros _.
      destruct l as [|c' l'].
      * left. rewrite (I4 eq_refl). reflexivity.
      * apply I5. discriminate.
    + match goal with
      | |- context [scan_loop 0 l ?s1] =>
          destruct (IH s1 d e eq_refl eq_refl) as (I1 & I2 & I3 & I4 & I5)
      end.
      cbv zeta. split; [exact I1|]. split; [exact I2|]. split; [exact I3|].
      split; [intros N; discriminate N|]. intros _.
      destruct l as [|c' l'].
      * right. rewrite (I4 eq_refl). reflexivity.
      * apply I5. discriminate.
Qed.

Lemma substring_whole (s : string) : substring 0 (String.length s) s = s.
Proof. induction s as [|c s IH]; simpl; [reflexivity | f_equal; exact IH]. Qed.

Lemma no_slash_app (a b : string) :
  no_slash a = true -> no_slash b = true -> no_slash (a ++ b) = true.
Proof.
  intros A B. induction a as [|c a IH]; [exact B|].
  simpl in *. apply andb_true_iff in A. destruct A as [A1 A2].
  rewrite A1, (IH A2). reflexivity.
Qed.

Lemma no_slash_substring (s : string) (a n : nat) :
  no_slash s = true -> no_slash (substring a n s) = true.
Proof.
  revert a n. induction s as [|c s IH]; intros a n N.
  - destruct a, n; reflexivity.
  - simpl in N. apply andb_true_iff in N. destruct N as [N1 N2].
    destruct a as [|a]; destruct n as [|n]; simpl; try reflexivity.
    + rewrite N1, (IH 0 n N2). reflexivity.
    + apply IH. exact N2.
    + apply IH. exact N2.
Qed.

(** The base name of a file the filter lets through: the name without
    its last five characters, or the whole name when nothing precedes
    the dot. *)
Lemma parse_name_heic (f : string) :
  has_heic_suffix f = true -> no_slash f = true ->
  parse_name f =
    if (String.length f =? 5)%nat then f
    else substring 0 (String.length f - 5) f.
Proof.
  intros S N.
  destruct (heic_suffix_shape f S)
    as (d & c1 & c2 & c3 & c4 & F & L & -> & [A1 B1] & [A2 B2] & [A3 B3] & [A4 B4]).
  set (stem := substring 0 (String.length f - 5) f) in *.
  assert (LS : String.length stem = String.length f - 5).
  { subst stem. apply substring_length_le. lia. }
  pose proof (no_slash_chars f N) as NC.
  assert (SC : exists s',
             scan_loop 0 (rev (list_ascii_of_string f)) scan0 = s' /\
             startDot s' = Some (String.length stem) /\
             endIdx s' = Some (String.length f) /\
             startPart s' = 0 /\
             (String.length stem = 0 -> preDotState s' = 0%Z) /\
             (String.length stem <> 0 ->
              preDotState s' = 1%Z \/ preDotState s' = (-1)%Z)).
  { replace (rev (list_ascii_of_string f))
      with (rev (list_ascii_of_string
                   (stem ++ String "." (String c1 (String c2 (String c3
                                 (String c4 EmptyString)))))))
      by (rewrite <- F; reflexivity).
    rewrite list_ascii_of_string_app, rev_app_distr.
    replace (list_ascii_of_string f)
      with (list_ascii_of_string
              (stem ++ String "." (String c1 (String c2 (String c3
                                 (String c4 EmptyString))))))
      in NC by (rewrite <- F; reflexivity).
    rewrite list_ascii_of_string_app in NC.
    apply Forall_app in NC. destruct NC as [NC _].
    apply Forall_rev in NC.
    cbn [list_ascii_of_string rev app scan_loop].
    unfold scan_step at 1. rewrite A4, B4. cbn [endIdx scan0 startDot].
    unfold scan_step at 1. rewrite A3, B3. cbn [endIdx scan0 startDot].
    unfold scan_step at 1. rewrite A2, B2. cbn [endIdx scan0 startDot].
    unfold scan_step at 1. rewrite A1, B1. cbn [endIdx scan0 startDot].
    unfold scan_step at 1. cbn [Ascii.eqb Bool.eqb endIdx startDot matchedSlash
                                 startPart preDotState scan0].
    match goal with
    | |- context [scan_loop 0 ?l ?s1] =>
        destruct (scan_stem l NC s1 _ _ eq_refl eq_refl)
          as (I1 & I2 & I3 & I4 & I5);
        set (s' := scan_loop 0 l s1) in *
    end.
    cbn [startPart] in I3. cbn [preDotState] in I4.
    cbn [List.length] in I1, I2.
    rewrite length_rev, list_ascii_length in I1, I2.
    exists s'. split; [reflexivity|].
    split; [rewrite I1; f_equal; lia|].
    split; [rewrite I2; f_equal; lia|].
    split; [exact I3|]. split.
    - intros Z0. apply I4.
      destruct (list_ascii_of_string stem) eqn:Q; [reflexivity|].
      pose proof (list_ascii_length stem) as Q'. rewrite Q in Q'.
      simpl in Q'. lia.
    - intros NZ. apply I5. intros Q.
      apply (f_equal (@List.length ascii)) in Q.
      rewrite length_rev, list_ascii_length in Q. simpl in Q. lia. }
  destruct SC as (s' & SC & I1 & I2 & I3 & I4 & I5).
  unfold parse_name. rewrite (no_slash_relative f N). cbn [skipn].
  rewrite SC, I1, I2, I3. rewrite andb_false_r.
  replace (String.length stem =? String.length f - 1)%nat with false
    by (symmetry; apply Nat.eqb_neq; lia).
  rewrite andb_false_r, orb_false_r.
  unfold slice. rewrite !Nat.sub_0_r.
  destruct (String.length f =? 5)%nat eqn:E5.
  - apply Nat.eqb_eq in E5. rewrite I4 by lia. cbn [Z.eqb].
    apply substring_whole.
  - apply Nat.eqb_neq in E5.
    destruct I5 as [P | P]; [lia | | ]; rewrite P; cbn [Z.eqb];
      rewrite LS; reflexivity.
Qed.

Section PathsAndArguments.
Context {World : Type} `{Host World}.
Local Abbreviation Js := (JsM World).

(** C9.  For a file the enumeration lets through, the base name is the
    file name without its five-character extension (the whole name when
    nothing precedes the dot); the output path joins the target folder,
    as the input path does, with that base name and [.jpg], a name that
    holds no separator; the first
    thing done after announcing the file is to run the tool on that
    output path, and the loop body never queries the file system, so
    nothing checks whether the output exists. *)
Theorem C9_output_path (cfg : Config) (fileName : string) (m : Mem World) :
  has_heic_suffix fileName = true -> no_slash fileName = true ->
  let stem := substring 0 (String.length fileName - 5) fileName in
  let extension := substring (String.length fileName - 5) 5 fileName in
  let baseName :=
    if (String.length fileName =? 5)%nat then fileName else stem in
  let inputPath := path_join (targetFolder cfg) fileName in
  let outputPath := path_join (targetFolder cfg) (baseName ++ ".jpg") in
  let first := spawn (cmd_direct inputPath outputPath) (world m) in
  let t := snd (convertFile cfg fileName m) in
  fileName = stem ++ extension /\
  toLowerCase extension = ".heic" /\
  parse_name fileName = baseName /\
  no_slash (baseName ++ ".jpg") = true /\
  (exists rest,
      t = EvPrint (cyan ++ ("Converting: " ++ fileName) ++ reset)
          :: EvExec (cmd_direct inputPath outputPath) (status (fst first))
          :: rest) /\
  (exists n, 1 <= n <= 3 /\
             map fst (execs t) = firstn n (strategies inputPath outputPath)) /\
  stats t = [] /\ readdirs t = [] /\
  (forall p removed, In (p, removed) (unlinks t) -> p = inputPath).
Proof.
  intros S N stem extension baseName inputPath outputPath first t.
  pose proof (parse_name_heic fileName S N) as B. fold stem baseName in B.
  assert (L : 5 <= String.length fileName).
  { destruct (heic_suffix_shape fileName S) as (? & ? & ? & ? & ? & _ & L & _).
    exact L. }
  split.
  { pose proof (substring_split fileName (String.length fileName - 5)) as Q.
    replace (String.length fileName - (String.length fileName - 5)) with 5
      in Q by lia.
    apply Q. lia. }
  split.
  { unfold has_heic_suffix, endsWith in S. apply andb_true_iff in S.
    destruct S as [_ S]. apply String.eqb_eq in S.
    rewrite toLowerCase_length in S. cbn [String.length] in S.
    subst extension. rewrite toLowerCase_substring. exact S. }
  split; [exact B|].
  split.
  { apply no_slash_app; [|reflexivity]. subst baseName stem.
    destruct (String.length fileName =? 5)%nat;
      [exact N | apply no_slash_substring; exact N]. }
  destruct (convertFile_quiet cfg fileName m) as (Q1 & Q2 & _).
  destruct (convertFile_outcome cfg fileName m) as [_ O].
  cbv zeta in O. fold inputPath t in O.
  subst t first outputPath baseName. cbv beta zeta. rewrite <- B.
  split; [|split; [|split; [exact Q1 | split; [exact Q2|]]]].
  - run_file cfg fileName m; fold inputPath; cbn [snd app]; eexists;
      reflexivity.
  - run_file cfg fileName m; fold inputPath;
      [exists 1 | exists 2 | exists 3 | exists 3];
      (split; [lia|]); cbn [snd];
      rewrite ?deleteOriginal_run; destruct (deleteOriginals cfg);
      repeat match goal with
        | |- context [fst (fs_unlinkSync ?p ?w)] =>
            destruct (fst (fs_unlinkSync p w))
        end; reflexivity.
  - intros p removed I.
    destruct O as [(_ & _ & b & U) | (_ & U)]; rewrite U in I.
    + destruct (deleteOriginals cfg); [|contradiction].
      destruct I as [I | []]. congruence.
    + contradiction.
Qed.

Lemma lower_eqb_ignoring_case (a b : string) :
  toLowerCase b = b ->
  String.eqb (toLowerCase a) b = equal_ignoring_case a b.
Proof.
  revert b. induction a as [|x a IH]; intros [|y b] L; try reflexivity.
  cbn [toLowerCase] in L. injection L as Ly Lb.
  cbn [toLowerCase String.eqb equal_ignoring_case]. unfold same_letter.
  rewrite Ly, (IH b Lb).
  destruct (Ascii.eqb (lower_ascii x) y); reflexivity.
Qed.

(** C10.  With two arguments, delete mode is on exactly when the second
    one equals [delete] up to letter case, so [DELETE] enables it; any
    other value leaves preserve mode on, the directory is the resolved
    first argument, only the two informational lines are printed, and the
    run goes on with that configuration. *)
Theorem C10_second_argument (a0 a1 : string) (m : Mem World) :
  let dir := path_resolve (world m) a0 in
  let del := equal_ignoring_case a1 "delete" in
  let cfg := {| targetFolder := dir; deleteOriginals := del |} in
  let lines :=
    [cyan ++ ("Using specified directory: " ++ dir) ++ reset;
     if del then yellow ++ delete_line ++ reset
     else cyan ++ preserve_line ++ reset] in
  parseArgs [a0; a1] m = (Normal cfg, m, map EvPrint lines) /\
  equal_ignoring_case "DELETE" "delete" = true /\
  main [a0; a1] m =
    (fst (fst (after_parse cfg m)), snd (fst (after_parse cfg m)),
     (map EvPrint banner_lines ++ map EvPrint lines ++ [EvPrint ""]
        ++ snd (after_parse cfg m))%list).
Proof.
  intros dir del cfg lines.
  assert (P : parseArgs [a0; a1] m = (Normal cfg, m, map EvPrint lines)).
  { unfold parseArgs, bind, cwd, resolve, colorLog, console_log, emit, ret.
    rewrite (lower_eqb_ignoring_case a1 "delete" eq_refl).
    fold dir del. subst cfg lines. destruct del; reflexivity. }
  split; [exact P|]. split; [reflexivity|].
  apply main_start. exact P.
Qed.

End PathsAndArguments.

(** C3.  The enumeration reads the target directory once and nothing
    below it, calls [lstat] only on the entries whose lower-cased name
    ends in [.heic], and keeps exactly those of them that are regular
    files.  On a directory with a.heic, b.heic, c.HEIC, notes.txt and a
    sub-directory, the run finds 3 files, converts them, and no event
    names notes.txt or the file inside the sub-directory. *)
Theorem C3_enumeration :
  (forall (World : Type) (H : Host World) (dir : string) (names : list string)
          (m : Mem World),
      fs_readdirSync dir (world m) = inr names ->
      (forall f, In f names -> has_heic_suffix f = true ->
                 exists k, fs_lstatSync (path_join dir f) (world m) = inr k) ->
      findHeicFiles dir m =
        (Normal (filter (is_candidate (world m) dir) names), m,
         EvReaddir dir
         :: map (fun f => EvLstat (path_join dir f))
              (filter has_heic_suffix names))) /\
  (let run := node ["/photos"] (Mock.photos_fs [] []) in
   let t := snd run in
   fst (fst (findHeicFiles "/photos" (mem0 (Mock.photos_fs [] []))))
     = Normal ["a.heic"; "b.heic"; "c.HEIC"] /\
   fst (fst run) = Normal tt /\
   In (EvPrint (found_line 3)) t /\
   converted (snd (fst run)) = 3 /\ failed (snd (fst run)) = 0 /\
   deleted_count t = 0 /\
   readdirs t = ["/photos"] /\
   forallb (fun e => negb (touches "/photos/notes.txt" e)) t = true /\
   forallb (fun e => negb (touches "/photos/old.heic/x.heic" e)) t = true).
Proof.
  split.
  - intros World H dir names m R A. apply findHeicFiles_run; assumption.
  - vm_compute. repeat split; auto 30.
Qed.

(** * The Processing sketch: the same properties of its core *)

Section PdeFacts.
Import Pde.
Context {World : Type} `{Jvm World}.
Local Open Scope Z_scope.

(** The commands are run in the order of the array; the loop stops at the
    first exit code zero and answers [true] exactly then. *)
Lemma pde_tryCommands_short_circuit (cmds : list string) (w : World) :
  let r := tryCommands cmds w in
  let t := snd r in
  map fst (commands_run t) = firstn (List.length t) cmds /\
  (fst (fst r) = true ->
   exists before c, t = (before ++ [Exec c (Some 0)])%list /\
                    forallb (fun e => negb (succeeded e)) before = true) /\
  (fst (fst r) = false ->
   List.length t = List.length cmds /\
   forallb (fun e => negb (succeeded e)) t = true).
Proof.
  revert w. induction cmds as [|c rest IH]; intros w.
  - simpl. repeat split; try discriminate; reflexivity.
  - cbn [tryCommands]. destruct (runtime_exec c w) as [[code|] w1].
    + destruct (code =? 0) eqn:E.
      * apply Z.eqb_eq in E. subst code. cbn. split; [reflexivity|].
        split; [|discriminate]. intros _. exists [], c. split; reflexivity.
      * specialize (IH w1). destruct (tryCommands rest w1) as [[r w2] t].
        cbn [fst snd] in *. destruct IH as (P & T & F).
        cbn [commands_run map List.length firstn]. rewrite P.
        split; [reflexivity|]. split.
        -- intros R. destruct (T R) as (before & c' & -> & B).
           exists (Exec c (Some code) :: before), c'. split; [reflexivity|].
           cbn [forallb]. rewrite B.
           destruct code; try reflexivity. discriminate E.
        -- intros R. destruct (F R) as (L & B). split; [cbn; lia|].
           cbn [forallb]. rewrite B.
           destruct code; try reflexivity. discriminate E.
    + specialize (IH w1). destruct (tryCommands rest w1) as [[r w2] t].
      cbn [fst snd] in *. destruct IH as (P & T & F).
      cbn [commands_run map List.length firstn]. rewrite P.
      split; [reflexivity|]. split.
      * intros R. destruct (T R) as (before & c' & -> & B).
        exists (Exec c None :: before), c'. split; [reflexivity|].
        cbn [forallb]. rewrite B. reflexivity.
      * intros R. destruct (F R) as (L & B). split; [cbn; lia|].
        cbn [forallb]. rewrite B. reflexivity.
Qed.

Lemma pde_deletions_app (a b : list Ev) :
  deletions (a ++ b) = (deletions a ++ deletions b)%list.
Proof.
  induction a as [|e a IH]; [reflexivity|].
  destruct e; simpl; rewrite IH; reflexivity.
Qed.

Lemma pde_tryCommands_no_deletion (cmds : list string) (w : World) :
  deletions (snd (tryCommands cmds w)) = [].
Proof.
  revert w. induction cmds as [|c rest IH]; intros w; [reflexivity|].
  cbn [tryCommands]. destruct (runtime_exec c w) as [[code|] w1].
  - destruct (code =? 0); [reflexivity|].
    specialize (IH w1). destruct (tryCommands rest w1) as [[r w2] t].
    exact IH.
  - specialize (IH w1). destruct (tryCommands rest w1) as [[r w2] t].
    exact IH.
Qed.

(** One turn of the loop raises exactly one counter, and calls
    [File.delete], on the original only, exactly when the conversion
    succeeded and [DELETE_ORIGINALS] is set. *)
Lemma pde_convertOne_outcome (i : Z) (inputPath : string) (s s' : Sketch World)
      (t : list Ev) :
  convertOne i inputPath s = Some (s', t) ->
  (convertedCount s' = wrap_int (convertedCount s + 1) /\
   failedCount s' = failedCount s /\
   deletions t = if DELETE_ORIGINALS s then [inputPath] else [])
  \/
  (convertedCount s' = convertedCount s /\
   failedCount s' = wrap_int (failedCount s + 1) /\
   deletions t = []).
Proof.
  unfold convertOne. destruct (lastIndexOf_dot (file_getName inputPath) <? 0);
    [discriminate|].
  unfold convertSingleFile. cbn [JPEG_QUALITY set_progress jvm].
  match goal with
  | |- context [tryCommands ?c ?w] =>
      pose proof (pde_tryCommands_no_deletion c w) as D;
      destruct (tryCommands c w) as [[[] w1] t1]
  end; cbn [snd] in D.
  - cbn [DELETE_ORIGINALS count_converted set_jvm set_progress].
    destruct (DELETE_ORIGINALS s).
    + unfold deleteOriginal. cbn [jvm count_converted set_jvm set_progress].
      destruct (file_delete inputPath w1) as [[message|[]] w2];
        cbv beta iota; intros E; injection E as <- <-; left;
        cbn [convertedCount failedCount set_jvm deletions];
        rewrite pde_deletions_app, D; repeat split; reflexivity.
    + intros E. injection E as <- <-. left.
      cbn [convertedCount failedCount set_jvm deletions].
      rewrite pde_deletions_app, D. repeat split; reflexivity.
  - intros E. injection E as <- <-. right.
    cbn [convertedCount failedCount set_jvm count_failed set_progress deletions].
    rewrite pde_deletions_app, D. repeat split; reflexivity.
Qed.

Lemma wrap_int_small (z : Z) : - 2 ^ 31 <= z < 2 ^ 31 -> wrap_int z = z.
Proof.
  intros B. unfold wrap_int.
  rewrite Z.mod_small by lia. lia.
Qed.

(** The counters after the loop add up to what they were plus the
    number of files, as long as that stays within an [int]. *)
Lemma pde_convertLoop_tally (files : list string) :
  forall (i : Z) (s s' : Sketch World) (t : list Ev),
    convertLoop i files s = Some (s', t) ->
    0 <= convertedCount s -> 0 <= failedCount s ->
    convertedCount s + failedCount s + Z.of_nat (List.length files) < 2 ^ 31 ->
    0 <= convertedCount s' /\ 0 <= failedCount s' /\
    convertedCount s' + failedCount s'
    = convertedCount s + failedCount s + Z.of_nat (List.length files).
Proof.
  induction files as [|f rest IH]; intros i s s' t E C F B.
  - cbn in E. injection E as <- <-. cbn [List.length] in *. lia.
  - cbn [convertLoop] in E.
    destruct (convertOne i f s) as [[s1 t1]|] eqn:O; [|discriminate].
    destruct (convertLoop (i + 1) rest s1) as [[s2 t2]|] eqn:L; [|discriminate].
    injection E as <- <-.
    cbn [List.length] in B. rewrite Nat2Z.inj_succ in B.
    destruct (pde_convertOne_outcome i f s s1 t1 O)
      as [(C1 & F1 & _) | (C1 & F1 & _)];
      rewrite wrap_int_small in * by lia;
      destruct (IH (i + 1) s1 s2 t2 L ltac:(lia) ltac:(lia) ltac:(lia))
        as (C2 & F2 & S2);
      cbn [List.length]; rewrite Nat2Z.inj_succ; lia.
Qed.


Lemma pde_lastIndexOf_dot_app (stem rest : string) (i found : Z) :
  lastIndexOf_dot_from i (stem ++ rest) found
  = lastIndexOf_dot_from (i + Z.of_nat (String.length stem)) rest
      (lastIndexOf_dot_from i stem found).
Proof.
  revert i found. induction stem as [|c stem IH]; intros i found.
  - cbn. rewrite Z.add_0_r. reflexivity.
  - cbn [append lastIndexOf_dot_from String.length]. rewrite IH.
    rewrite Nat2Z.inj_succ. f_equal. lia.
Qed.

(** Lines 223-225: for a name the scan lets through, [baseName] is the
    name without its last five characters. *)
Lemma pde_baseName (fileName : string) :
  has_heic_suffix fileName = true ->
  lastIndexOf_dot fileName = Z.of_nat (String.length fileName - 5)%nat /\
  fileName
  = substring 0 (Z.to_nat (lastIndexOf_dot fileName)) fileName
    ++ substring (String.length fileName - 5)%nat 5 fileName.
Proof.
  intros S.
  destruct (heic_suffix_shape fileName S)
    as (d & c1 & c2 & c3 & c4 & F & L & -> & [_ B1] & [_ B2] & [_ B3] & [_ B4]).
  assert (LS : String.length (substring 0 (String.length fileName - 5)%nat fileName)
               = (String.length fileName - 5)%nat)
    by (apply substring_length_le; lia).
  assert (D : lastIndexOf_dot fileName = Z.of_nat (String.length fileName - 5)%nat).
  { unfold lastIndexOf_dot.
    replace (lastIndexOf_dot_from 0 fileName (-1))
      with (lastIndexOf_dot_from 0
              (substring 0 (String.length fileName - 5)%nat fileName
                 ++ String "." (String c1 (String c2 (String c3
                                  (String c4 EmptyString))))) (-1))
      by (rewrite <- F; reflexivity).
    rewrite pde_lastIndexOf_dot_app. cbn [lastIndexOf_dot_from].
    rewrite B1, B2, B3, B4. cbn [Ascii.eqb Bool.eqb]. rewrite LS. lia. }
  split; [exact D|]. rewrite D, Nat2Z.id.
  pose proof (substring_split fileName (String.length fileName - 5)%nat) as Q.
  replace (String.length fileName - (String.length fileName - 5))%nat with 5%nat
    in Q by lia.
  apply Q. lia.
Qed.

End PdeFacts.

(** * The properties at work on the concrete host *)

Lemma C1_witness :
  let cfg := {| targetFolder := "/photos"; deleteOriginals := false |} in
  let i := "/photos/a.heic" in
  let o := "/photos/a.jpg" in
  let m := mem0 (Mock.photos_fs [cmd_direct i o; cmd_format i o] []) in
  execs (snd (convertFile cfg "a.heic" m))
    = [(cmd_direct i o, 1%Z); (cmd_format i o, 1%Z); (cmd_orient i o, 0%Z)] /\
  counted_converted m (snd (fst (convertFile cfg "a.heic" m))).
Proof.
  intros cfg i o m.
  destruct (C1_strategies_in_order cfg "a.heic" m) as (_ & _ & _ & _ & _ & W & _).
  apply W; vm_compute; congruence.
Defined.

Lemma C2_witness :
  let no_tool :=
    {| Mock.nodes := Mock.photos_nodes; Mock.listings := [];
       Mock.tool := Mock.failing_on ["magick -version"]; Mock.locked := [] |} in
  (fst (fst (node ["/photos"] no_tool)) = Exited 1 /\
   execs (snd (node ["/photos"] no_tool)) = [("magick -version", 1%Z)] /\
   stats (snd (node ["/photos"] no_tool)) = [] /\
   readdirs (snd (node ["/photos"] no_tool)) = [] /\
   unlinks (snd (node ["/photos"] no_tool)) = []) /\
  (fst (fst (node ["/nowhere"] (Mock.photos_fs [] []))) = Exited 1 /\
   readdirs (snd (node ["/nowhere"] (Mock.photos_fs [] []))) = [] /\
   unlinks (snd (node ["/nowhere"] (Mock.photos_fs [] []))) = []) /\
  (fst (fst (node ["/photos/notes.txt"] (Mock.photos_fs [] []))) = Exited 1 /\
   readdirs (snd (node ["/photos/notes.txt"] (Mock.photos_fs [] []))) = [] /\
   unlinks (snd (node ["/photos/notes.txt"] (Mock.photos_fs [] []))) = []).
Proof.
  intros no_tool. split; [|split].
  - destruct (C2_preconditions_fatal (H := Mock.host) ["/photos"] no_tool
                {| targetFolder := "/photos"; deleteOriginals := false |}
                _ _ ltac:(lazy; reflexivity)) as (W & _).
    apply W. vm_compute. congruence.
  - destruct (C2_preconditions_fatal (H := Mock.host) ["/nowhere"] (Mock.photos_fs [] [])
                {| targetFolder := "/nowhere"; deleteOriginals := false |}
                _ _ ltac:(lazy; reflexivity)) as (_ & W & _).
    destruct W as (X & _ & _ & R & U); [reflexivity | reflexivity |].
    repeat split; assumption.
  - destruct (C2_preconditions_fatal (H := Mock.host) ["/photos/notes.txt"] (Mock.photos_fs [] [])
                {| targetFolder := "/photos/notes.txt"; deleteOriginals := false |}
                _ _ ltac:(lazy; reflexivity)) as (_ & _ & W).
    destruct W as (X & _ & _ & R & U); [reflexivity | reflexivity | |].
    + intros k K. vm_compute in K. injection K as <-. reflexivity.
    + repeat split; assumption.
Defined.

Lemma C3_witness :
  findHeicFiles "/photos" (mem0 (Mock.photos_fs [] []))
  = (Normal ["a.heic"; "b.heic"; "c.HEIC"], mem0 (Mock.photos_fs [] []),
     [EvReaddir "/photos"; EvLstat "/photos/a.heic"; EvLstat "/photos/b.heic";
      EvLstat "/photos/c.HEIC"; EvLstat "/photos/old.heic"]).
Proof.
  apply (proj1 C3_enumeration Mock.Fs Mock.host "/photos"
           ["a.heic"; "b.heic"; "c.HEIC"; "notes.txt"; "old.heic"]
           (mem0 (Mock.photos_fs [] []))).
  - reflexivity.
  - intros f [<- | [<- | [<- | [<- | [<- | []]]]]] S;
      try discriminate S; eexists; reflexivity.
Defined.

Lemma C4_witness :
  let cfg := {| targetFolder := "/photos"; deleteOriginals := true |} in
  let i := "/photos/b.heic" in
  let o := "/photos/b.jpg" in
  let m := mem0 (Mock.photos_fs (strategies i o) []) in
  counted_failed m (snd (fst (convertFile cfg "b.heic" m))) /\
  unlinks (snd (convertFile cfg "b.heic" m)) = [] /\
  In (EvPrint (red ++ ("  Details: Command failed: " ++ cmd_orient i o) ++ reset))
     (snd (convertFile cfg "b.heic" m)) /\
  In (EvPrint (cyan ++ "Converting: c.HEIC" ++ reset))
     (snd (forEach (convertFile cfg) ["b.heic"; "c.HEIC"] m)).
Proof.
  intros cfg i o m.
  destruct (C4_all_strategies_fail cfg "b.heic" ["c.HEIC"] m)
    as (E & F & U & L); try (vm_compute; congruence).
  rewrite L, E. cbn [fst snd]. split; [exact F|]. split; [exact U|].
  split; vm_compute; auto 20.
Defined.

Lemma C5_witness :
  let cfg := {| targetFolder := "/photos"; deleteOriginals := true |} in
  let m := mem0 (Mock.photos_fs [] ["/photos/a.heic"]) in
  unlinks (snd (convertFile cfg "a.heic" m)) = [("/photos/a.heic", false)] /\
  counted_converted m (snd (fst (convertFile cfg "a.heic" m))) /\
  ~ counted_failed m (snd (fst (convertFile cfg "a.heic" m))).
Proof.
  intros cfg m.
  destruct (C5_deletion_iff_converted cfg "a.heic" m) as (_ & _ & W).
  split; [reflexivity|].
  destruct (W eq_refl) as (C & F & _). split; assumption.
Defined.

Lemma C6_witness :
  let bad := strategies "/photos/b.heic" "/photos/b.jpg" in
  let m_end := snd (fst (node ["/photos"] (Mock.photos_fs bad []))) in
  converted m_end + failed m_end = 3 /\ converted m_end = 2 /\ failed m_end = 1.
Proof.
  intros bad m_end.
  destruct (C6_every_target_counted (H := Mock.host) ["/photos"] (Mock.photos_fs bad [])
              {| targetFolder := "/photos"; deleteOriginals := false |}
              ["a.heic"; "b.heic"; "c.HEIC"] _ _ ltac:(lazy; reflexivity))
    as (W & _).
  split; [exact W|]. split; reflexivity.
Defined.


Lemma C8_witness :
  node ["/empty"] Mock.empty_fs
  = (Exited 0, mem0 Mock.empty_fs,
     (snd (prepare ["/empty"] (mem0 Mock.empty_fs))
        ++ [EvPrint no_files_line])%list) /\
  deleted_count (snd (node ["/empty"] Mock.empty_fs)) = 0 /\
  delete_failed_count (snd (node ["/empty"] Mock.empty_fs)) = 0.
Proof.
  destruct (C8_no_candidates (H := Mock.host) ["/empty"] Mock.empty_fs
              {| targetFolder := "/empty"; deleteOriginals := false |}
              _ _ ltac:(lazy; reflexivity)) as (W & _ & _ & _ & D & F & _).
  split; [exact W|]. split; assumption.
Defined.

Lemma C9_witness :
  let cfg := {| targetFolder := "/photos"; deleteOriginals := false |} in
  let m := mem0 Mock.photos_with_output in
  fs_existsSync "/photos/a.jpg" Mock.photos_with_output = true /\
  parse_name "a.heic" = "a" /\
  (exists rest,
      snd (convertFile cfg "a.heic" m)
      = EvPrint (cyan ++ "Converting: a.heic" ++ reset)
        :: EvExec (cmd_direct "/photos/a.heic" "/photos/a.jpg") 0
        :: rest) /\
  stats (snd (convertFile cfg "a.heic" m)) = [].
Proof.
  intros cfg m.
  destruct (C9_output_path cfg "a.heic" m eq_refl eq_refl)
    as (_ & _ & B & _ & F & _ & S & _).
  split; [reflexivity|]. split; [exact B|]. split; [exact F | exact S].
Defined.


(** * Further properties of the script *)

Section MoreOfTheScript.
Context {World : Type} `{Host World}.
Local Abbreviation Js := (JsM World).

(** ** Arguments *)

(** X1.  With three or more arguments none of them is read: the run
    uses the current directory and keeps the originals, as with no
    argument at all, and differs from that run only in not printing the
    directory line and the mode line. *)
Theorem X1_extra_arguments_ignored (a0 a1 a2 : string) (rest : list string)
        (m : Mem World) :
  let here := process_cwd (world m) in
  let cfg := {| targetFolder := here; deleteOriginals := false |} in
  let quiet := main (a0 :: a1 :: a2 :: rest) m in
  let plain := main [] m in
  let lines :=
    [cyan ++ ("Using current directory: " ++ here) ++ reset;
     cyan ++ preserve_line ++ reset] in
  parseArgs (a0 :: a1 :: a2 :: rest) m = (Normal cfg, m, []) /\
  fst quiet = fst plain /\
  snd quiet =
    (map EvPrint banner_lines ++ [EvPrint ""] ++ snd (after_parse cfg m))%list /\
  snd plain =
    (map EvPrint banner_lines ++ map EvPrint lines
       ++ [EvPrint ""] ++ snd (after_parse cfg m))%list.
Proof.
  intros here cfg quiet plain lines.
  assert (P : parseArgs (a0 :: a1 :: a2 :: rest) m
              = (Normal cfg, m, map EvPrint [])) by reflexivity.
  assert (Q : parseArgs [] m
              = (Normal cfg, m,
                 map EvPrint
                   [cyan ++ ("Using current directory: " ++ here) ++ reset;
                    cyan ++ preserve_line ++ reset])) by reflexivity.
  subst quiet plain.
  rewrite (main_start _ m cfg _ P), (main_start _ m cfg _ Q).
  repeat split; reflexivity.
Qed.

(** ** Enumeration that goes wrong *)

(** The filter stops at the first [lstat] that throws. *)
Lemma filterM_isHeicFile_throws (dir : string) (before after : list string)
      (f : string) (e : Error) (m : Mem World) :
  (forall g, In g before -> has_heic_suffix g = true ->
             exists k, fs_lstatSync (path_join dir g) (world m) = inr k) ->
  has_heic_suffix f = true ->
  fs_lstatSync (path_join dir f) (world m) = inl e ->
  filterM (isHeicFile dir) (before ++ f :: after) m =
    (Thrown e, m,
     (map (fun g => EvLstat (path_join dir g)) (filter has_heic_suffix before)
        ++ [EvLstat (path_join dir f)])%list).
Proof.
  intros A S E. induction before as [|g r IH].
  - cbn [app filterM filter map]. unfold bind at 1, isHeicFile at 1.
    change (endsWith (toLowerCase f) ".heic") with (has_heic_suffix f).
    rewrite S. unfold bind at 1, lstatSync. rewrite E. reflexivity.
  - cbn [app filterM]. unfold bind at 1, isHeicFile at 1.
    change (endsWith (toLowerCase g) ".heic") with (has_heic_suffix g).
    cbn [filter].
    destruct (has_heic_suffix g) eqn:G.
    + destruct (A g (or_introl eq_refl) G) as [k K].
      unfold bind at 1, lstatSync. rewrite K. cbn [ret app].
      unfold bind at 1. rewrite IH by (intros x X; apply A; right; exact X).
      reflexivity.
    + cbn [ret]. unfold bind at 1.
      rewrite IH by (intros x X; apply A; right; exact X). reflexivity.
Qed.

(** X2.  When the target directory cannot be listed, or [lstat] fails on
    an entry whose name ends in [.heic], the enumeration prints the error
    with its details and exits with status 1; the entries after the
    failing one are not looked at. *)
Theorem X2_enumeration_failure_is_fatal (dir : string) (m : Mem World) :
  (forall e,
      fs_readdirSync dir (world m) = inl e ->
      findHeicFiles dir m =
        (Exited 1, m,
         [EvReaddir dir;
          EvPrint (red ++ ("ERROR: Cannot read directory " ++ dquote ++ dir
                             ++ dquote) ++ reset);
          EvPrint (red ++ ("Details: " ++ e) ++ reset)])) /\
  (forall before f after e,
      fs_readdirSync dir (world m) = inr (before ++ f :: after)%list ->
      (forall g, In g before -> has_heic_suffix g = true ->
                 exists k, fs_lstatSync (path_join dir g) (world m) = inr k) ->
      has_heic_suffix f = true ->
      fs_lstatSync (path_join dir f) (world m) = inl e ->
      findHeicFiles dir m =
        (Exited 1, m,
         (EvReaddir dir
          :: map (fun g => EvLstat (path_join dir g))
               (filter has_heic_suffix before)
          ++ [EvLstat (path_join dir f);
              EvPrint (red ++ ("ERROR: Cannot read directory " ++ dquote ++ dir
                                 ++ dquote) ++ reset);
              EvPrint (red ++ ("Details: " ++ e) ++ reset)])%list)).
Proof.
  split.
  - intros e R. unfold findHeicFiles, try_catch, bind at 1, readdirSync.
    rewrite R. reflexivity.
  - intros before f after e R A S E.
    unfold findHeicFiles, try_catch, bind at 1, readdirSync. rewrite R.
    rewrite (filterM_isHeicFile_throws dir before after f e m A S E).
    unfold bind, colorLog, console_log, emit, process_exit.
    cbn [app]. rewrite <- app_assoc. reflexivity.
Qed.

(** ** Whole runs *)

(** X3.  Whatever the arguments and the host, the script never ends on
    an uncaught error: it runs to its end, or exits with status 0 or 1. *)
Theorem X3_exit_status_zero_or_one (args : list string) (w : World) :
  fst (fst (node args w)) = Normal tt \/
  fst (fst (node args w)) = Exited 0 \/
  fst (fst (node args w)) = Exited 1.
Proof.
  destruct (prepare args (mem0 w)) as [[[[cfg files]|e|code] m1] t1] eqn:P.
  - destruct (node_after_prepare args w cfg files m1 t1 P) as (N & _).
    rewrite N. cbn [fst]. destruct files as [|f rest].
    + right. left. reflexivity.
    + left. rewrite (processFiles_run cfg (f :: rest) m1) by discriminate.
      reflexivity.
  - right. right. pose proof (main_split args (mem0 w)) as M.
    rewrite (bind_thrown _ _ _ _ _ _ P) in M.
    unfold node. fold (mem0 w). rewrite (script_thrown _ _ _ _ _ M).
    reflexivity.
  - right. right. pose proof (main_split args (mem0 w)) as M.
    rewrite (bind_exited _ _ _ _ _ _ P) in M.
    destruct (harmless_prepare args (mem0 w)) as (_ & _ & _ & K).
    rewrite P in K. specialize (K code eq_refl). subst code.
    unfold node. fold (mem0 w). rewrite (script_exited _ _ _ _ _ M).
    reflexivity.
Qed.

(** The attempts on one file: at least one command, at most three. *)
Lemma convertFile_attempts (cfg : Config) (f : string) (m : Mem World) :
  1 <= List.length (execs (snd (convertFile cfg f m))) <= 3.
Proof.
  run_file cfg f m; rewrite ?deleteOriginal_run; cbn [snd];
    destruct (deleteOriginals cfg);
    repeat match goal with
      | |- context [fst (fs_unlinkSync ?p ?w)] =>
          destruct (fst (fs_unlinkSync p w))
      end; cbn; lia.
Qed.

(** What the loop removes and runs, file by file. *)
Lemma forEach_convertFile_effects (cfg : Config) (files : list string)
      (m : Mem World) :
  let r := forEach (convertFile cfg) files m in
  converted m <= converted (snd (fst r)) /\
  List.length (unlinks (snd r))
  = (if deleteOriginals cfg then converted (snd (fst r)) - converted m else 0) /\
  (forall p removed, In (p, removed) (unlinks (snd r)) ->
     exists f, In f files /\ p = path_join (targetFolder cfg) f) /\
  List.length files <= List.length (execs (snd r)) <= 3 * List.length files.
Proof.
  revert m. induction files as [|f rest IH]; intros m.
  - cbn. split; [lia|]. split; [destruct (deleteOriginals cfg); lia|].
    split; [intros p removed []|lia].
  - destruct (convertFile_outcome cfg f m) as [N O].
    pose proof (convertFile_attempts cfg f m) as A.
    destruct (convertFile cfg f m) as [[c m1] t1] eqn:E.
    cbn [fst snd] in N, O, A. subst c.
    rewrite (forEach_cons _ _ _ _ _ _ E). cbn [fst snd].
    destruct (IH m1) as (I1 & I2 & I3 & I4).
    rewrite unlinks_app, execs_app, !length_app, I2. cbn [List.length].
    unfold counted_converted, counted_failed in O.
    assert (U : List.length (unlinks t1)
                = (if deleteOriginals cfg then converted m1 - converted m else 0)
                /\ converted m <= converted m1
                /\ forall p removed, In (p, removed) (unlinks t1) ->
                                     p = path_join (targetFolder cfg) f).
    { destruct O as [((C & F) & _ & b & U) | ((C & F) & U)]; rewrite U.
      - destruct (deleteOriginals cfg); cbn; (split; [lia|]); (split; [lia|]).
        + intros p removed [X | []]. congruence.
        + intros p removed [].
      - cbn. destruct (deleteOriginals cfg); (split; [lia|]); (split; [lia|]);
          intros p removed []. }
    destruct U as (U1 & U2 & U3). rewrite U1.
    split; [lia|]. split; [destruct (deleteOriginals cfg); lia|]. split; [|lia].
    intros p removed I. apply in_app_or in I. destruct I as [I | I].
    + exists f. split; [left; reflexivity | exact (U3 p removed I)].
    + destruct (I3 p removed I) as (g & G & ->). exists g.
      split; [right; exact G | reflexivity].
Qed.

Lemma unlinks_report (c f : nat) : unlinks (report c f) = [].
Proof. unfold report. destruct (0 <? f)%nat; reflexivity. Qed.

Lemma execs_report (c f : nat) : execs (report c f) = [].
Proof. unfold report. destruct (0 <? f)%nat; reflexivity. Qed.

(** The removals of a whole run are those of its loop. *)
Lemma node_unlinks (args : list string) (w : World) (cfg : Config)
      (files : list string) (m1 : Mem World) (t1 : list Event) :
  prepare args (mem0 w) = (Normal (cfg, files), m1, t1) ->
  unlinks (snd (node args w))
  = unlinks (snd (forEach (convertFile cfg) files (zero_tallies m1))) /\
  converted (snd (fst (node args w)))
  = converted (snd (fst (forEach (convertFile cfg) files (zero_tallies m1)))).
Proof.
  intros P.
  destruct (node_after_prepare args w cfg files m1 t1 P) as (N & C & F & E).
  rewrite N. cbn [fst snd]. rewrite unlinks_app, (prelude_unlinks _ E).
  destruct files as [|f rest].
  - rewrite processFiles_none. cbn. split; [reflexivity | exact C].
  - rewrite (processFiles_run cfg (f :: rest) m1) by discriminate.
    cbn [fst snd unlinks app]. rewrite unlinks_app, unlinks_report, app_nil_r.
    split; reflexivity.
Qed.

(** The configuration the prelude hands over is the one parsed. *)
Lemma prepare_config (args : list string) (m : Mem World) (cfg cfg' : Config)
      (files : list string) (m1 mp : Mem World) (t1 tp : list Event) :
  prepare args m = (Normal (cfg, files), m1, t1) ->
  parseArgs args m = (Normal cfg', mp, tp) ->
  cfg = cfg'.
Proof.
  intros P Q. unfold prepare in P.
  unfold bind at 1 in P. rewrite banner_run in P.
  unfold bind at 1 in P. rewrite Q in P.
  repeat match type of P with
    | context [bind ?c ?k ?x] =>
        unfold bind at 1 in P;
        match type of P with
        | context [match ?c0 ?x0 with _ => _ end] =>
            destruct (c0 x0) as [[[?|?|?] ?] ?]; try discriminate P
        end
    end.
  cbn in P. injection P as <- _ _ _. reflexivity.
Qed.

(** X4.  When the arguments do not turn delete mode on, no run, fatal or
    not, ever calls [unlinkSync]. *)
Theorem X4_preserve_mode_removes_nothing (args : list string) (w : World)
        (cfg : Config) (mp : Mem World) (tp : list Event) :
  parseArgs args (mem0 w) = (Normal cfg, mp, tp) ->
  deleteOriginals cfg = false ->
  unlinks (snd (node args w)) = [].
Proof.
  intros Q D.
  destruct (prepare args (mem0 w)) as [[[[cfg' files]|e|code] m1] t1] eqn:P.
  - pose proof (prepare_config _ _ _ _ _ _ _ _ _ P Q) as ->.
    destruct (node_unlinks args w cfg files m1 t1 P) as (U & _). rewrite U.
    destruct (forEach_convertFile_effects cfg files (zero_tallies m1))
      as (_ & L & _).
    rewrite D in L. apply length_zero_iff_nil. exact L.
  - pose proof (main_split args (mem0 w)) as M.
    rewrite (bind_thrown _ _ _ _ _ _ P) in M.
    unfold node. fold (mem0 w). rewrite (script_thrown _ _ _ _ _ M).
    cbn [snd]. rewrite unlinks_app. cbn [unlinks app]. rewrite app_nil_r.
    destruct (harmless_prepare args (mem0 w)) as (_ & _ & E & _).
    rewrite P in E. apply prelude_unlinks. exact E.
  - pose proof (main_split args (mem0 w)) as M.
    rewrite (bind_exited _ _ _ _ _ _ P) in M.
    unfold node. fold (mem0 w). rewrite (script_exited _ _ _ _ _ M).
    destruct (harmless_prepare args (mem0 w)) as (_ & _ & E & _).
    rewrite P in E. apply prelude_unlinks. exact E.
Qed.

Lemma unlinks_partition (t : list Event) :
  deleted_count t + delete_failed_count t = List.length (unlinks t).
Proof.
  unfold deleted_count, delete_failed_count.
  induction (unlinks t) as [|[p []] l IH]; cbn; lia.
Qed.

(** X5.  In a run that reaches the enumeration, the number of removals
    attempted (those that went through plus those that did not) is the
    number of converted files in delete mode and zero in preserve mode,
    and every path handed to [unlinkSync] is that of an enumerated file
    in the target folder. *)
Theorem X5_removals_follow_conversions (args : list string) (w : World)
        (cfg : Config) (heicFiles : list string) (m1 : Mem World)
        (t1 : list Event) :
  prepare args (mem0 w) = (Normal (cfg, heicFiles), m1, t1) ->
  let run := node args w in
  deleted_count (snd run) + delete_failed_count (snd run)
  = (if deleteOriginals cfg then converted (snd (fst run)) else 0) /\
  forall p removed,
    In (p, removed) (unlinks (snd run)) ->
    exists f, In f heicFiles /\ p = path_join (targetFolder cfg) f.
Proof.
  intros P run. subst run.
  destruct (node_unlinks args w cfg heicFiles m1 t1 P) as (U & C).
  destruct (forEach_convertFile_effects cfg heicFiles (zero_tallies m1))
    as (_ & L & I & _).
  rewrite unlinks_partition, U, C, L. cbn [zero_tallies converted].
  rewrite Nat.sub_0_r. split; [reflexivity | exact I].
Qed.

(** ** What a run that reaches the loop has been through *)

Lemma filterM_isHeicFile_inv (dir : string) (names : list string) :
  forall (m m1 : Mem World) (l : list string) (t : list Event),
    filterM (isHeicFile dir) names m = (Normal l, m1, t) ->
    m1 = m /\ l = filter (is_candidate (world m) dir) names /\ execs t = [].
Proof.
  induction names as [|f r IH]; intros m m1 l t E.
  - cbn in E. injection E as <- <- <-. repeat split.
  - cbn [filterM] in E. unfold bind at 1, isHeicFile at 1 in E.
    cbn [filter]. unfold is_candidate at 1.
    change (endsWith (toLowerCase f) ".heic") with (has_heic_suffix f) in E.
    destruct (has_heic_suffix f).
    + unfold bind at 1, lstatSync in E.
      destruct (fs_lstatSync (path_join dir f) (world m)) as [e|k];
        [discriminate E|].
      cbn [ret app] in E. unfold bind at 1 in E.
      destruct (filterM (isHeicFile dir) r m) as [[[l'|e|code] m2] t2] eqn:R;
        try discriminate E.
      destruct (IH m m2 l' t2 R) as (-> & -> & X).
      cbn [ret] in E. injection E as <- <- <-.
      cbn [andb execs]. rewrite app_nil_r, X. repeat split.
    + cbn [ret] in E. unfold bind at 1 in E.
      destruct (filterM (isHeicFile dir) r m) as [[[l'|e|code] m2] t2] eqn:R;
        try discriminate E.
      destruct (IH m m2 l' t2 R) as (-> & -> & X).
      cbn [ret] in E. injection E as <- <- <-.
      cbn [andb app]. rewrite app_nil_r, X. repeat split.
Qed.

Lemma findHeicFiles_inv (dir : string) (m m1 : Mem World) (l : list string)
      (t : list Event) :
  findHeicFiles dir m = (Normal l, m1, t) ->
  m1 = m /\ execs t = [] /\
  exists names,
    fs_readdirSync dir (world m) = inr names /\
    l = filter (is_candidate (world m) dir) names.
Proof.
  unfold findHeicFiles, try_catch, bind at 1, readdirSync. intros E.
  destruct (fs_readdirSync dir (world m)) as [e|names]; [discriminate E|].
  destruct (filterM (isHeicFile dir) names m) as [[[l'|e|code] m2] t2] eqn:R;
    try discriminate E.
  destruct (filterM_isHeicFile_inv dir names m m2 l' t2 R) as (-> & -> & X).
  injection E as <- <- <-. split; [reflexivity|]. split; [exact X|].
  exists names. split; reflexivity.
Qed.

Ltac step_bind E H0 := unfold bind at 1 in H0; rewrite E in H0; cbv beta iota in H0.

(** A prelude that hands over has run both probes with the first exiting
    zero, found the target to be an existing directory, and listed it. *)
Lemma prepare_passed (args : list string) (w : World)
        (cfg : Config) (heicFiles : list string) (m1 : Mem World)
        (t1 : list Event) :
  prepare args (mem0 w) = (Normal (cfg, heicFiles), m1, t1) ->
  let dir := targetFolder cfg in
  let v := spawn "magick -version" w in
  let l := spawn "magick -list format" (snd v) in
  status (fst v) = 0%Z /\
  fs_existsSync dir (after_probes w) = true /\
  fs_lstatSync dir (after_probes w) = inr Directory /\
  world m1 = after_probes w /\
  execs t1 = [("magick -version", 0%Z); ("magick -list format", status (fst l))] /\
  exists names,
    fs_readdirSync dir (after_probes w) = inr names /\
    heicFiles = filter (is_candidate (after_probes w) dir) names.
Proof.
  intros P dir v l.
  destruct (parseArgs_total args (mem0 w)) as (cfg' & lines & Q).
  pose proof (prepare_config _ _ _ _ _ _ _ _ _ P Q) as <-.
  set (ma := set_world (snd v) (mem0 w)).
  set (mb := set_world (snd l) ma).
  pose proof (checkImageMagick_run (mem0 w)) as V.
  change (spawn "magick -version" (world (mem0 w))) with v in V.
  cbv zeta in V. fold ma in V.
  destruct (testHeicSupport_run ma) as (lines2 & T).
  change (spawn "magick -list format" (world ma)) with l in T. fold mb in T.
  subst dir.
  pose proof (checkDirectory_run (targetFolder cfg) mb) as D.
  change (world mb) with (after_probes w) in D.
  unfold prepare in P.
  step_bind (banner_run (mem0 w)) P. step_bind Q P.
  unfold bind at 1 in P. cbn [console_log emit] in P. cbv beta iota in P.
  destruct (status (fst v) =? 0)%Z eqn:S.
  2: { step_bind V P. discriminate P. }
  apply Z.eqb_eq in S. rewrite S in *. step_bind V P. step_bind T P.
  destruct (fs_existsSync (targetFolder cfg) (after_probes w));
    cbn [negb] in D.
  2: { step_bind D P. discriminate P. }
  destruct (fs_lstatSync (targetFolder cfg) (after_probes w)) as [e|k].
  { step_bind D P. discriminate P. }
  destruct k; cbn [isDirectory negb] in D;
    try (step_bind D P; discriminate P).
  step_bind D P. unfold bind at 1 in P.
  destruct (findHeicFiles (targetFolder cfg) mb)
    as [[[files|e|code] m2] t2] eqn:F; try discriminate P.
  destruct (findHeicFiles_inv _ mb m2 files t2 F) as (-> & X & names & R & L).
  cbn [ret] in P. injection P as <- <- <-.
  split; [reflexivity|]. split; [reflexivity|]. split; [reflexivity|].
  split; [reflexivity|]. split.
  - repeat (progress (rewrite ?execs_app, ?execs_prints; cbn [execs app])).
    rewrite X. reflexivity.
  - exists names. split; [exact R | exact L].
Qed.

(** X6.  The enumeration is handed over only after [magick -version]
    exited with status zero and the target was found to exist and to be
    a directory; the files handed over are the candidates of the listing
    of that directory, in the host state left by the two probes. *)
Theorem X6_loop_only_after_preconditions (args : list string) (w : World)
        (cfg : Config) (heicFiles : list string) (m1 : Mem World)
        (t1 : list Event) :
  prepare args (mem0 w) = (Normal (cfg, heicFiles), m1, t1) ->
  let dir := targetFolder cfg in
  status (fst (spawn "magick -version" w)) = 0%Z /\
  fs_existsSync dir (after_probes w) = true /\
  fs_lstatSync dir (after_probes w) = inr Directory /\
  world m1 = after_probes w /\
  exists names,
    fs_readdirSync dir (after_probes w) = inr names /\
    heicFiles = filter (is_candidate (after_probes w) dir) names.
Proof.
  intros P dir.
  destruct (prepare_passed args w cfg heicFiles m1 t1 P)
    as (V & X & D & W & _ & N).
  repeat split; assumption.
Qed.

(** X7.  Once the enumeration has gone through, the exit status is zero
    however many conversions fail. *)
Theorem X7_failures_do_not_change_exit_status (args : list string) (w : World)
        (cfg : Config) (heicFiles : list string) (m1 : Mem World)
        (t1 : list Event) :
  prepare args (mem0 w) = (Normal (cfg, heicFiles), m1, t1) ->
  exit_status_of (fst (fst (node args w))) = 0%Z.
Proof.
  intros P.
  destruct (node_after_prepare args w cfg heicFiles m1 t1 P) as (N & _).
  rewrite N. cbn [fst]. destruct heicFiles as [|f rest].
  - reflexivity.
  - rewrite (processFiles_run cfg (f :: rest) m1) by discriminate. reflexivity.
Qed.

Lemma conversions_app (a b : list Event) :
  conversions (a ++ b) = (conversions a ++ conversions b)%list.
Proof. unfold conversions. rewrite execs_app, filter_app. reflexivity. Qed.

Lemma successes_app (a b : list Event) :
  successes (a ++ b) = (successes a ++ successes b)%list.
Proof. unfold successes. rewrite conversions_app, filter_app. reflexivity. Qed.

Lemma conversion_commands_are_no_probes (i o : string) :
  is_probe (cmd_direct i o) = false /\
  is_probe (cmd_format i o) = false /\
  is_probe (cmd_orient i o) = false.
Proof. repeat split; reflexivity. Qed.

(** One file: between one and three conversion commands, none of them a
    probe, and one that exited zero exactly when the file is counted as
    converted. *)
Lemma convertFile_commands (cfg : Config) (f : string) (m : Mem World) :
  let r := convertFile cfg f m in
  1 <= List.length (conversions (snd r)) <= 3 /\
  converted (snd (fst r)) = converted m + List.length (successes (snd r)) /\
  conversions (snd r) = execs (snd r).
Proof.
  intros r. subst r.
  pose proof (tryConversions_run
                (path_join (targetFolder cfg) f)
                (path_join (targetFolder cfg) (parse_name f ++ ".jpg")) m) as T.
  cbv zeta in T.
  repeat match type of T with
    | context [Z.eqb ?s 0] =>
        let E := fresh "E" in destruct (Z.eqb s 0) eqn:E
    end;
  first [ rewrite (convertFile_converted cfg f m _ _ T)
        | rewrite (convertFile_failed cfg f m _ _ _ T) ];
  clear T; rewrite ?deleteOriginal_run; cbn [fst snd];
  destruct (deleteOriginals cfg);
  repeat match goal with
    | |- context [fst (fs_unlinkSync ?p ?w)] =>
        destruct (fst (fs_unlinkSync p w))
    end;
  unfold successes, conversions;
  cbn [execs app filter fst snd];
  repeat match goal with
    | |- context [is_probe (cmd_direct ?i ?o)] =>
        rewrite (proj1 (conversion_commands_are_no_probes i o))
    | |- context [is_probe (cmd_format ?i ?o)] =>
        rewrite (proj1 (proj2 (conversion_commands_are_no_probes i o)))
    | |- context [is_probe (cmd_orient ?i ?o)] =>
        rewrite (proj2 (proj2 (conversion_commands_are_no_probes i o)))
    end;
  cbn [negb filter fst snd]; rewrite ?E, ?E0, ?E1;
  cbn [List.length converted bump_converted bump_failed set_world];
  (split; [lia|]); (split; [lia | reflexivity]).
Qed.

Lemma forEach_convertFile_commands (cfg : Config) (files : list string)
      (m : Mem World) :
  let r := forEach (convertFile cfg) files m in
  List.length files <= List.length (conversions (snd r))
    <= 3 * List.length files /\
  converted (snd (fst r)) = converted m + List.length (successes (snd r)) /\
  conversions (snd r) = execs (snd r).
Proof.
  revert m. induction files as [|f rest IH]; intros m.
  - cbn. split; [lia|]. split; [lia | reflexivity].
  - destruct (convertFile_outcome cfg f m) as [N _].
    destruct (convertFile_commands cfg f m) as (A & S & X).
    destruct (convertFile cfg f m) as [[c m1] t1] eqn:E.
    cbn [fst snd] in N, A, S, X. subst c.
    rewrite (forEach_cons _ _ _ _ _ _ E). cbn [fst snd].
    destruct (IH m1) as (I1 & I2 & I3).
    rewrite conversions_app, successes_app, execs_app, !length_app, I2, S, I3, X.
    rewrite X in A. rewrite I3 in I1.
    cbn [List.length]. split; [lia|]. split; [lia | reflexivity].
Qed.

(** X8.  In a run that reaches the enumeration, the number of conversion
    commands run lies between the number of files found and three times
    it, the converted tally is
    the number of conversion commands that exited with status zero, the
    failed tally is the number of files found minus that, and the only
    other commands run are the two probes. *)
Theorem X8_tallies_read_off_the_commands (args : list string) (w : World)
        (cfg : Config) (heicFiles : list string) (m1 : Mem World)
        (t1 : list Event) :
  prepare args (mem0 w) = (Normal (cfg, heicFiles), m1, t1) ->
  let run := node args w in
  let found := List.length heicFiles in
  found <= List.length (conversions (snd run)) <= 3 * found /\
  converted (snd (fst run)) = List.length (successes (snd run)) /\
  failed (snd (fst run)) = found - List.length (successes (snd run)) /\
  List.length (execs (snd run)) = 2 + List.length (conversions (snd run)).
Proof.
  intros P run found. subst run found.
  destruct (node_after_prepare args w cfg heicFiles m1 t1 P) as (N & C & F & _).
  destruct (prepare_passed args w cfg heicFiles m1 t1 P)
    as (_ & _ & _ & _ & X & _).
  assert (X' : conversions t1 = []) by (unfold conversions; rewrite X; reflexivity).
  rewrite N. cbn [fst snd]. destruct heicFiles as [|f rest].
  - rewrite processFiles_none. cbn [fst snd].
    unfold successes. rewrite conversions_app, X', execs_app, X.
    cbn. repeat split; lia.
  - rewrite (processFiles_run cfg (f :: rest) m1) by discriminate.
    cbn [fst snd].
    destruct (forEach_convertFile cfg (f :: rest) (zero_tallies m1))
      as (_ & S & _).
    destruct (forEach_convertFile_commands cfg (f :: rest) (zero_tallies m1))
      as (B & K & A).
    set (r := forEach (convertFile cfg) (f :: rest) (zero_tallies m1)) in *.
    cbn [zero_tallies converted failed] in S, K.
    assert (E : conversions
                  (t1 ++ EvPrint (found_line (List.length (f :: rest)))
                      :: EvPrint "" :: snd r
                      ++ report (converted (snd (fst r))) (failed (snd (fst r))))
                = conversions (snd r)).
    { rewrite conversions_app, X'. unfold conversions. cbn [execs app].
      rewrite execs_app, execs_report, app_nil_r. reflexivity. }
    unfold successes. rewrite E. fold (successes (snd r)).
    split; [exact B|]. split; [lia|]. split; [lia|].
    rewrite execs_app, X. cbn [execs].
    rewrite execs_app, execs_report, app_nil_r, A.
    cbn [app List.length]. lia.
Qed.

End MoreOfTheScript.

(** * Further properties of the sketch *)

Section MoreOfTheSketch.
Import Pde PdeUi.
Context {World : Type} `{Jvm World} `{Desk World}.
Local Open Scope Z_scope.

Lemma pde_tryCommands_length (cmds : list string) (w : World) :
  let t := snd (tryCommands cmds w) in
  (List.length t <= List.length cmds)%nat /\
  List.length (commands_run t) = List.length t /\
  (cmds <> [] -> t <> []).
Proof.
  revert w. induction cmds as [|c rest IH]; intros w.
  - cbn. repeat split; try lia. intros N. contradiction.
  - cbn [tryCommands]. destruct (runtime_exec c w) as [[code|] w1].
    + destruct (code =? 0).
      * cbn. repeat split; try lia. intros _. discriminate.
      * specialize (IH w1). destruct (tryCommands rest w1) as [[r w2] t].
        cbn [snd] in *. destruct IH as (L & C & _).
        cbn. repeat split; try lia. intros _. discriminate.
    + specialize (IH w1). destruct (tryCommands rest w1) as [[r w2] t].
      cbn [snd] in *. destruct IH as (L & C & _).
      cbn. repeat split; try lia. intros _. discriminate.
Qed.

(** X9.  [convertSingleFile] of the sketch runs between one and three
    of its commands, in the order of the array; it answers [true] exactly
    when the last command run exited with code zero, no earlier one did,
    and answers [false] only after all three were run without an exit
    code zero, an exception counting as a failed attempt. *)
Theorem X9_sketch_attempts (quality : Z) (inputPath outputPath : string)
        (w : World) :
  let r := convertSingleFile quality inputPath outputPath w in
  let t := snd r in
  (1 <= List.length t <= 3)%nat /\
  map fst (commands_run t)
  = firstn (List.length t) (commands quality inputPath outputPath) /\
  (fst (fst r) = true ->
   exists before c, t = (before ++ [Exec c (Some 0)])%list /\
                    forallb (fun e => negb (succeeded e)) before = true) /\
  (fst (fst r) = false ->
   List.length t = 3%nat /\ forallb (fun e => negb (succeeded e)) t = true).
Proof.
  intros r t. subst r t. unfold convertSingleFile.
  destruct (pde_tryCommands_short_circuit
              (commands quality inputPath outputPath) w) as (P & T & F).
  destruct (pde_tryCommands_length
              (commands quality inputPath outputPath) w) as (L & _ & N).
  cbv zeta in *. split; [|split; [exact P | split; [exact T | exact F]]].
  split; [|exact L].
  destruct (snd (tryCommands (commands quality inputPath outputPath) w)).
  - exfalso. apply N; [discriminate | reflexivity].
  - cbn. lia.
Qed.

Lemma pde_convertOne_keeps_mode (i : Z) (inputPath : string)
      (s s' : Sketch World) (t : list Ev) :
  convertOne i inputPath s = Some (s', t) ->
  DELETE_ORIGINALS s' = DELETE_ORIGINALS s.
Proof.
  intros E. unfold convertOne in E.
  destruct (lastIndexOf_dot (file_getName inputPath) <? 0); [discriminate|].
  unfold convertSingleFile in E. cbn [JPEG_QUALITY set_progress jvm] in E.
  match type of E with
  | context [tryCommands ?c ?w] => destruct (tryCommands c w) as [[[] w1] t1]
  end.
  - cbn [DELETE_ORIGINALS count_converted set_jvm set_progress] in E.
    destruct (DELETE_ORIGINALS s) eqn:D.
    + unfold deleteOriginal in E.
      cbn [jvm count_converted set_jvm set_progress] in E.
      destruct (file_delete inputPath w1) as [[message|[]] w2];
        cbv beta iota in E; injection E as <- _; exact D.
    + injection E as <- _. exact D.
  - injection E as <- _. reflexivity.
Qed.

(** X10.  One turn of the loop of [convertFiles] raises exactly one of
    the two counters, calls [File.delete] on the original alone and only
    after a successful conversion with [DELETE_ORIGINALS] set, and leaves
    [DELETE_ORIGINALS] as it was. *)
Theorem X10_sketch_removal_follows_success (i : Z) (inputPath : string)
        (s s' : Sketch World) (t : list Ev) :
  convertOne i inputPath s = Some (s', t) ->
  DELETE_ORIGINALS s' = DELETE_ORIGINALS s /\
  ((convertedCount s' = wrap_int (convertedCount s + 1) /\
    failedCount s' = failedCount s /\
    deletions t = if DELETE_ORIGINALS s then [inputPath] else [])
   \/
   (convertedCount s' = convertedCount s /\
    failedCount s' = wrap_int (failedCount s + 1) /\
    deletions t = [])).
Proof.
  intros E. split.
  - exact (pde_convertOne_keeps_mode i inputPath s s' t E).
  - exact (pde_convertOne_outcome i inputPath s s' t E).
Qed.

Lemma pde_convertLoop_keeps_mode (files : list string) :
  forall (i : Z) (s s' : Sketch World) (t : list Ev),
    convertLoop i files s = Some (s', t) ->
    DELETE_ORIGINALS s' = DELETE_ORIGINALS s.
Proof.
  induction files as [|f rest IH]; intros i s s' t E.
  - cbn in E. injection E as <- _. reflexivity.
  - cbn [convertLoop] in E.
    destruct (convertOne i f s) as [[s1 t1]|] eqn:O; [|discriminate].
    destruct (convertLoop (i + 1) rest s1) as [[s2 t2]|] eqn:L; [|discriminate].
    injection E as <- _. rewrite (IH _ _ _ _ L).
    exact (pde_convertOne_keeps_mode i f s s1 t1 O).
Qed.

(** What [convertFiles] leaves when it reaches its end. *)
Lemma pde_convertFiles_end (files : list string) (s s' : Sketch World)
      (t : list Ev) :
  convertFiles files s = Some (s', t) ->
  isConverting s' = false /\ conversionComplete s' = true /\
  currentFileIndex s' = Z.of_nat (List.length files) /\
  currentStatus s' = "Conversion complete!"%string /\
  DELETE_ORIGINALS s' = DELETE_ORIGINALS s /\
  exists s1 t1, convertLoop 0 files s = Some (s1, t1) /\
                convertedCount s' = convertedCount s1 /\
                failedCount s' = failedCount s1.
Proof.
  unfold convertFiles. intros E.
  destruct (convertLoop 0 files s) as [[s1 t1]|] eqn:L; [|discriminate].
  cbn [finish] in E. injection E as <- _.
  cbn. repeat split.
  - exact (pde_convertLoop_keeps_mode files 0 s s1 t1 L).
  - exists s1, t1. repeat split.
Qed.

(** A click changes neither the scan nor the counters. *)
Lemma mousePressed_keeps_counts (mx my : Z) (u : Ui World) :
  let u' := fst (fst (mousePressed mx my u)) in
  heicFiles u' = heicFiles u /\
  convertedCount (core u') = convertedCount (core u) /\
  failedCount (core u') = failedCount (core u).
Proof.
  intros u'. subst u'. unfold mousePressed.
  destruct (uiInitialized u); cbn [negb fst]; [|repeat split].
  unfold click_checkbox, click_start.
  destruct (deleteCheckbox_hit mx my);
    cbn [startEnabled core isConverting conversionComplete heicFiles];
    match goal with
    | |- context [if ?a && startEnabled u then _ else _] =>
        destruct (a && startEnabled u)
    end;
    try match goal with
    | |- context [if ?g then _ else _] => destruct g
    end;
    repeat split.
Qed.

(** X11.  After a scan and a click, when [convertFiles] runs to its end on
    the scanned files, the conversion is marked complete and no longer
    running, the index is the number of files, and the two counters add
    up to that number (as long as it fits an [int]). *)
Theorem X11_sketch_scan_then_convert (folder : string) (mx my : Z)
        (u u3 : Ui World) (t : list Ev) :
  let u1 := fst (scanFolder folder u) in
  let u2 := fst (fst (mousePressed mx my u1)) in
  run_convertFiles u2 = Some (u3, t) ->
  exists files,
    heicFiles u1 = Some files /\ heicFiles u3 = Some files /\
    (Z.of_nat (List.length files) < 2 ^ 31 ->
     convertedCount (core u3) + failedCount (core u3)
     = Z.of_nat (List.length files)) /\
    isConverting (core u3) = false /\
    conversionComplete (core u3) = true /\
    currentFileIndex (core u3) = Z.of_nat (List.length files).
Proof.
  intros u1 u2 R. unfold run_convertFiles in R.
  assert (S : heicFiles u1 = Some (fst (findHeicFiles folder (jvm (core u))))
              /\ convertedCount (core u1) = 0 /\ failedCount (core u1) = 0).
  { subst u1. unfold scanFolder.
    destruct (findHeicFiles folder (jvm (core u))) as [files tf].
    destruct (Z.of_nat (List.length files) =? 0); repeat split. }
  destruct S as (S & C0 & F0).
  destruct (mousePressed_keeps_counts mx my u1) as (K1 & K2 & K3).
  fold u2 in K1, K2, K3. rewrite K1, S in R. rewrite <- K2 in C0.
  rewrite <- K3 in F0.
  set (files := fst (findHeicFiles folder (jvm (core u)))) in *.
  destruct (convertFiles files (core u2)) as [[s' t']|] eqn:E; [|discriminate].
  injection R as <- <-. cbn [core heicFiles].
  destruct (pde_convertFiles_end files (core u2) s' t' E)
    as (I & C & X & _ & _ & s1 & t1 & L & CC & FF).
  exists files. split; [exact S|].
  split; [first [rewrite K1; exact S | exact S | reflexivity]|].
  split; [|repeat split; assumption].
  intros B.
  destruct (pde_convertLoop_tally files 0 (core u2) s1 t1 L) as (_ & _ & T);
    try lia.
Qed.

(** X12.  For a name the enumeration lets through, the script and the
    sketch compute the same base name, the name without its last five
    characters, except for a name of exactly five characters: there the
    script keeps the whole name and the sketch takes the empty string. *)
Theorem X12_base_names_agree (fileName : string) :
  has_heic_suffix fileName = true -> no_slash fileName = true ->
  let sketch :=
    substring 0 (Z.to_nat (lastIndexOf_dot fileName)) fileName in
  (String.length fileName = 5%nat ->
   parse_name fileName = fileName /\ sketch = EmptyString) /\
  (String.length fileName <> 5%nat -> parse_name fileName = sketch).
Proof.
  intros S N sketch.
  pose proof (parse_name_heic fileName S N) as P.
  destruct (pde_baseName fileName S) as (D & _).
  subst sketch. rewrite D, Nat2Z.id. split.
  - intros L. rewrite L in *. cbn [Nat.eqb Nat.sub] in *.
    split; [exact P|]. destruct fileName; reflexivity.
  - intros L. apply Nat.eqb_neq in L. rewrite L in P. exact P.
Qed.

(** ** The handlers *)

(** X13.  When [magick -version] cannot be run or does not exit with
    code zero, [setup] leaves the window uninitialised with its error
    status, never scans, and every later click is ignored. *)
Theorem X13_sketch_without_the_tool (w : World) (target : string)
        (delete : bool) (quality : Z) :
  fst (runtime_exec "magick -version" w) <> Some 0 ->
  let u := fst (setup (initial w target delete quality)) in
  uiInitialized u = false /\ heicFiles u = None /\ startEnabled u = false /\
  currentStatus (core u) = "ERROR: ImageMagick not found!"%string /\
  commands_run (snd (setup (initial w target delete quality)))
  = [("magick -version"%string, fst (runtime_exec "magick -version" w))] /\
  forall mx my, mousePressed mx my u = (u, [], []).
Proof.
  intros N u. subst u. unfold setup, checkImageMagick.
  cbn [initial core jvm].
  destruct (runtime_exec "magick -version" w) as [[code|] w1];
    cbn [fst] in N |- *.
  - destruct (code =? 0) eqn:E.
    + apply Z.eqb_eq in E. subst code. contradiction.
    + cbn. repeat split.
  - cbn. repeat split.
Qed.

Lemma widgets_do_not_overlap (enabled : bool) (mx my : Z) :
  (folderSelectButton_isClicked mx my = true ->
   deleteCheckbox_hit mx my = false /\
   startButton_isClicked enabled mx my = false) /\
  (deleteCheckbox_hit mx my = true ->
   startButton_isClicked enabled mx my = false).
Proof.
  unfold folderSelectButton_isClicked, startButton_isClicked,
    deleteCheckbox_hit, button_isClicked.
  split; [intros A; split | intros A];
    apply not_true_is_false; intros B;
    repeat rewrite andb_true_iff in A; repeat rewrite andb_true_iff in B;
    rewrite !Z.leb_le in A; rewrite !Z.leb_le in B; lia.
Qed.

(** X14.  One click reaches at most one widget: it issues at most one
    request to the runtime, a click that issues a request prints nothing
    and leaves delete mode alone, and a click that toggles delete mode
    issues no request and changes nothing else of the conversion state. *)
Theorem X14_one_widget_per_click (mx my : Z) (u : Ui World) :
  let r := mousePressed mx my u in
  let u' := fst (fst r) in
  (List.length (snd r) <= 1)%nat /\
  (snd r <> [] ->
   snd (fst r) = [] /\ deleteChecked u' = deleteChecked u /\
   DELETE_ORIGINALS (core u') = DELETE_ORIGINALS (core u)) /\
  (snd (fst r) <> [] -> snd r = [] /\ core u' = set_delete (deleteChecked u') (core u)).
Proof.
  intros r u'. subst r u'. unfold mousePressed.
  destruct (uiInitialized u); cbn [negb].
  2: { cbn. repeat split; try lia; try contradiction. }
  destruct (widgets_do_not_overlap (startEnabled u) mx my) as (W1 & W2).
  unfold click_checkbox, click_start.
  destruct (folderSelectButton_isClicked mx my).
  - destruct (W1 eq_refl) as (-> & S).
    cbn [startEnabled]. rewrite S. cbn.
    repeat split; try lia; try contradiction.
  - destruct (deleteCheckbox_hit mx my).
    + cbn [startEnabled]. rewrite (W2 eq_refl). cbn.
      repeat split; try lia; try contradiction.
    + destruct (startButton_isClicked (startEnabled u) mx my && startEnabled u);
        [destruct (negb (isConverting (core u))
                   && negb (conversionComplete (core u))
                   && has_files (heicFiles u))|];
        cbn; repeat split; try lia; try contradiction.
Qed.

Lemma scanFolder_consistent (folder : string) (u : Ui World) :
  deleteChecked u = DELETE_ORIGINALS (core u) ->
  consistent (fst (scanFolder folder u)).
Proof.
  intros D. unfold scanFolder, consistent.
  destruct (findHeicFiles folder (jvm (core u))) as [[|f files] tf]; cbn;
    (split; [exact D|]); [discriminate | reflexivity].
Qed.

(** X15.  After [setup], and after every handler and every completed
    conversion from then on, the checkbox shows [DELETE_ORIGINALS] and
    the start button is enabled only over a scan that found files. *)
Theorem X15_handlers_keep_consistent :
  (forall (w : World) target delete quality,
      consistent (fst (setup (initial w target delete quality)))) /\
  (forall (u : Ui World),
      consistent u ->
      (forall folder, consistent (fst (scanFolder folder u))) /\
      (forall selection, consistent (fst (folderSelected selection u))) /\
      (forall mx my, consistent (fst (fst (mousePressed mx my u)))) /\
      (forall u' t, run_convertFiles u = Some (u', t) -> consistent u')).
Proof.
  split.
  - intros w target delete quality. unfold setup.
    cbn [initial core jvm DELETE_ORIGINALS TARGET_FOLDER].
    destruct (checkImageMagick w) as [[[] w1] t].
    + destruct (String.eqb target "").
      * split; [reflexivity | discriminate].
      * match goal with
        | |- context [scanFolder ?f ?u0] =>
            pose proof (scanFolder_consistent f u0 eq_refl) as C;
            destruct (scanFolder f u0) as [u2 t2]
        end.
        exact C.
    + split; [reflexivity | discriminate].
  - intros u (D & S). split; [|split; [|split]].
    + intros folder. apply scanFolder_consistent. exact D.
    + intros [file|]; unfold folderSelected.
      * match goal with
        | |- context [scanFolder ?f ?u0] =>
            pose proof (scanFolder_consistent f u0 D) as C;
            destruct (scanFolder f u0) as [u2 t2]
        end.
        exact C.
      * split; [exact D | exact S].
    + intros mx my. unfold mousePressed.
      destruct (uiInitialized u); cbn [negb fst]; [|split; assumption].
      unfold click_checkbox, click_start.
      destruct (deleteCheckbox_hit mx my);
        cbn [startEnabled core isConverting conversionComplete heicFiles];
        match goal with
        | |- context [if ?a && startEnabled u then _ else _] =>
            destruct (a && startEnabled u)
        end;
        try match goal with
        | |- context [if ?g then _ else _] => destruct g
        end;
        split; cbn; auto.
    + intros u' t R. unfold run_convertFiles in R.
      destruct (heicFiles u) as [files|] eqn:F; [|discriminate].
      destruct (convertFiles files (core u)) as [[s' t']|] eqn:E; [|discriminate].
      injection R as <- _.
      destruct (pde_convertFiles_end files (core u) s' t' E)
        as (_ & _ & _ & _ & K & _).
      split; cbn; [rewrite K; exact D | exact S].
Qed.

(** X16.  A click starts the conversion only when the window is
    initialised, files were found, and no conversion is running or
    complete; once it has started one, no click starts another, neither
    while it runs nor after it has run to its end. *)
Theorem X16_no_second_start (mx my : Z) (u : Ui World) :
  let u1 := fst (fst (mousePressed mx my u)) in
  In StartConvertFiles (snd (mousePressed mx my u)) ->
  uiInitialized u = true /\ has_files (heicFiles u) = true /\
  isConverting (core u) = false /\ conversionComplete (core u) = false /\
  isConverting (core u1) = true /\
  (forall a b, ~ In StartConvertFiles (snd (mousePressed a b u1))) /\
  (forall u2 t, run_convertFiles u1 = Some (u2, t) ->
                forall a b, ~ In StartConvertFiles (snd (mousePressed a b u2))).
Proof.
  intros u1 I.
  assert (G : forall a b (v : Ui World),
             (isConverting (core v) = true \/ conversionComplete (core v) = true) ->
             ~ In StartConvertFiles (snd (mousePressed a b v))).
  { intros a b v B. unfold mousePressed.
    destruct (uiInitialized v); cbn [negb snd]; [|intros []].
    unfold click_checkbox, click_start.
    destruct (deleteCheckbox_hit a b);
      cbn [startEnabled core isConverting conversionComplete heicFiles set_delete];
      match goal with
      | |- context [if ?x && startEnabled v then _ else _] =>
          destruct (x && startEnabled v)
      end;
      try (destruct B as [-> | ->]; cbn [negb andb];
           rewrite ?andb_false_r; cbn [andb]);
      cbn [snd]; rewrite ?app_nil_r;
      destruct (folderSelectButton_isClicked a b); cbn;
      intuition discriminate. }
  subst u1. revert I. unfold mousePressed.
  destruct (uiInitialized u) eqn:U; cbn [negb snd fst]; [|intros []].
  unfold click_checkbox, click_start.
  destruct (widgets_do_not_overlap (startEnabled u) mx my) as (_ & W2).
  destruct (deleteCheckbox_hit mx my).
  - cbn [startEnabled]. rewrite (W2 eq_refl). cbn [andb snd fst].
    rewrite app_nil_r.
    destruct (folderSelectButton_isClicked mx my); cbn; intuition discriminate.
  - destruct (startButton_isClicked (startEnabled u) mx my && startEnabled u).
    2: { cbn [snd]. rewrite app_nil_r.
         destruct (folderSelectButton_isClicked mx my); cbn;
           intuition discriminate. }
    destruct (isConverting (core u)) eqn:C1;
      destruct (conversionComplete (core u)) eqn:C2;
      destruct (has_files (heicFiles u)) eqn:HF; cbn [negb andb snd fst];
      try (rewrite app_nil_r;
           destruct (folderSelectButton_isClicked mx my); cbn;
           intuition discriminate).
    intros _. repeat split.
    + intros a b. apply G. left. reflexivity.
    + intros u2 t R a b. apply G. right.
      unfold run_convertFiles in R. cbn [heicFiles core] in R.
      destruct (heicFiles u) as [files|]; [|discriminate].
      destruct (convertFiles files (start_converting (core u)))
        as [[s' t']|] eqn:E; [|discriminate].
      injection R as <- _. cbn [core].
      exact (proj1 (proj2 (pde_convertFiles_end _ _ _ _ E))).
Qed.

(** X17.  A scan resets the counters and the conversion flags and
    enables the start button exactly when it found files; a click inside
    the start button then starts the conversion exactly in that case. *)
Theorem X17_scan_arms_the_start_button (folder : string) (u : Ui World)
        (mx my : Z) :
  uiInitialized u = true ->
  let u1 := fst (scanFolder folder u) in
  50 <= mx <= 200 -> 260 <= my <= 295 ->
  snd (mousePressed mx my u1)
  = (if has_files (heicFiles u1) then [StartConvertFiles] else []) /\
  convertedCount (core u1) = 0 /\ failedCount (core u1) = 0 /\
  isConverting (core u1) = false /\ conversionComplete (core u1) = false /\
  startEnabled u1 = has_files (heicFiles u1).
Proof.
  intros U u1 X Y. subst u1. unfold scanFolder.
  assert (F : folderSelectButton_isClicked mx my = false).
  { unfold folderSelectButton_isClicked, button_isClicked.
    apply not_true_is_false. intros B. repeat rewrite andb_true_iff in B.
    rewrite !Z.leb_le in B. lia. }
  assert (K : deleteCheckbox_hit mx my = false).
  { unfold deleteCheckbox_hit.
    apply not_true_is_false. intros B. repeat rewrite andb_true_iff in B.
    rewrite !Z.leb_le in B. lia. }
  assert (S : startButton_isClicked true mx my = true).
  { unfold startButton_isClicked, button_isClicked.
    repeat rewrite andb_true_iff. rewrite !Z.leb_le. repeat split; lia. }
  destruct (findHeicFiles folder (jvm (core u))) as [[|f files] tf].
  - cbn [List.length Z.of_nat Z.eqb fst]. unfold mousePressed.
    cbn [uiInitialized]. rewrite U. cbn [negb]. rewrite F.
    unfold click_checkbox. rewrite K. unfold click_start.
    cbn [startEnabled]. rewrite andb_false_r. cbn. repeat split.
  - replace (Z.of_nat (List.length (f :: files)) =? 0) with false
      by (symmetry; apply Z.eqb_neq; cbn [List.length]; lia).
    cbn [fst]. unfold mousePressed. cbn [uiInitialized]. rewrite U.
    cbn [negb]. rewrite F. unfold click_checkbox. rewrite K.
    unfold click_start. cbn [startEnabled]. rewrite S. cbn. repeat split.
Qed.

End MoreOfTheSketch.

(** * The further properties on the concrete host *)

Lemma X2_witness :
  findHeicFiles "/sealed" (mem0 Mock.broken_fs)
  = (Exited 1, mem0 Mock.broken_fs,
     [EvReaddir "/sealed";
      EvPrint (red ++ ("ERROR: Cannot read directory " ++ dquote ++ "/sealed"
                         ++ dquote) ++ reset);
      EvPrint (red ++ "Details: ENOENT: no such file or directory, scandir '/sealed'"
                 ++ reset)]) /\
  fst (fst (findHeicFiles "/broken" (mem0 Mock.broken_fs))) = Exited 1 /\
  fst (fst (node ["/broken"] Mock.broken_fs)) = Exited 1 /\
  execs (snd (node ["/broken"] Mock.broken_fs))
  = [("magick -version", 0%Z); ("magick -list format", 0%Z)].
Proof.
  destruct (X2_enumeration_failure_is_fatal (H := Mock.host) "/sealed"
              (mem0 Mock.broken_fs)) as (A & _).
  destruct (X2_enumeration_failure_is_fatal (H := Mock.host) "/broken"
              (mem0 Mock.broken_fs)) as (_ & B).
  split; [apply A; reflexivity|]. split.
  - rewrite (B ["a.heic"] "ghost.heic" ["b.heic"]
               "ENOENT: no such file or directory, lstat '/broken/ghost.heic'").
    + reflexivity.
    + reflexivity.
    + intros g [<- | []] _. eexists. reflexivity.
    + reflexivity.
    + reflexivity.
  - split; reflexivity.
Defined.

Lemma X4_witness :
  unlinks (snd (node ["/photos"] (Mock.photos_fs [] []))) = [].
Proof.
  apply (X4_preserve_mode_removes_nothing (H := Mock.host) ["/photos"]
           (Mock.photos_fs [] [])
           {| targetFolder := "/photos"; deleteOriginals := false |}
           (mem0 (Mock.photos_fs [] [])) _ ltac:(lazy; reflexivity) eq_refl).
Defined.

Lemma X5_witness :
  let bad := strategies "/photos/b.heic" "/photos/b.jpg" in
  let run := node ["/photos"; "delete"] (Mock.photos_fs bad ["/photos/c.HEIC"]) in
  deleted_count (snd run) + delete_failed_count (snd run) = 2 /\
  converted (snd (fst run)) = 2 /\
  unlinks (snd run) = [("/photos/a.heic", true); ("/photos/c.HEIC", false)].
Proof.
  intros bad run.
  destruct (X5_removals_follow_conversions (H := Mock.host)
              ["/photos"; "delete"] (Mock.photos_fs bad ["/photos/c.HEIC"])
              {| targetFolder := "/photos"; deleteOriginals := true |}
              ["a.heic"; "b.heic"; "c.HEIC"] _ _ ltac:(lazy; reflexivity))
    as (W & _).
  split; [exact W|]. split; reflexivity.
Defined.

Lemma X6_witness :
  fs_existsSync "/photos" (after_probes (Mock.photos_fs [] [])) = true /\
  fs_lstatSync "/photos" (after_probes (Mock.photos_fs [] [])) = inr Directory.
Proof.
  destruct (X6_loop_only_after_preconditions (H := Mock.host)
              ["/photos"] (Mock.photos_fs [] [])
              {| targetFolder := "/photos"; deleteOriginals := false |}
              ["a.heic"; "b.heic"; "c.HEIC"] _ _ ltac:(lazy; reflexivity))
    as (_ & E & D & _).
  split; [exact E | exact D].
Defined.

Lemma X7_witness :
  let all_bad :=
    (strategies "/photos/a.heic" "/photos/a.jpg"
       ++ strategies "/photos/b.heic" "/photos/b.jpg"
       ++ strategies "/photos/c.HEIC" "/photos/c.jpg")%list in
  let run := node ["/photos"] (Mock.photos_fs all_bad []) in
  exit_status_of (fst (fst run)) = 0%Z /\
  converted (snd (fst run)) = 0 /\ failed (snd (fst run)) = 3.
Proof.
  intros all_bad run. split; [|split; reflexivity].
  apply (X7_failures_do_not_change_exit_status (H := Mock.host)
           ["/photos"] (Mock.photos_fs all_bad [])
           {| targetFolder := "/photos"; deleteOriginals := false |}
           ["a.heic"; "b.heic"; "c.HEIC"] _ _ ltac:(lazy; reflexivity)).
Defined.

Lemma X8_witness :
  let bad := [cmd_direct "/photos/a.heic" "/photos/a.jpg";
              cmd_direct "/photos/b.heic" "/photos/b.jpg";
              cmd_format "/photos/b.heic" "/photos/b.jpg";
              cmd_orient "/photos/b.heic" "/photos/b.jpg"] in
  let run := node ["/photos"] (Mock.photos_fs bad []) in
  List.length (conversions (snd run)) = 6 /\
  converted (snd (fst run)) = List.length (successes (snd run)) /\
  List.length (successes (snd run)) = 2 /\
  failed (snd (fst run)) = 1.
Proof.
  intros bad run.
  destruct (X8_tallies_read_off_the_commands (H := Mock.host)
              ["/photos"] (Mock.photos_fs bad [])
              {| targetFolder := "/photos"; deleteOriginals := false |}
              ["a.heic"; "b.heic"; "c.HEIC"] _ _ ltac:(lazy; reflexivity))
    as (_ & C & _).
  split; [reflexivity|]. split; [exact C|]. split; reflexivity.
Defined.

(** * The further properties on the concrete runtime of the sketch *)

Lemma X9_witness :
  let i := "/photos/a.heic" in
  let o := "/photos/a.jpg" in
  let cmds := Pde.commands 90 i o in
  let box := MockSketch.photos_box [nth 0 cmds ""] [] in
  Pde.commands_run (snd (Pde.convertSingleFile 90 i o box))
  = [(nth 0 cmds "", Some 1%Z); (nth 1 cmds "", Some 0%Z)] /\
  exists before c,
    snd (Pde.convertSingleFile 90 i o box)
    = (before ++ [Pde.Exec c (Some 0%Z)])%list.
Proof.
  intros i o cmds box. split; [reflexivity|].
  destruct (X9_sketch_attempts 90 i o box)
    as (_ & _ & T & _).
  destruct (T eq_refl) as (before & c & E & _).
  exists before, c. exact E.
Defined.

Lemma X10_witness :
  let box := MockSketch.photos_box [] [] in
  let s := PdeUi.core (PdeUi.initial box "" true 90) in
  exists s' t,
    Pde.convertOne 0 "/photos/a.heic" s = Some (s', t) /\
    Pde.convertedCount s' = 1%Z /\ Pde.deletions t = ["/photos/a.heic"].
Proof.
  intros box s.
  destruct (Pde.convertOne 0 "/photos/a.heic" s) as [[s' t]|] eqn:E;
    [|vm_compute in E; discriminate E].
  exists s', t. split; [reflexivity|].
  destruct (X10_sketch_removal_follows_success
              0 "/photos/a.heic" s s' t E) as (_ & [(C & _ & D) | (C & _)]).
  - split; [exact C | exact D].
  - exfalso. vm_compute in E. injection E as <- _. vm_compute in C.
    discriminate C.
Defined.

Lemma X11_witness :
  let bad := Pde.commands 90 "/photos/b.heic" "/photos/b.jpg" in
  let u := fst (PdeUi.setup (PdeUi.initial (MockSketch.photos_box bad []) "" false 90)) in
  let u2 := fst (fst (PdeUi.mousePressed 100 270
                        (fst (PdeUi.scanFolder "/photos" u)))) in
  exists u3 t,
    PdeUi.run_convertFiles u2 = Some (u3, t) /\
    PdeUi.heicFiles u3
    = Some ["/photos/a.heic"; "/photos/b.heic"; "/photos/c.HEIC"] /\
    (Pde.convertedCount (PdeUi.core u3) + Pde.failedCount (PdeUi.core u3) = 3)%Z.
Proof.
  intros bad u u2.
  destruct (PdeUi.run_convertFiles u2)
    as [[u3 t]|] eqn:E; [|vm_compute in E; discriminate E].
  exists u3, t. split; [reflexivity|].
  destruct (X11_sketch_scan_then_convert "/photos" 100 270 u u3 t E)
    as (files & F1 & F2 & T & _).
  vm_compute in F1. injection F1 as <-.
  split; [exact F2|]. apply T. vm_compute. reflexivity.
Defined.

Lemma X12_witness :
  parse_name "c.HEIC" = "c" /\
  parse_name ".heic" = ".heic" /\
  substring 0 (Z.to_nat (Pde.lastIndexOf_dot ".heic")) ".heic" = "".
Proof.
  destruct (X12_base_names_agree "c.HEIC" eq_refl eq_refl) as (_ & A).
  destruct (X12_base_names_agree ".heic" eq_refl eq_refl) as (B & _).
  split; [exact (A ltac:(discriminate))|]. exact (B eq_refl).
Defined.

Lemma X13_witness :
  let u := fst (PdeUi.setup (PdeUi.initial MockSketch.no_magick "/photos" true 90)) in
  PdeUi.uiInitialized u = false /\
  PdeUi.mousePressed 100 270 u = (u, [], []).
Proof.
  intros u.
  destruct (X13_sketch_without_the_tool (H := MockSketch.jvm_box)
              (H0 := MockSketch.desk_box) MockSketch.no_magick "/photos" true 90
              ltac:(discriminate)) as (U & _ & _ & _ & _ & M).
  split; [exact U | exact (M 100%Z 270%Z)].
Defined.

Lemma X14_witness :
  let u := fst (PdeUi.setup (PdeUi.initial (MockSketch.photos_box [] [])
                               "/photos" false 90)) in
  snd (PdeUi.mousePressed 100 270 u) = [PdeUi.StartConvertFiles] /\
  snd (fst (PdeUi.mousePressed 100 270 u)) = [] /\
  snd (fst (PdeUi.mousePressed 100 220 u)) = [Pde.Println "Delete mode: ON"] /\
  snd (PdeUi.mousePressed 100 220 u) = [].
Proof.
  intros u.
  destruct (X14_one_widget_per_click 100 270 u) as (_ & A & _).
  destruct (X14_one_widget_per_click 100 220 u) as (_ & _ & B).
  split; [reflexivity|]. split; [apply A; discriminate|].
  split; [reflexivity|]. apply B. discriminate.
Defined.

Lemma X15_witness :
  let u := fst (PdeUi.setup (PdeUi.initial (MockSketch.photos_box [] [])
                               "/photos" true 90)) in
  PdeUi.consistent u /\
  PdeUi.consistent (fst (fst (PdeUi.mousePressed 100 220 u))) /\
  Pde.DELETE_ORIGINALS (PdeUi.core (fst (fst (PdeUi.mousePressed 100 220 u))))
  = false.
Proof.
  intros u.
  destruct (X15_handlers_keep_consistent) as (S & K).
  pose proof (S (MockSketch.photos_box [] []) "/photos" true 90%Z) as C.
  fold u in C. destruct (K u C) as (_ & _ & M & _).
  split; [exact C|]. split; [exact (M 100%Z 220%Z) | reflexivity].
Defined.

Lemma X16_witness :
  let u := fst (PdeUi.setup (PdeUi.initial (MockSketch.photos_box [] [])
                               "/photos" false 90)) in
  let u1 := fst (fst (PdeUi.mousePressed 100 270 u)) in
  snd (PdeUi.mousePressed 100 270 u) = [PdeUi.StartConvertFiles] /\
  ~ In PdeUi.StartConvertFiles (snd (PdeUi.mousePressed 100 270 u1)).
Proof.
  intros u u1.
  destruct (X16_no_second_start (H := MockSketch.jvm_box)
              (H0 := MockSketch.desk_box) 100 270 u
              ltac:(left; reflexivity)) as (_ & _ & _ & _ & _ & N & _).
  split; [reflexivity | exact (N 100%Z 270%Z)].
Defined.

Lemma X17_witness :
  let u := fst (PdeUi.setup (PdeUi.initial (MockSketch.photos_box [] [])
                               "" false 90)) in
  snd (PdeUi.mousePressed 100 270 (fst (PdeUi.scanFolder "/photos" u)))
  = [PdeUi.StartConvertFiles] /\
  snd (PdeUi.mousePressed 100 270 (fst (PdeUi.scanFolder "/nowhere" u))) = [].
Proof.
  intros u.
  destruct (X17_scan_arms_the_start_button (H := MockSketch.jvm_box)
              (H0 := MockSketch.desk_box) "/photos" u 100 270 eq_refl
              ltac:(lia) ltac:(lia)) as (A & _).
  destruct (X17_scan_arms_the_start_button (H := MockSketch.jvm_box)
              (H0 := MockSketch.desk_box) "/nowhere" u 100 270 eq_refl
              ltac:(lia) ltac:(lia)) as (B & _).
  split; [exact A | exact B].
Defined.
